(** * Website health prober: a shallow embedding of [website_checker.py]
      and of the status model of [models.py].

    Python [str] values are sequences of Unicode code points, so [len],
    slicing and the [in] operator count and compare code points.  The
    network, the clock and the event loop are the environment: what they
    do is supplied to the model as data (replies per attempt, clock
    readings, the order in which tasks complete).  The floats that the
    code computes with (clock readings, pauses, percentages) are IEEE 754
    binary64 numbers; the ratings and coordinates of a business, which are
    only stored and compared, are the rationals they stand for. *)

From Stdlib Require Import String Ascii.
From Stdlib Require Import List Bool Arith NArith ZArith QArith Lia.
From Stdlib Require Import DecimalString Permutation Sorted.
From Stdlib Require Import SpecFloat.
Import ListNotations.
Close Scope Q_scope.
Local Open Scope list_scope.

(* ================================================================== *)
(** ** Python strings *)
(* ================================================================== *)

Module PyStr.

Definition char := N.
Definition str := list char.

(** A literal written with ASCII characters only. *)
Definition lit (s : string) : str :=
  map N_of_ascii (list_ascii_of_string s).

Definition char_in (chars : str) (c : char) : bool :=
  existsb (N.eqb c) chars.

(** [str.isspace] on one code point: the code points that [str.strip()]
    removes when it is called without an argument. *)
Definition whitespace : str :=
  [9; 10; 11; 12; 13; 28; 29; 30; 31; 32; 133; 160; 5760;
   8192; 8193; 8194; 8195; 8196; 8197; 8198; 8199; 8200; 8201; 8202;
   8232; 8233; 8239; 8287; 12288]%N.

Definition isspace (c : char) : bool := char_in whitespace c.

Fixpoint lstrip_by (drop : char -> bool) (s : str) : str :=
  match s with
  | [] => []
  | c :: t => if drop c then lstrip_by drop t else s
  end.

Fixpoint rstrip_by (drop : char -> bool) (s : str) : str :=
  match s with
  | [] => []
  | c :: t =>
      match rstrip_by drop t with
      | [] => if drop c then [] else [c]
      | t' => c :: t'
      end
  end.

(** [s.strip()] *)
Definition strip (s : str) : str :=
  rstrip_by isspace (lstrip_by isspace s).

(** [s.rstrip(chars)] *)
Definition rstrip (chars : str) (s : str) : str :=
  rstrip_by (char_in chars) s.

(** [s.lstrip(chars)] *)
Definition lstrip (chars : str) (s : str) : str :=
  lstrip_by (char_in chars) s.

(** [s.startswith(p)] *)
Fixpoint startswith (s p : str) {struct p} : bool :=
  match p with
  | [] => true
  | a :: p' =>
      match s with
      | [] => false
      | b :: s' => N.eqb a b && startswith s' p'
      end
  end.

(** [s.startswith((p1, p2, ...))] *)
Definition startswith_any (s : str) (ps : list str) : bool :=
  existsb (startswith s) ps.

(** [needle in s] *)
Fixpoint contains (s needle : str) : bool :=
  startswith s needle ||
  match s with
  | [] => false
  | _ :: t => contains t needle
  end.

(** [s.lower()].  Python lowers by the Unicode tables; the model lowers
    the ASCII capitals and leaves every other code point alone, which is
    what Python does on ASCII text and on caseless scripts such as Thai
    (every phrase table of the checker is of that kind). *)
Definition lower_char (c : char) : char :=
  if (65 <=? c)%N && (c <=? 90)%N then (c + 32)%N else c.

Definition lower (s : str) : str := map lower_char s.

(** [s[:n]] for [n >= 0] *)
Definition slice_to (n : nat) (s : str) : str := firstn n s.

(** [s[n:]] for [n >= 0] *)
Definition slice_from (n : nat) (s : str) : str := skipn n s.

(** [str(n)] for an [int] *)
Definition str_of_int (z : Z) : str :=
  lit (NilEmpty.string_of_int (Z.to_int z)).

(** [s.replace(c, "")] for a one-character [c] *)
Definition remove_char (c : char) (s : str) : str :=
  filter (fun x => negb (N.eqb x c)) s.

(** The specification-side reading of [needle in s]. *)
Definition occurs_in (needle s : str) : Prop :=
  exists pre post, s = pre ++ needle ++ post.

End PyStr.
Import PyStr.

(* ================================================================== *)
(** ** Python floats *)
(* ================================================================== *)

(** A [float] is a binary64 number: 53 bits of precision, exponents up to
    1024, results rounded to the nearest number with ties to even.  The
    operations are those of the Standard Library's specification of
    floating-point arithmetic, at that precision. *)
Module Float64.

Definition float : Type := spec_float.

(** [x - y], [x * y], [x / y] and [x <= y] on two floats *)
Abbreviation fsub := (SFsub 53 1024).
Abbreviation fmul := (SFmul 53 1024).
Abbreviation fdiv := (SFdiv 53 1024).
Abbreviation fleb := SFleb.

(** [float(z)] for an [int] below [2 ** 1024]; an [int] operand of a
    float operation is converted like this. *)
Abbreviation of_int z := (binary_normalize 53 1024 z 0 false).

(** The literal [0.5] *)
Abbreviation half := (S754_finite false 4503599627370496 (-53)).

(** The least exponent a mantissa of a given magnitude may have. *)
Abbreviation fexp64 := (fexp 53 1024).

(** A value that is an [int] in one branch and a [float] in another. *)
Inductive number : Type :=
| PyInt (z : Z)
| PyFloat (f : float).

End Float64.
Import Float64.

(* ================================================================== *)
(** ** models.py *)
(* ================================================================== *)

Module Models.

Inductive WebsiteStatus : Set :=
| OK
| NO_WEBSITE
| NO_DNS
| DEAD_DOMAIN
| SSL_ERROR
| TIMEOUT
| CONNECTION_ERROR
| HTTP_ERROR_4XX
| HTTP_ERROR_5XX
| REDIRECT_PARKING
| UNDER_CONSTRUCTION
| UNKNOWN.

Definition status_eq_dec (a b : WebsiteStatus) : {a = b} + {a <> b}.
Proof. decide equality. Defined.

Definition status_eqb (a b : WebsiteStatus) : bool :=
  if status_eq_dec a b then true else false.

Definition DEAD_WEBSITE_STATUSES : list WebsiteStatus :=
  [ NO_DNS; DEAD_DOMAIN; SSL_ERROR; TIMEOUT; CONNECTION_ERROR;
    HTTP_ERROR_4XX; HTTP_ERROR_5XX; REDIRECT_PARKING; UNDER_CONSTRUCTION ].

(** [checked_at], the wall-clock stamp the dataclass takes when the
    record is built, is not part of the model. *)
Record WebsiteCheckResult : Type := mkResult {
  url : str;
  status : WebsiteStatus;
  status_code : option Z;
  reason : str;
  response_time_ms : option float;
  final_url : option str
}.

(** [self.status in DEAD_WEBSITE_STATUSES] *)
Definition is_dead (r : WebsiteCheckResult) : bool :=
  existsb (status_eqb (status r)) DEAD_WEBSITE_STATUSES.

End Models.
Import Models.

(* ================================================================== *)
(** ** Results of fallible code *)
(* ================================================================== *)

Module Exc.

(** The [except] clauses of the checker tell four kinds of exception
    apart, in this order; [str(e)] is the message. *)
Inductive exn_kind : Set :=
| ConnectError
| TimeoutException
| TooManyRedirects
| OtherException.

Record exn : Type := mkExn { kind : exn_kind; message : str }.

Inductive outcome (A : Type) : Type :=
| Return (a : A)
| Raise (e : exn).
Arguments Return {A} a.
Arguments Raise {A} e.

Definition bind {A B} (m : outcome A) (k : A -> outcome B) : outcome B :=
  match m with
  | Return a => k a
  | Raise e => Raise e
  end.

Definition raises {A} (m : outcome A) : Prop := exists e, m = Raise e.

(** What awaiting a coroutine comes to: the value it returns, or nothing
    when it waits for ever. *)
Inductive awaited (A : Type) : Type :=
| Done (a : A)
| Pending.
Arguments Done {A} a.
Arguments Pending {A}.

End Exc.
Import Exc.

Declare Scope exc_scope.
Delimit Scope exc_scope with exc.
Notation "x <- m ;; k" := (bind m (fun x => k))
  (at level 61, m at next level, right associativity) : exc_scope.

(* ================================================================== *)
(** ** What the checker takes from the Python runtime *)
(* ================================================================== *)

(** [str.lower] and [urllib.parse.urlparse(url).netloc] belong to Python,
    not to the repository; the checker is modelled over any implementation
    of them.  [urlparse_netloc] is [None] where [urlparse] raises. *)
Class PyRuntime : Type := {
  str_lower : str -> str;
  urlparse_netloc : str -> option str
}.

Module RefRuntime.

(** A reference runtime for evaluating the checker on concrete inputs:
    ASCII lowering, and the network location of an URL written as
    [scheme://netloc/path?query#fragment]. *)

Definition scheme_chars : str :=
  lit "abcdefghijklmnopqrstuvwxyzABCDEFGHIJKLMNOPQRSTUVWXYZ0123456789+-.".

Definition C0_CONTROL_OR_SPACE : str := map N.of_nat (seq 0 33).

Definition is_ascii_alpha (c : char) : bool :=
  ((65 <=? c)%N && (c <=? 90)%N) || ((97 <=? c)%N && (c <=? 122)%N).

Fixpoint take_until (stop : char -> bool) (s : str) : str :=
  match s with
  | [] => []
  | c :: t => if stop c then [] else c :: take_until stop t
  end.

Fixpoint drop_until (stop : char -> bool) (s : str) : str :=
  match s with
  | [] => []
  | c :: t => if stop c then s else drop_until stop t
  end.

(** [url] without its scheme, when it has one *)
Definition after_scheme (url : str) : str :=
  let name := take_until (N.eqb 58%N) url in
  match url, drop_until (N.eqb 58%N) url with
  | c0 :: _, _ :: rest =>
      if negb (Nat.eqb (length name) 0) && is_ascii_alpha c0
         && forallb (char_in scheme_chars) name
      then rest else url
  | _, _ => url
  end.

Definition netloc (url : str) : option str :=
  let url := lstrip C0_CONTROL_OR_SPACE url in
  let url := remove_char 10%N (remove_char 13%N (remove_char 9%N url)) in
  let url := after_scheme url in
  if startswith url (lit "//") then
    let n := take_until (char_in (lit "/?#")) (slice_from 2 url) in
    let has_open := char_in n 91%N in
    let has_close := char_in n 93%N in
    if (has_open && negb has_close) || (has_close && negb has_open)
    then None
    else Some n
  else Some [].

Definition runtime : PyRuntime :=
  {| str_lower := lower; urlparse_netloc := netloc |}.

End RefRuntime.

(* ================================================================== *)
(** ** website_checker.py *)
(* ================================================================== *)

Module Checker.

(** *** Module constants *)

Definition SKIP_DOMAINS : list str :=
  map lit
    [ "google.com"; "google.co.th"; "facebook.com"; "fb.com";
      "instagram.com"; "twitter.com"; "x.com"; "youtube.com";
      "tiktok.com"; "line.me"; "linkedin.com";
      "shopee.co.th"; "lazada.co.th"; "grab.com"; "foodpanda.co.th";
      "lineman.line.me";
      "booking.com"; "agoda.com"; "airbnb.com"; "tripadvisor.com" ]%string.

Definition PARKING_PAGE_DOMAINS : list str :=
  map lit
    [ "sedoparking.com"; "sedo.com"; "hugedomains.com"; "godaddy.com";
      "parkingcrew.net"; "bodis.com"; "above.com"; "undeveloped.com";
      "dan.com"; "afternic.com"; "domainmarket.com";
      "thnic.co.th"; "thnic.net";
      "dreamhost.com"; "bluehost.com"; "hostgator.com"; "namecheap.com";
      "hover.com"; "porkbun.com";
      "parked.com"; "parkedcom.com"; "parkeddomain.com" ]%string.

(** The two Thai entries of [PARKING_PAGE_KEYWORDS], as code points. *)
Definition thai_domain_on_sale : str :=
  [3650; 3604; 3648; 3617; 3609; 3609; 3637; 3657; 3585; 3635; 3621;
   3633; 3591; 3586; 3634; 3618]%N.
Definition thai_domain_name_free : str :=
  [3594; 3639; 3656; 3629; 3650; 3604; 3648; 3617; 3609; 3623; 3656;
   3634; 3591]%N.

Definition PARKING_PAGE_KEYWORDS : list str :=
  map lit
    [ "domain is for sale"; "this domain is for sale"; "buy this domain";
      "domain name for sale"; "domain may be for sale";
      "this webpage is parked"; "domain has expired"; "domain expired";
      "renewal grace period" ]%string
  ++ [ thai_domain_on_sale; thai_domain_name_free ]
  ++ map lit
    [ "the domain has expired"; "expired domain";
      "registrar verification"; "coming soon"; "under construction";
      "website coming soon"; "parked free"; "parked domain" ]%string.

(** The three Thai entries of the [indicators] list of
    [_is_under_construction]. *)
Definition thai_being_improved : str :=
  [3585; 3635; 3621; 3633; 3591; 3611; 3619; 3633; 3610; 3611; 3619;
   3640; 3591]%N.
Definition thai_soon : str :=
  [3648; 3619; 3655; 3623; 3654; 3609; 3637; 3657]%N.
Definition thai_launching_soon : str :=
  [3648; 3611; 3636; 3604; 3605; 3633; 3623; 3648; 3619; 3655; 3623;
   3654; 3609; 3637; 3657]%N.

Definition indicators : list str :=
  map lit
    [ "under construction"; "coming soon"; "website coming soon";
      "launching soon"; "we're working on it" ]%string
  ++ [ thai_being_improved; thai_soon; thai_launching_soon ].

Definition DNS_MARKERS : list str :=
  map lit
    [ "nodename nor servname"; "name or service not known";
      "getaddrinfo failed"; "no address associated"; "nxdomain";
      "dns" ]%string.

Definition SSL_MARKERS : list str :=
  map lit [ "ssl"; "certificate"; "handshake" ]%string.

(** *** The checker object

    [self.semaphore] is [asyncio.Semaphore(concurrent_limit)]: its
    permits are those of [concurrent_limit].  How tasks pass it one by
    one is modelled in [Gate]. *)
Record WebsiteChecker : Type := mkChecker {
  concurrent_limit : Z;
  timeout : Z;
  max_retries : Z;
  check_content : bool;
  total_checked : Z;
  total_dead : Z
}.

Definition ValueError : exn :=
  mkExn OtherException (lit "Semaphore initial value must be >= 0").

(** [WebsiteChecker(concurrent_limit, timeout, max_retries, check_content)];
    [asyncio.Semaphore] refuses a negative value. *)
Definition new_checker (limit tmo retries : Z) (content : bool)
  : outcome WebsiteChecker :=
  if (limit <? 0)%Z then Raise ValueError
  else Return (mkChecker limit tmo retries content 0 0).

(** *** _normalize_url *)

Definition SCHEMES : list str := [ lit "http://"; lit "https://" ].

Definition _normalize_url (url : str) : str :=
  let url := strip url in
  match url with
  | [] => []
  | _ =>
      let url :=
        if negb (startswith_any url SCHEMES) then lit "https://" ++ url
        else url in
      rstrip (lit "/") url
  end.

(** *** The network during one call of [_do_check]

    A reply is what [client.head(url)] or [client.get(url)] comes back
    with after redirects were followed: the status code, [str(response.url)]
    and the outcome of reading [response.text]; or the exception raised.
    [_do_check] issues at most one GET: the second request when HEAD
    answered 400 or more, the request for the body otherwise. *)

Inductive http_method : Set := HEAD | GET.

Record Reply : Type := mkReply {
  reply_status : Z;
  reply_url : str;
  reply_text : outcome str
}.

Record Response : Type := mkResponse {
  request_method : http_method;
  resp_status_code : Z;
  resp_url : str;
  resp_text : outcome str
}.

Definition respond (m : http_method) (r : Reply) : Response :=
  mkResponse m (reply_status r) (reply_url r) (reply_text r).

Record Attempt : Type := mkAttempt {
  head_reply : outcome Reply;
  get_reply : outcome Reply;
  (** [time.time()] when the attempt is classified *)
  clock : float
}.

Definition client_head (a : Attempt) : outcome Response :=
  (r <- head_reply a ;; Return (respond HEAD r))%exc.

Definition client_get (a : Attempt) : outcome Response :=
  (r <- get_reply a ;; Return (respond GET r))%exc.

Section WithRuntime.

Context {RT : PyRuntime}.

(** *** Domain classifier *)

Definition _extract_domain (url : str) : str :=
  match urlparse_netloc url with
  | Some netloc => str_lower netloc
  | None => []
  end.

Definition _is_parking_domain (url : str) : bool :=
  let domain := _extract_domain url in
  existsb (fun parking_domain => contains domain parking_domain)
          PARKING_PAGE_DOMAINS.

Definition should_skip_domain (url : str) : bool :=
  let domain := _extract_domain url in
  existsb (fun skip_domain => contains domain skip_domain) SKIP_DOMAINS.

(** *** Content heuristics *)

Definition _check_parking_content (content : str) : bool :=
  match content with
  | [] => false
  | _ =>
      let content_lower := str_lower content in
      existsb (fun keyword => contains content_lower (str_lower keyword))
              PARKING_PAGE_KEYWORDS
  end.

(** [sum(1 for ind in indicators if ind in content_lower)] *)
Definition indicator_matches (content_lower : str) : nat :=
  length (filter (fun ind => contains content_lower ind) indicators).

Definition _is_under_construction (content : str) : bool :=
  match content with
  | [] => false
  | _ =>
      let content_lower := str_lower content in
      let matches := indicator_matches content_lower in
      if (length content <? 2000)%nat && (1 <=? matches)%nat then true
      else (2 <=? matches)%nat
  end.

(** *** _do_check *)

(** [(time.time() - start_time) * 1000] *)
Definition elapsed_ms (start_time : float) (a : Attempt) : option float :=
  Some (fmul (fsub (clock a) start_time) (of_int 1000)).

(** The [try] block: HEAD first, GET when HEAD answers 400 or more. *)
Definition exchange (a : Attempt) : outcome Response :=
  (response <- client_head a ;;
   if (400 <=? resp_status_code response)%Z then client_get a
   else Return response)%exc.

(** The [except] clauses of that block. *)
Definition classify_failure (self : WebsiteChecker) (url : str)
           (start_time : float) (a : Attempt) (e : exn)
  : outcome WebsiteCheckResult :=
  let error_str := str_lower (message e) in
  match kind e with
  | ConnectError =>
      if existsb (fun x => contains error_str x) DNS_MARKERS then
        Return (mkResult url NO_DNS None
                  (lit "DNS resolution failed: "
                     ++ slice_to 100 (message e))
                  (elapsed_ms start_time a) None)
      else
        Return (mkResult url CONNECTION_ERROR None
                  (lit "Connection error: " ++ slice_to 100 (message e))
                  (elapsed_ms start_time a) None)
  | TimeoutException =>
      Return (mkResult url TIMEOUT None
                (lit "Request timed out after "
                   ++ str_of_int (timeout self) ++ lit " seconds")
                (elapsed_ms start_time a) None)
  | TooManyRedirects =>
      Return (mkResult url REDIRECT_PARKING None
                (lit "Too many redirects (possible redirect loop or parking)")
                (elapsed_ms start_time a) None)
  | OtherException =>
      if existsb (fun x => contains error_str x) SSL_MARKERS then
        Return (mkResult url SSL_ERROR None
                  (lit "SSL/TLS error: " ++ slice_to 100 (message e))
                  (elapsed_ms start_time a) None)
      else Raise e
  end.

(** The body the content heuristics read. *)
Definition page_content (response : Response) (a : Attempt) : outcome str :=
  match request_method response with
  | HEAD => (content_response <- client_get a ;;
             resp_text content_response)%exc
  | GET => resp_text response
  end.

(** What the content check returns early with, if anything; an
    exception inside it is swallowed. *)
Definition content_verdict (self : WebsiteChecker) (url : str)
           (response : Response) (a : Attempt)
           (response_time_ms : option float) (final_url : str)
  : option WebsiteCheckResult :=
  if check_content self && (resp_status_code response <? 300)%Z then
    match page_content response a with
    | Return content =>
        if _check_parking_content content then
          Some (mkResult url REDIRECT_PARKING
                  (Some (resp_status_code response))
                  (lit "Content appears to be a parking/for-sale page")
                  response_time_ms (Some final_url))
        else if _is_under_construction content then
          Some (mkResult url UNDER_CONSTRUCTION
                  (Some (resp_status_code response))
                  (lit "Website appears to be under construction")
                  response_time_ms (Some final_url))
        else None
    | Raise _ => None
    end
  else None.

Definition _do_check (self : WebsiteChecker) (url : str)
           (start_time : float) (a : Attempt) : outcome WebsiteCheckResult :=
  match exchange a with
  | Raise e => classify_failure self url start_time a e
  | Return response =>
      let response_time_ms := elapsed_ms start_time a in
      let final_url := resp_url response in
      let code := resp_status_code response in
      if _is_parking_domain final_url then
        Return (mkResult url REDIRECT_PARKING (Some code)
                  (lit "Redirected to parking domain: "
                     ++ _extract_domain final_url)
                  response_time_ms (Some final_url))
      else if (500 <=? code)%Z then
        Return (mkResult url HTTP_ERROR_5XX (Some code)
                  (lit "Server error: HTTP " ++ str_of_int code)
                  response_time_ms (Some final_url))
      else if (400 <=? code)%Z then
        Return (mkResult url HTTP_ERROR_4XX (Some code)
                  (lit "Client error: HTTP " ++ str_of_int code)
                  response_time_ms (Some final_url))
      else
        match content_verdict self url response a
                              response_time_ms final_url with
        | Some r => Return r
        | None =>
            Return (mkResult url OK (Some code)
                      (lit "Website is accessible")
                      response_time_ms (Some final_url))
        end
  end.

(** *** check_single

    What the probe does besides returning a result: how many times it
    called [_do_check] and the [asyncio.sleep] delays between them, in
    seconds.  [net k] is the network during the attempt of index [k]. *)

Record ProbeRun : Type := mkRun {
  probe_result : WebsiteCheckResult;
  tries : nat;
  sleeps : list float
}.

(** [0.5 * (attempt + 1)] *)
Definition backoff (attempt : nat) : float :=
  fmul half (of_int (Z.of_nat attempt + 1)).

(** [for attempt in range(self.max_retries + 1)], with [remaining]
    indices of the range still to visit; the result after the loop is
    the one the source marks as not reachable. *)
Fixpoint attempt_loop (self : WebsiteChecker) (url : str) (start_time : float)
         (net : nat -> Attempt) (attempt remaining : nat) : ProbeRun :=
  match remaining with
  | O => mkRun (mkResult url UNKNOWN None (lit "Unknown error") None None)
               0 []
  | S remaining' =>
      match _do_check self url start_time (net attempt) with
      | Return result => mkRun result 1 []
      | Raise e =>
          if (Z.of_nat attempt <? max_retries self)%Z then
            let rest := attempt_loop self url start_time net
                                     (S attempt) remaining' in
            mkRun (probe_result rest) (S (tries rest))
                  (backoff attempt :: sleeps rest)
          else
            mkRun (mkResult url UNKNOWN None
                     (lit "Unexpected error after "
                        ++ str_of_int (max_retries self + 1)
                        ++ lit " attempts: " ++ message e)
                     (elapsed_ms start_time (net attempt)) None)
                  1 []
      end
  end.

(** [async with self.semaphore: body].  A task waits at the semaphore
    until a permit is free.  Every task that holds one gives it back,
    since the loop under it ends after [max_retries + 1] attempts at the
    latest; so a task is let in sooner or later when the semaphore has
    permits at all, and never when it has none. *)
Definition with_semaphore {A : Type} (self : WebsiteChecker) (body : A)
  : awaited A :=
  if (0 <? concurrent_limit self)%Z then Done body else Pending.

Definition check_single (self : WebsiteChecker) (url : str)
           (start_time : float) (net : nat -> Attempt) : awaited ProbeRun :=
  let url := _normalize_url url in
  match url with
  | [] => Done (mkRun (mkResult url NO_WEBSITE None (lit "Empty URL")
                                None None)
                      0 [])
  | _ => with_semaphore self
           (attempt_loop self url start_time net 0
                         (Z.to_nat (max_retries self + 1)))
  end.

(** *** check_many *)

(** The environment of one task: its start time and its network. *)
Record TaskEnv : Type := mkTaskEnv {
  started : float;
  network : nat -> Attempt
}.

Definition callback : Type := Z -> Z -> outcome unit.

(** What a call of [check_many] does: the results it has appended, the
    counters, the calls of the callback, and whether the call returns. *)
Record BatchRun : Type := mkBatch {
  results : list WebsiteCheckResult;
  completed : Z;
  checker : WebsiteChecker;
  (** the arguments of each call of the progress callback, in order *)
  progress_calls : list (Z * Z);
  (** [false] when the loop waits for a task that never completes *)
  returned : bool
}.

(** [_check_with_progress]: the coroutine of one task *)
Definition _check_with_progress (self : WebsiteChecker) (url : str)
           (env : TaskEnv) : awaited WebsiteCheckResult :=
  match check_single self url (started env) (network env) with
  | Done run => Done (probe_result run)
  | Pending => Pending
  end.

(** The results of the tasks that complete, in the order of the tasks. *)
Fixpoint completing {A : Type} (tasks : list (awaited A)) : list A :=
  match tasks with
  | [] => []
  | Done a :: t => a :: completing t
  | Pending :: t => completing t
  end.

Definition completes {A : Type} (task : awaited A) : bool :=
  match task with Done _ => true | Pending => false end.

(** [url and url.strip()] *)
Definition is_valid_url (url : str) : bool :=
  match url with
  | [] => false
  | _ => match strip url with [] => false | _ => true end
  end.

Fixpoint map_indexed {A B : Type} (f : nat -> A -> B) (i : nat)
         (l : list A) : list B :=
  match l with
  | [] => []
  | x :: t => f i x :: map_indexed f (S i) t
  end.

Fixpoint take_nth {A : Type} (k : nat) (l : list A) : option (A * list A) :=
  match l with
  | [] => None
  | x :: t =>
      match k with
      | O => Some (x, t)
      | S k' =>
          match take_nth k' t with
          | Some (y, t') => Some (y, x :: t')
          | None => None
          end
      end
  end.

(** [asyncio.as_completed(tasks)]: the event loop hands over one of the
    tasks at a time; [finish_order step] says which of those still
    running and bound to complete finishes at that step. *)
Fixpoint as_completed {A : Type} (finish_order : nat -> nat) (step : nat)
         (pending : list A) (n : nat) : list A :=
  match n with
  | O => []
  | S n' =>
      match take_nth (finish_order step mod length pending) pending with
      | Some (x, rest) => x :: as_completed finish_order (S step) rest n'
      | None => []
      end
  end.

Definition count_checked (self : WebsiteChecker) : WebsiteChecker :=
  mkChecker (concurrent_limit self) (timeout self) (max_retries self)
            (check_content self) (total_checked self + 1) (total_dead self).

Definition count_dead (self : WebsiteChecker) : WebsiteChecker :=
  mkChecker (concurrent_limit self) (timeout self) (max_retries self)
            (check_content self) (total_checked self) (total_dead self + 1).

(** One turn of the loop over [asyncio.as_completed(tasks)]; what the
    callback returns or raises is ignored. *)
Definition drain_one (progress_callback : option callback) (total : Z)
           (b : BatchRun) (result : WebsiteCheckResult) : BatchRun :=
  let completed := (completed b + 1)%Z in
  let self := count_checked (checker b) in
  let self := if is_dead result then count_dead self else self in
  mkBatch (results b ++ [result]) completed self
          (match progress_callback with
           | Some _ => progress_calls b ++ [(completed, total)]
           | None => progress_calls b
           end)
          (returned b).

Definition check_many (self : WebsiteChecker) (urls : list str)
           (progress_callback : option callback)
           (env : nat -> TaskEnv) (finish_order : nat -> nat) : BatchRun :=
  match urls with
  | [] => mkBatch [] 0 self [] true
  | _ =>
      let valid_urls := filter is_valid_url urls in
      match valid_urls with
      | [] => mkBatch [] 0 self [] true
      | _ =>
          let tasks :=
            map_indexed
              (fun i url => _check_with_progress self url (env i))
              0 valid_urls in
          let done := completing tasks in
          fold_left
            (drain_one progress_callback (Z.of_nat (length valid_urls)))
            (as_completed finish_order 0 done (length done))
            (mkBatch [] 0 self [] (forallb completes tasks))
      end
  end.

End WithRuntime.

(** [results = await checker.check_many(urls)]: the caller goes on with
    the results when the call returns, and not at all when it does not. *)
Definition awaited_results (run : BatchRun)
  : awaited (list WebsiteCheckResult) :=
  if returned run then Done (results run) else Pending.

(** *** get_stats, reset_stats *)

Definition ZeroDivisionError : exn :=
  mkExn OtherException (lit "division by zero").

Definition OverflowError : exn :=
  mkExn OtherException (lit "integer division result too large for a float").

(** Whether an [int] is a float as it is: less than [2 ** 53] in
    absolute value. *)
Definition fits_mantissa (z : Z) : bool := (Z.abs z <? 2 ^ 53)%Z.

(** An [int] as a mantissa of any length, with exponent 0. *)
Definition int_mantissa (z : Z) : float :=
  match z with
  | Z0 => S754_zero false
  | Zpos p => S754_finite false p 0
  | Zneg p => S754_finite true p 0
  end.

(** [a / b] on two [int]s: the float nearest to the quotient.  Two
    operands that are floats as they are, are divided as floats; beyond
    that the quotient is rounded once, from the integers themselves. *)
Definition truediv (a b : Z) : outcome float :=
  if (b =? 0)%Z then Raise ZeroDivisionError
  else if fits_mantissa a && fits_mantissa b then
    Return (fdiv (of_int a) (of_int b))
  else
    match fdiv (int_mantissa a) (int_mantissa b) with
    | S754_infinity _ => Raise OverflowError
    | q => Return q
    end.

Record Stats : Type := mkStats {
  stat_total_checked : Z;
  stat_total_dead : Z;
  dead_percentage : number
}.

Definition get_stats (self : WebsiteChecker) : outcome Stats :=
  (pct <- (if (0 <? total_checked self)%Z then
             q <- truediv (total_dead self) (total_checked self) ;;
             Return (PyFloat (fmul q (of_int 100)))
           else Return (PyInt 0)) ;;
   Return (mkStats (total_checked self) (total_dead self) pct))%exc.

Definition reset_stats (self : WebsiteChecker) : WebsiteChecker :=
  mkChecker (concurrent_limit self) (timeout self) (max_retries self)
            (check_content self) 0 0.

End Checker.
Import Checker.

(* ================================================================== *)
(** ** The admission gate

    [check_single] runs its attempts inside [async with self.semaphore],
    and [check_many] creates one task per valid URL at once.  A task is
    [Queued] until it passes the semaphore, [InFlight] while it is inside
    the [async with] block, [Finished] after it left it.  The semaphore is
    its counter: acquiring needs a positive counter and takes one,
    leaving the block gives one back. *)
(* ================================================================== *)

Module Gate.

Inductive phase : Set := Queued | InFlight | Finished.

Definition phase_eq_dec (a b : phase) : {a = b} + {a <> b}.
Proof. decide equality. Defined.

Record gate : Type := mkGate {
  value : nat;
  phases : list phase
}.

Inductive event : Set :=
| Acquire (task : nat)        (* enters the [async with] block *)
| Release (task : nat)        (* leaves it, by [return] or by cancellation *)
| ReturnEmpty (task : nat).   (* [if not url: return ...], before the block *)

Fixpoint set_phase (i : nat) (p : phase) (l : list phase) : list phase :=
  match l, i with
  | [], _ => []
  | _ :: t, O => p :: t
  | x :: t, S i' => x :: set_phase i' p t
  end.

(** An event that is not enabled leaves the state as it is: a task
    waiting at a semaphore whose counter is 0 stays waiting. *)
Definition step (g : gate) (ev : event) : gate :=
  match ev with
  | Acquire i =>
      match nth_error (phases g) i, value g with
      | Some Queued, S v => mkGate v (set_phase i InFlight (phases g))
      | _, _ => g
      end
  | Release i =>
      match nth_error (phases g) i with
      | Some InFlight =>
          mkGate (S (value g)) (set_phase i Finished (phases g))
      | _ => g
      end
  | ReturnEmpty i =>
      match nth_error (phases g) i with
      | Some Queued => mkGate (value g) (set_phase i Finished (phases g))
      | _ => g
      end
  end.

Definition run (evs : list event) (g : gate) : gate := fold_left step evs g.

(** [asyncio.Semaphore(concurrent_limit)] and [tasks] tasks just created *)
Definition start (concurrent_limit tasks : nat) : gate :=
  mkGate concurrent_limit (repeat Queued tasks).

Definition in_flight (g : gate) : nat :=
  count_occ phase_eq_dec (phases g) InFlight.

(** A checker just built and the tasks that [check_many] creates for
    [urls], none of them started.  ([asyncio.Semaphore] refuses a negative
    value, so a checker has [concurrent_limit >= 0].) *)
Definition batch_start (self : WebsiteChecker) (urls : list str) : gate :=
  start (Z.to_nat (concurrent_limit self))
        (length (filter is_valid_url urls)).

End Gate.

(* ================================================================== *)
(** ** Vocabulary of the properties *)
(* ================================================================== *)

Module Vocabulary.

Definition is_slash (c : char) : bool := char_in (lit "/") c.

Definition HTTPS : str := lit "https://".

(** The classifications an attempt can return. *)
Definition DEFINITE : list WebsiteStatus :=
  [ NO_DNS; SSL_ERROR; TIMEOUT; CONNECTION_ERROR; HTTP_ERROR_4XX;
    HTTP_ERROR_5XX; REDIRECT_PARKING; UNDER_CONSTRUCTION; OK ].

(** The result that ends the retry loop when the attempt of index [last]
    raised [e] and no attempt is left. *)
Definition gave_up (self : WebsiteChecker) (url : str) (start_time : float)
           (net : nat -> Attempt) (last : nat) (e : exn)
  : WebsiteCheckResult :=
  mkResult url UNKNOWN None
    (lit "Unexpected error after " ++ str_of_int (max_retries self + 1)
       ++ lit " attempts: " ++ message e)
    (elapsed_ms start_time (net last)) None.

(** Empty or made of white space only. *)
Definition is_blank (u : str) : bool := forallb isspace u.

(** Neither OK nor NO_WEBSITE nor UNKNOWN. *)
Definition counted_dead (r : WebsiteCheckResult) : bool :=
  negb (status_eqb (status r) OK)
  && negb (status_eqb (status r) NO_WEBSITE)
  && negb (status_eqb (status r) UNKNOWN).

(** Neither OK nor NO_WEBSITE. *)
Definition not_ok_nor_absent (r : WebsiteCheckResult) : bool :=
  negb (status_eqb (status r) OK)
  && negb (status_eqb (status r) NO_WEBSITE).

Definition count {A : Type} (f : A -> bool) (l : list A) : Z :=
  Z.of_nat (length (filter f l)).

(** The calls [(1, total); (2, total); ...; (n, total)]. *)
Definition ticks (n total : nat) : list (Z * Z) :=
  map (fun k => (Z.of_nat k, Z.of_nat total)) (seq 1 n).

(** What [check_single] does once it is past the semaphore, or when it
    returns before it. *)
Definition probe {RT : PyRuntime} (self : WebsiteChecker) (url : str)
           (start_time : float) (net : nat -> Attempt) : ProbeRun :=
  match _normalize_url url with
  | [] => mkRun (mkResult [] NO_WEBSITE None (lit "Empty URL") None None)
                0 []
  | u => attempt_loop self u start_time net 0
                      (Z.to_nat (max_retries self + 1))
  end.

(** The result of the task that [check_many] creates for the valid URL
    of index [i], when that task completes. *)
Definition task_result {RT : PyRuntime} (self : WebsiteChecker)
           (env : nat -> TaskEnv) (i : nat) (url : str)
  : WebsiteCheckResult :=
  probe_result (probe self url (started (env i)) (network (env i))).

(** [lo <= x <= hi], for two [int]s below [2 ** 53]. *)
Definition between (lo hi : Z) (x : number) : Prop :=
  match x with
  | PyInt z => (lo <= z <= hi)%Z
  | PyFloat f => fleb (of_int lo) f = true /\ fleb f (of_int hi) = true
  end.

(** The mantissa [m], or the next one when digits were cut off it. *)
Definition ceil_loc (m : Z) (l : location) : Z :=
  match l with loc_Exact => m | loc_Inexact _ => (m + 1)%Z end.

(** A float that is [0.0], or positive and at most [M * 2 ** E]. *)
Definition below (r : float) (M : positive) (E : Z) : Prop :=
  r = S754_zero false \/
  exists m e,
    r = S754_finite false m e /\ bounded 53 1024 m e = true /\
    (e <= E)%Z /\ (Z.pos m <= Z.pos M * 2 ^ (E - e))%Z.

(** 1 for a task inside the [async with] block, 0 otherwise. *)
Definition weight (p : Gate.phase) : nat :=
  match p with Gate.InFlight => 1 | _ => 0 end.

End Vocabulary.
Import Vocabulary.

(* ================================================================== *)
(** ** Concrete probes, evaluated with the reference runtime *)
(* ================================================================== *)

Module Samples.

(** What [WebsiteChecker()] builds, with its default arguments. *)
Definition default_checker : WebsiteChecker := mkChecker 100 10 2 true 0 0.

(** The readings of [time.time()] in the examples: a probe starts at
    [0.0] and every attempt is classified at [1.0]. *)
Definition at_start : float := of_int 0.
Definition one_second_later : float := of_int 1.

Definition example_url : str := lit "https://example.com".

(** 2000 times the letter x *)
Definition filler : str := repeat 120%N 2000.

Definition page (status : Z) (final : string) (body : str) : outcome Reply :=
  Return (mkReply status (lit final) (Return body)).

(** HEAD answers 200 and the GET for the body returns [body]. *)
Definition serves (body : str) : Attempt :=
  mkAttempt (page 200 "https://example.com/" [])
            (page 200 "https://example.com/" body) one_second_later.

Definition two_phrases : str :=
  lit "Launching soon. We're working on it. " ++ filler.

Definition one_phrase : str := lit "Launching soon. " ++ filler.

Definition two_phrases_for_sale : str :=
  lit "Launching soon. We're working on it. Buy this domain. " ++ filler.

(** HEAD and GET answer 503 from a parking host after the redirects. *)
Definition parked_503 : Attempt :=
  mkAttempt
    (page 503 "https://www.SedoParking.com:8443/lander?d=example.com" [])
    (page 503 "https://www.SedoParking.com:8443/lander?d=example.com" [])
    one_second_later.

(** HEAD answers 200 and the GET for the body times out. *)
Definition body_times_out : Attempt :=
  mkAttempt (page 200 "https://example.com/" [])
            (Raise (mkExn TimeoutException (lit "read timed out"))) one_second_later.

(** HEAD raises an exception that no clause classifies. *)
Definition breaks (msg : string) : Attempt :=
  mkAttempt (Raise (mkExn OtherException (lit msg)))
            (Raise (mkExn OtherException (lit msg))) one_second_later.

(** The first attempt breaks, the following ones get a plain page. *)
Definition flaky (k : nat) : Attempt :=
  match k with
  | O => breaks "protocol error"
  | S _ => serves (lit "hello")
  end.

Definition always_broken (k : nat) : Attempt := breaks "protocol error".

Definition first_to_finish (step : nat) : nat := 0.

End Samples.

(* ================================================================== *)
(** ** Python values used by the lead modules *)
(* ================================================================== *)

Module Py.

Definition str_eq_dec (a b : str) : {a = b} + {a <> b} :=
  list_eq_dec N.eq_dec a b.

Definition str_eqb (a b : str) : bool :=
  if str_eq_dec a b then true else false.

(** [bool(s)] for a string *)
Definition truthy (s : str) : bool :=
  match s with [] => false | _ => true end.

(** [x in s] for a set or list of strings *)
Definition str_mem (x : str) (s : list str) : bool := existsb (str_eqb x) s.

(** [x in s] for a set of statuses *)
Definition status_mem (x : WebsiteStatus) (s : list WebsiteStatus) : bool :=
  existsb (status_eqb x) s.

(** [a < b] on finite floats, which is the order of the rationals they
    are. *)
Definition float_lt (a b : Q) : bool := negb (Qle_bool b a).

(** A [dict] with string keys, in insertion order. *)
Definition dict (V : Type) : Type := list (str * V).

(** [d.get(k)] *)
Fixpoint dict_get {V : Type} (d : dict V) (k : str) : option V :=
  match d with
  | [] => None
  | (k', v) :: t => if str_eqb k' k then Some v else dict_get t k
  end.

(** [d[k] = v] *)
Fixpoint dict_set {V : Type} (d : dict V) (k : str) (v : V) : dict V :=
  match d with
  | [] => [(k, v)]
  | (k', v') :: t =>
      if str_eqb k' k then (k', v) :: t else (k', v') :: dict_set t k v
  end.

(** [d[k] = d.get(k, 0) + 1] *)
Definition dict_bump (d : dict Z) (k : str) : dict Z :=
  dict_set d k (match dict_get d k with Some n => n | None => 0 end + 1)%Z.

(** [s.replace(a, b)] for one-character [a] and [b] *)
Definition replace_char (a b : char) (s : str) : str :=
  map (fun c => if N.eqb c a then b else c) s.

End Py.
Import Py.

(** [str.title] is Python's; the category of a business is modelled over
    any implementation of it. *)
Class PyText : Type := {
  str_title : str -> str
}.

Module RefText.

(** [str.title] on ASCII text: a letter is capitalized when the character
    before it is not a letter, and lowered otherwise. *)
Definition is_upper (c : char) : bool := (65 <=? c)%N && (c <=? 90)%N.
Definition is_lower (c : char) : bool := (97 <=? c)%N && (c <=? 122)%N.

Fixpoint title_from (previous_is_cased : bool) (s : str) : str :=
  match s with
  | [] => []
  | c :: t =>
      if is_lower c then
        (if previous_is_cased then c else (c - 32)%N) :: title_from true t
      else if is_upper c then
        (if previous_is_cased then (c + 32)%N else c) :: title_from true t
      else c :: title_from false t
  end.

Definition text : PyText := {| str_title := title_from false |}.

End RefText.

(* ================================================================== *)
(** ** models.py, continued: Business and Lead *)
(* ================================================================== *)

(** A [datetime] without time zone, as [datetime.now()] gives it. *)
Module Datetime.

Record datetime : Type := mkDatetime {
  year : Z;
  month : Z;
  day : Z;
  hour : Z;
  minute : Z;
  second : Z;
  microsecond : Z
}.

(** ["%0{width}d" % z] for [z >= 0] *)
Definition zero_padded (width : nat) (z : Z) : str :=
  let digits := str_of_int z in
  repeat 48%N (width - length digits) ++ digits.

(** [t.isoformat()]: the microseconds are left out when they are 0. *)
Definition isoformat (t : datetime) : str :=
  zero_padded 4 (year t) ++ lit "-" ++ zero_padded 2 (month t) ++ lit "-"
    ++ zero_padded 2 (day t) ++ lit "T" ++ zero_padded 2 (hour t) ++ lit ":"
    ++ zero_padded 2 (minute t) ++ lit ":" ++ zero_padded 2 (second t)
    ++ (if (microsecond t =? 0)%Z then []
        else lit "." ++ zero_padded 6 (microsecond t)).

End Datetime.
Import Datetime.

Module Biz.

(** [status.value] *)
Definition status_value (s : WebsiteStatus) : str :=
  lit (match s with
       | OK => "OK"
       | NO_WEBSITE => "NO_WEBSITE"
       | NO_DNS => "NO_DNS"
       | DEAD_DOMAIN => "DEAD_DOMAIN"
       | SSL_ERROR => "SSL_ERROR"
       | TIMEOUT => "TIMEOUT"
       | CONNECTION_ERROR => "CONNECTION_ERROR"
       | HTTP_ERROR_4XX => "HTTP_ERROR_4XX"
       | HTTP_ERROR_5XX => "HTTP_ERROR_5XX"
       | REDIRECT_PARKING => "REDIRECT_PARKING"
       | UNDER_CONSTRUCTION => "UNDER_CONSTRUCTION"
       | UNKNOWN => "UNKNOWN"
       end)%string.

(** The members of the enumeration, in the order of their definition. *)
Definition WebsiteStatus_members : list WebsiteStatus :=
  [ OK; NO_WEBSITE; NO_DNS; DEAD_DOMAIN; SSL_ERROR; TIMEOUT;
    CONNECTION_ERROR; HTTP_ERROR_4XX; HTTP_ERROR_5XX; REDIRECT_PARKING;
    UNDER_CONSTRUCTION; UNKNOWN ].

(** [WebsiteStatus(s)]; [None] where it raises [ValueError]. *)
Definition status_of_value (s : str) : option WebsiteStatus :=
  find (fun m => str_eqb (status_value m) s) WebsiteStatus_members.

Record Business : Type := mkBusiness {
  place_id : str;
  name : str;
  formatted_address : str;
  formatted_phone_number : str;
  website : str;
  rating : Q;
  user_ratings_total : Z;
  types : list str;
  business_status : str;
  geometry_lat : Q;
  geometry_lng : Q;
  keyword_searched : str;
  fetched_at : datetime;
  website_check_result : option WebsiteCheckResult
}.

(** [bool(self.website and self.website.strip())] *)
Definition has_website (self : Business) : bool :=
  match website self with
  | [] => false
  | _ => truthy (strip (website self))
  end.

Definition is_potential_lead (self : Business) : bool :=
  if negb (has_website self) then false
  else match website_check_result self with
       | None => false
       | Some result => is_dead result
       end.

Definition with_result (b : Business) (r : WebsiteCheckResult) : Business :=
  mkBusiness (place_id b) (name b) (formatted_address b)
             (formatted_phone_number b) (website b) (rating b)
             (user_ratings_total b) (types b) (business_status b)
             (geometry_lat b) (geometry_lng b) (keyword_searched b)
             (fetched_at b) (Some r).

Definition BUSINESS_TYPE_THAI : list (str * str) :=
  [
    (lit "restaurant", [3619; 3657; 3634; 3609; 3629; 3634; 3627; 3634;
       3619]%N);
    (lit "cafe", [3588; 3634; 3648; 3615; 3656]%N);
    (lit "food", [3629; 3634; 3627; 3634; 3619]%N);
    (lit "bakery", [3648; 3610; 3648; 3585; 3629; 3619; 3637; 3656]%N);
    (lit "bar", [3610; 3634; 3619; 3660]%N);
    (lit "night_club", [3652; 3609; 3607; 3660; 3588; 3621; 3633; 3610]%N);
    (lit "hotel", [3650; 3619; 3591; 3649; 3619; 3617]%N);
    (lit "lodging", [3607; 3637; 3656; 3614; 3633; 3585]%N);
    (lit "resort", [3619; 3637; 3626; 3629; 3619; 3660; 3607]%N);
    (lit "spa", [3626; 3611; 3634]%N);
    (lit "beauty_salon", [3619; 3657; 3634; 3609; 3648; 3626; 3619; 3636;
       3617; 3626; 3623; 3618]%N);
    (lit "hair_care", [3619; 3657; 3634; 3609; 3607; 3635; 3612; 3617]%N);
    (lit "gym", [3615; 3636; 3605; 3648; 3609; 3626]%N);
    (lit "health", [3626; 3640; 3586; 3616; 3634; 3614]%N);
    (lit "hospital", [3650; 3619; 3591; 3614; 3618; 3634; 3610; 3634;
       3621]%N);
    (lit "doctor", [3649; 3614; 3607; 3618; 3660; 47; 3588; 3621; 3636; 3609;
       3636; 3585]%N);
    (lit "dentist", [3607; 3633; 3609; 3605; 3649; 3614; 3607; 3618; 3660]%N);
    (lit "physiotherapist", [3585; 3634; 3618; 3616; 3634; 3614; 3610; 3635;
       3610; 3633; 3604]%N);
    (lit "veterinary_care", [3626; 3633; 3605; 3623; 3649; 3614; 3607; 3618;
       3660]%N);
    (lit "pharmacy", [3619; 3657; 3634; 3609; 3586; 3634; 3618; 3618;
       3634]%N);
    (lit "car_repair", [3629; 3641; 3656; 3595; 3656; 3629; 3617; 3619;
       3606]%N);
    (lit "car_dealer", [3605; 3633; 3623; 3649; 3607; 3609; 3592; 3635; 3627;
       3609; 3656; 3634; 3618; 3619; 3606]%N);
    (lit "car_wash", [3621; 3657; 3634; 3591; 3619; 3606]%N);
    (lit "gas_station", [3611; 3633; 3658; 3617; 3609; 3657; 3635; 3617;
       3633; 3609]%N);
    (lit "store", [3619; 3657; 3634; 3609; 3588; 3657; 3634]%N);
    (lit "shopping_mall", [3627; 3657; 3634; 3591; 3626; 3619; 3619; 3614;
       3626; 3636; 3609; 3588; 3657; 3634]%N);
    (lit "supermarket", [3595; 3641; 3648; 3611; 3629; 3619; 3660; 3617;
       3634; 3619; 3660; 3648; 3585; 3655; 3605]%N);
    (lit "convenience_store", [3619; 3657; 3634; 3609; 3626; 3632; 3604;
       3623; 3585; 3595; 3639; 3657; 3629]%N);
    (lit "clothing_store", [3619; 3657; 3634; 3609; 3648; 3626; 3639; 3657;
       3629; 3612; 3657; 3634]%N);
    (lit "electronics_store", [3619; 3657; 3634; 3609; 3629; 3636; 3648;
       3621; 3655; 3585; 3607; 3619; 3629; 3609; 3636; 3585; 3626; 3660]%N);
    (lit "furniture_store", [3619; 3657; 3634; 3609; 3648; 3615; 3629; 3619;
       3660; 3609; 3636; 3648; 3592; 3629; 3619; 3660]%N);
    (lit "home_goods_store", [3619; 3657; 3634; 3609; 3586; 3629; 3591; 3651;
       3594; 3657; 3651; 3609; 3610; 3657; 3634; 3609]%N);
    (lit "jewelry_store", [3619; 3657; 3634; 3609; 3648; 3588; 3619; 3639;
       3656; 3629; 3591; 3611; 3619; 3632; 3604; 3633; 3610]%N);
    (lit "pet_store", [3619; 3657; 3634; 3609; 3626; 3633; 3605; 3623; 3660;
       3648; 3621; 3637; 3657; 3618; 3591]%N);
    (lit "florist", [3619; 3657; 3634; 3609; 3604; 3629; 3585; 3652; 3617;
       3657]%N);
    (lit "school", [3650; 3619; 3591; 3648; 3619; 3637; 3618; 3609]%N);
    (lit "university", [3617; 3627; 3634; 3623; 3636; 3607; 3618; 3634; 3621;
       3633; 3618]%N);
    (lit "library", [3627; 3657; 3629; 3591; 3626; 3617; 3640; 3604]%N);
    (lit "bank", [3608; 3609; 3634; 3588; 3634; 3619]%N);
    (lit "atm", [3605; 3641; 3657; 32; 65; 84; 77]%N);
    (lit "insurance_agency", [3611; 3619; 3632; 3585; 3633; 3609; 3616; 3633;
       3618]%N);
    (lit "lawyer", [3607; 3609; 3634; 3618; 3588; 3623; 3634; 3617]%N);
    (lit "accounting", [3610; 3633; 3597; 3594; 3637]%N);
    (lit "real_estate_agency", [3629; 3626; 3633; 3591; 3627; 3634; 3619;
       3636; 3617; 3607; 3619; 3633; 3614; 3618; 3660]%N);
    (lit "travel_agency", [3607; 3656; 3629; 3591; 3648; 3607; 3637; 3656;
       3618; 3623]%N);
    (lit "laundry", [3595; 3633; 3585; 3619; 3637; 3604]%N);
    (lit "moving_company", [3586; 3609; 3626; 3656; 3591; 47; 3586; 3609;
       3618; 3657; 3634; 3618]%N);
    (lit "plumber", [3594; 3656; 3634; 3591; 3611; 3619; 3632; 3611; 3634]%N);
    (lit "electrician", [3594; 3656; 3634; 3591; 3652; 3615; 3615; 3657;
       3634]%N);
    (lit "roofing_contractor", [3594; 3656; 3634; 3591; 3627; 3621; 3633;
       3591; 3588; 3634]%N);
    (lit "painter", [3594; 3656; 3634; 3591; 3607; 3634; 3626; 3637]%N);
    (lit "general_contractor", [3619; 3633; 3610; 3648; 3627; 3617; 3634;
       3585; 3656; 3629; 3626; 3619; 3657; 3634; 3591]%N);
    (lit "point_of_interest", [3626; 3606; 3634; 3609; 3607; 3637; 3656;
       3609; 3656; 3634; 3626; 3609; 3651; 3592]%N);
    (lit "establishment", [3626; 3606; 3634; 3609; 3611; 3619; 3632; 3585;
       3629; 3610; 3585; 3634; 3619]%N)
  ].

(** The Thai word for "others" *)
Definition thai_others : str := [3629; 3639; 3656; 3609; 3654]%N.

Section Category.

Context {TT : PyText}.

(** The first type of the list that the table knows *)
Fixpoint first_known (types : list str) : option str :=
  match types with
  | [] => None
  | t :: rest =>
      match dict_get BUSINESS_TYPE_THAI t with
      | Some thai => Some thai
      | None => first_known rest
      end
  end.

Definition get_business_category (types : list str) : str :=
  match types with
  | [] => thai_others
  | first_type :: _ =>
      match first_known types with
      | Some thai => thai
      | None =>
          match dict_get BUSINESS_TYPE_THAI first_type with
          | Some thai => thai
          | None => str_title (replace_char 95%N 32%N first_type)
          end
      end
  end.

(** The three fields that [Lead] shares with [Business] by name carry the
    prefix [lead_] here. *)
Record Lead : Type := mkLead {
  business_name : str;
  phone : str;
  website_url : str;
  website_status : str;
  status_reason : str;
  address : str;
  lead_rating : Q;
  lead_user_ratings_total : Z;
  lead_place_id : str;
  business_category : str
}.

Definition from_business (business : Business) : Lead :=
  let (website_status, status_reason) :=
    match website_check_result business with
    | Some result => (status_value (status result), reason result)
    | None => ([], [])
    end in
  mkLead (name business) (formatted_phone_number business)
         (website business) website_status status_reason
         (formatted_address business) (rating business)
         (user_ratings_total business) (place_id business)
         (get_business_category (types business)).

End Category.

End Biz.
Import Biz.

(* ================================================================== *)
(** ** models.py, continued: Business.to_dict and Business.from_dict *)
(* ================================================================== *)

(** [float(s)] and [int(s)] on a string are Python's; [None] where they
    raise. *)
Class PyParse : Type := {
  float_of_str : str -> option Q;
  int_of_str : str -> option Z
}.

Module Codec.

(** The values that the dictionaries of [to_dict] and [from_dict] hold. *)
Inductive pyval : Type :=
| VStr (s : str)
| VInt (z : Z)
| VFloat (q : Q)
| VNone
| VList (l : list str).

(** [sep.join(l)] *)
Fixpoint join (sep : str) (l : list str) : str :=
  match l with
  | [] => []
  | [x] => x
  | x :: t => x ++ sep ++ join sep t
  end.

(** [s.split(c)] for a one-character [c] *)
Fixpoint split_char (c : char) (s : str) : list str :=
  match s with
  | [] => [[]]
  | x :: t =>
      if N.eqb x c then [] :: split_char c t
      else match split_char c t with
           | [] => [[x]]
           | w :: ws => (x :: w) :: ws
           end
  end.

Definition COMMA : char := 44%N.

Definition to_dict (self : Business) : dict pyval :=
  [ (lit "place_id", VStr (place_id self));
    (lit "name", VStr (name self));
    (lit "formatted_address", VStr (formatted_address self));
    (lit "formatted_phone_number", VStr (formatted_phone_number self));
    (lit "website", VStr (website self));
    (lit "rating", VFloat (rating self));
    (lit "user_ratings_total", VInt (user_ratings_total self));
    (lit "types", VStr (join [COMMA] (types self)));
    (lit "business_status", VStr (business_status self));
    (lit "geometry_lat", VFloat (geometry_lat self));
    (lit "geometry_lng", VFloat (geometry_lng self));
    (lit "keyword_searched", VStr (keyword_searched self));
    (lit "fetched_at", VStr (isoformat (fetched_at self))) ]
  ++ match website_check_result self with
     | Some result =>
         [ (lit "website_status", VStr (status_value (status result)));
           (lit "website_status_reason", VStr (reason result));
           (lit "website_status_code",
            match status_code result with
            | Some code => VInt code
            | None => VNone
            end) ]
     | None =>
         [ (lit "website_status", VStr []);
           (lit "website_status_reason", VStr []);
           (lit "website_status_code", VNone) ]
     end.

Section FromDict.

Context {PP : PyParse}.

(** [float(v)]; [None] where it raises *)
Definition py_float (v : pyval) : option Q :=
  match v with
  | VFloat q => Some q
  | VInt z => Some (inject_Z z)
  | VStr s => float_of_str s
  | VNone | VList _ => None
  end.

(** [int(v)]; [None] where it raises *)
Definition py_int (v : pyval) : option Z :=
  match v with
  | VInt z => Some z
  | VFloat q => Some (Z.quot (Qnum q) (Z.pos (Qden q)))
  | VStr s => int_of_str s
  | VNone | VList _ => None
  end.

(** [data.get(key, "")] for a field declared [str]; [None] where the
    value is not a string, which Python would store as it is. *)
Definition get_str (data : dict pyval) (key : string) : option str :=
  match dict_get data (lit key) with
  | None => Some []
  | Some (VStr s) => Some s
  | Some _ => None
  end.

(** [float(data.get(key, 0))] *)
Definition get_float (data : dict pyval) (key : string) : option Q :=
  match dict_get data (lit key) with
  | None => Some 0%Q
  | Some v => py_float v
  end.

(** [int(data.get(key, 0))] *)
Definition get_int (data : dict pyval) (key : string) : option Z :=
  match dict_get data (lit key) with
  | None => Some 0%Z
  | Some v => py_int v
  end.

(** [data.get("types", "").split(",") if isinstance(data.get("types"), str)
     else data.get("types", [])]; [None] where the value is neither a
    string nor a list. *)
Definition get_types (data : dict pyval) : option (list str) :=
  match dict_get data (lit "types") with
  | Some (VStr s) => Some (split_char COMMA s)
  | None => Some []
  | Some (VList l) => Some l
  | Some _ => None
  end.

Definition opt_bind {A B : Type} (m : option A) (k : A -> option B)
  : option B :=
  match m with Some a => k a | None => None end.

(** [Business.from_dict]; [None] where a conversion raises.  Neither the
    time stamp nor the check result is read back: [fetched_at] is what
    [datetime.now()] gives when the record is built, [now] here. *)
Definition from_dict (now : datetime) (data : dict pyval)
  : option Business :=
  opt_bind (get_str data "place_id") (fun place_id =>
  opt_bind (get_str data "name") (fun name =>
  opt_bind (get_str data "formatted_address") (fun formatted_address =>
  opt_bind (get_str data "formatted_phone_number") (fun phone =>
  opt_bind (get_str data "website") (fun website =>
  opt_bind (get_float data "rating") (fun rating =>
  opt_bind (get_int data "user_ratings_total") (fun user_ratings_total =>
  opt_bind (get_types data) (fun types =>
  opt_bind (get_str data "business_status") (fun business_status =>
  opt_bind (get_float data "geometry_lat") (fun geometry_lat =>
  opt_bind (get_float data "geometry_lng") (fun geometry_lng =>
  opt_bind (get_str data "keyword_searched") (fun keyword_searched =>
  Some (mkBusiness place_id name formatted_address phone website rating
                   user_ratings_total types business_status geometry_lat
                   geometry_lng keyword_searched now None))))))))))))).

End FromDict.

(** A parser that reads nothing, for evaluating [from_dict] on the
    dictionaries of [to_dict], whose numbers are no strings. *)
Definition no_parse : PyParse :=
  {| float_of_str := fun _ => None; int_of_str := fun _ => None |}.

End Codec.

(* ================================================================== *)
(** ** lead_filter.py *)
(* ================================================================== *)

Module Filter.

(** The criteria as they are after [__post_init__]: the three optional
    sets that it replaces are sets, [business_types] may still be [None].
    A set is modelled by the list of its elements in the order in which
    the loop over it visits them. *)
Record FilterCriteria : Type := mkCriteria {
  include_statuses : list WebsiteStatus;
  exclude_statuses : list WebsiteStatus;
  min_rating : Q;
  min_reviews : Z;
  require_phone : bool;
  business_types : option (list str);
  exclude_keywords : list str
}.

(** [FilterCriteria(...)] followed by [__post_init__] *)
Definition new_criteria
           (include_statuses exclude_statuses : option (list WebsiteStatus))
           (min_rating : Q) (min_reviews : Z) (require_phone : bool)
           (business_types exclude_keywords : option (list str))
  : FilterCriteria :=
  mkCriteria
    (match include_statuses with
     | Some s => s
     | None => DEAD_WEBSITE_STATUSES
     end)
    (match exclude_statuses with Some s => s | None => [] end)
    min_rating min_reviews require_phone business_types
    (match exclude_keywords with Some s => s | None => [] end).

Record LeadFilter : Type := mkFilter {
  criteria : FilterCriteria;
  total_processed : Z;
  passed : Z;
  rejected_reasons : dict Z
}.

(** [LeadFilter(criteria)] *)
Definition new_filter (c : option FilterCriteria) : LeadFilter :=
  mkFilter (match c with
            | Some c => c
            | None => new_criteria None None 0 0 false None None
            end) 0 0 [].

Definition reset_stats (self : LeadFilter) : LeadFilter :=
  mkFilter (criteria self) 0 0 [].

Definition _record_rejection (self : LeadFilter) (reason : str) : LeadFilter :=
  mkFilter (criteria self) (total_processed self) (passed self)
           (dict_bump (rejected_reasons self) reason).

Section WithRuntime.

Context {RT : PyRuntime}.

(** [self._record_rejection(reason); return False] *)
Definition reject (self : LeadFilter) (reason : str) : bool * LeadFilter :=
  (false, _record_rejection self reason).

(** The first keyword of the loop of check 9 that occurs in the name *)
Definition excluded_keyword (c : FilterCriteria) (business : Business)
  : option str :=
  match exclude_keywords c with
  | [] => None
  | keywords =>
      let name_lower := str_lower (name business) in
      find (fun keyword => contains name_lower (str_lower keyword)) keywords
  end.

Definition is_potential_lead (self : LeadFilter) (business : Business)
  : bool * LeadFilter :=
  let self := mkFilter (criteria self) (total_processed self + 1)
                       (passed self) (rejected_reasons self) in
  let c := criteria self in
  if negb (has_website business) then reject self (lit "no_website")
  else
    match website_check_result business with
    | None => reject self (lit "not_checked")
    | Some result =>
        let status := status result in
        if negb (status_mem status (include_statuses c)) then
          reject self (lit "status_" ++ status_value status)
        else if status_mem status (exclude_statuses c) then
          reject self (lit "excluded_status_" ++ status_value status)
        else if float_lt (rating business) (min_rating c) then
          reject self (lit "low_rating")
        else if (user_ratings_total business <? min_reviews c)%Z then
          reject self (lit "low_reviews")
        else if require_phone c
                && negb (truthy (formatted_phone_number business)) then
          reject self (lit "no_phone")
        else if match business_types c with
                | None | Some [] => false
                | Some wanted =>
                    negb (existsb (fun t => str_mem t wanted)
                                  (types business))
                end then
          reject self (lit "wrong_type")
        else
          match excluded_keyword c business with
          | Some keyword => reject self (lit "excluded_keyword_" ++ keyword)
          | None =>
              (true, mkFilter (criteria self) (total_processed self)
                              (passed self + 1) (rejected_reasons self))
          end
    end.

Context {TT : PyText}.

(** The loop of [filter_leads] *)
Fixpoint filter_loop (self : LeadFilter) (businesses : list Business)
         (leads : list Lead) : list Lead * LeadFilter :=
  match businesses with
  | [] => (leads, self)
  | business :: rest =>
      let (is_lead, self) := is_potential_lead self business in
      filter_loop self rest
                  (if is_lead then leads ++ [from_business business]
                   else leads)
  end.

Definition filter_leads (self : LeadFilter) (businesses : list Business)
  : list Lead * LeadFilter :=
  filter_loop (reset_stats self) businesses [].

End WithRuntime.

(** [sorted(items, key=lambda x: -x[1])]: highest count first, items of
    equal count in their former order. *)
Fixpoint insert_by_count (x : str * Z) (l : list (str * Z))
  : list (str * Z) :=
  match l with
  | [] => [x]
  | y :: t =>
      if (snd y <=? snd x)%Z then x :: l else y :: insert_by_count x t
  end.

Definition sorted_by_count (l : list (str * Z)) : list (str * Z) :=
  fold_right insert_by_count [] l.

Record FilterStats : Type := mkFilterStats {
  stat_total_processed : Z;
  stat_passed : Z;
  stat_rejected : Z;
  pass_rate : number;
  rejection_reasons : dict Z
}.

Definition get_stats (self : LeadFilter) : outcome FilterStats :=
  (rate <- (if (0 <? total_processed self)%Z then
              q <- truediv (passed self) (total_processed self) ;;
              Return (PyFloat (fmul q (of_int 100)))
            else Return (PyInt 0)) ;;
   Return (mkFilterStats (total_processed self) (passed self)
                         (total_processed self - passed self) rate
                         (sorted_by_count (rejected_reasons self))))%exc.

Definition create_default_filter : LeadFilter :=
  new_filter (Some (new_criteria (Some DEAD_WEBSITE_STATUSES) None
                                 0 0 false None None)).

Definition create_quality_filter : LeadFilter :=
  new_filter (Some (new_criteria (Some DEAD_WEBSITE_STATUSES) None
                                 (7 # 2) 5 true None None)).

(** The statuses that the strings name; a string that names none is
    skipped (with a warning in the log). *)
Fixpoint parse_statuses (names : list str) : list WebsiteStatus :=
  match names with
  | [] => []
  | s :: rest =>
      match status_of_value s with
      | Some st => st :: parse_statuses rest
      | None => parse_statuses rest
      end
  end.

Definition create_custom_filter
           (include_statuses : option (list str)) (min_rating : Q)
           (min_reviews : Z) (require_phone : bool)
           (exclude_keywords : option (list str)) : LeadFilter :=
  let statuses :=
    match include_statuses with
    | None | Some [] => DEAD_WEBSITE_STATUSES
    | Some names => parse_statuses names
    end in
  new_filter
    (Some (new_criteria (Some statuses) None min_rating min_reviews
                        require_phone None
                        (match exclude_keywords with
                         | None | Some [] => None
                         | Some kws => Some kws
                         end))).

(** *** analyze_businesses *)

Record RatingBuckets : Type := mkBuckets {
  bucket_0_1 : Z;
  bucket_1_2 : Z;
  bucket_2_3 : Z;
  bucket_3_4 : Z;
  bucket_4_5 : Z;
  no_rating : Z
}.

Definition add_rating (k : RatingBuckets) (r : Q) : RatingBuckets :=
  if Qeq_bool r 0 then
    mkBuckets (bucket_0_1 k) (bucket_1_2 k) (bucket_2_3 k) (bucket_3_4 k)
              (bucket_4_5 k) (no_rating k + 1)
  else if float_lt r 1 then
    mkBuckets (bucket_0_1 k + 1) (bucket_1_2 k) (bucket_2_3 k) (bucket_3_4 k)
              (bucket_4_5 k) (no_rating k)
  else if float_lt r 2 then
    mkBuckets (bucket_0_1 k) (bucket_1_2 k + 1) (bucket_2_3 k) (bucket_3_4 k)
              (bucket_4_5 k) (no_rating k)
  else if float_lt r 3 then
    mkBuckets (bucket_0_1 k) (bucket_1_2 k) (bucket_2_3 k + 1) (bucket_3_4 k)
              (bucket_4_5 k) (no_rating k)
  else if float_lt r 4 then
    mkBuckets (bucket_0_1 k) (bucket_1_2 k) (bucket_2_3 k) (bucket_3_4 k + 1)
              (bucket_4_5 k) (no_rating k)
  else
    mkBuckets (bucket_0_1 k) (bucket_1_2 k) (bucket_2_3 k) (bucket_3_4 k)
              (bucket_4_5 k + 1) (no_rating k).

(** [sum(1 for b in businesses if p(b))] *)
Definition count_if (p : Business -> bool) (businesses : list Business) : Z :=
  Z.of_nat (length (filter p businesses)).

Record Analysis : Type := mkAnalysis {
  total_businesses : Z;
  with_website : Z;
  without_website : Z;
  with_phone : Z;
  website_status_breakdown : dict Z;
  rating_distribution : RatingBuckets;
  potential_leads : Z;
  lead_rate : number
}.

Definition analyze_businesses (businesses : list Business)
  : outcome Analysis :=
  let total := Z.of_nat (length businesses) in
  let with_website := count_if has_website businesses in
  let with_phone :=
    count_if (fun b => truthy (formatted_phone_number b)) businesses in
  let status_counts :=
    fold_left
      (fun counts b =>
         match website_check_result b with
         | Some result => dict_bump counts (status_value (status result))
         | None => counts
         end)
      businesses [] in
  let rating_buckets :=
    fold_left (fun k b => add_rating k (rating b)) businesses
              (mkBuckets 0 0 0 0 0 0) in
  let potential_leads := count_if Biz.is_potential_lead businesses in
  (rate <- (if (0 <? total)%Z then
              q <- truediv potential_leads total ;;
              Return (PyFloat (fmul q (of_int 100)))
            else Return (PyInt 0)) ;;
   Return (mkAnalysis total with_website (total - with_website) with_phone
                      status_counts rating_buckets potential_leads rate))%exc.

End Filter.

(* ================================================================== *)
(** ** main.py: matching the results of a batch with the businesses *)
(* ================================================================== *)

Module Main.

(** [{r.url: r for r in results}] *)
Definition index_by_url (results : list WebsiteCheckResult)
  : dict WebsiteCheckResult :=
  fold_left (fun d r => dict_set d (url r) r) results [].

(** The loop of [run_mock_mode] that gives each business its result *)
Definition attach_results (url_to_result : dict WebsiteCheckResult)
           (businesses : list Business) : list Business :=
  map (fun business =>
         if truthy (website business) then
           match dict_get url_to_result (_normalize_url (website business))
           with
           | Some r => with_result business r
           | None => business
           end
         else business)
      businesses.

(** [run_mock_mode], from the list of URLs to check to the businesses
    with their results; [checker] is the checker that it has built. *)
Definition check_and_attach {RT : PyRuntime} (checker : WebsiteChecker)
           (businesses : list Business)
           (env : nat -> TaskEnv) (finish_order : nat -> nat)
  : awaited (list Business) :=
  let urls_to_check :=
    map website (filter (fun b => truthy (website b)) businesses) in
  match awaited_results
          (check_many checker urls_to_check None env finish_order) with
  | Done results => Done (attach_results (index_by_url results) businesses)
  | Pending => Pending
  end.

End Main.

(** *** run_full_pipeline: the businesses not yet checked *)

Module Pipeline.

(** [b.website and not b.website_check_result] *)
Definition needs_check (b : Business) : bool :=
  truthy (website b) &&
  match website_check_result b with Some _ => false | None => true end.

(** The dictionary filled with each result under its URL and under the
    normal form of its URL *)
Definition index_by_url_and_normal_form (results : list WebsiteCheckResult)
  : dict WebsiteCheckResult :=
  fold_left
    (fun d result =>
       dict_set (dict_set d (url result) result)
                (_normalize_url (url result)) result)
    results [].

(** The loop over [businesses_to_check]: the businesses with their
    results, and the calls [db.update_website_check(place_id, result)] in
    order. *)
Fixpoint attach_and_record (url_to_result : dict WebsiteCheckResult)
         (businesses_to_check : list Business)
  : list Business * list (str * WebsiteCheckResult) :=
  match businesses_to_check with
  | [] => ([], [])
  | business :: rest =>
      let (done, updates) := attach_and_record url_to_result rest in
      match dict_get url_to_result (_normalize_url (website business)) with
      | Some result =>
          (with_result business result :: done,
           (place_id business, result) :: updates)
      | None => (business :: done, updates)
      end
  end.

Definition check_unchecked {RT : PyRuntime} (checker : WebsiteChecker)
           (businesses : list Business)
           (env : nat -> TaskEnv) (finish_order : nat -> nat)
  : awaited (list Business * list (str * WebsiteCheckResult)) :=
  let businesses_to_check := filter needs_check businesses in
  match businesses_to_check with
  | [] => Done ([], [])
  | _ =>
      let urls_to_check := map website businesses_to_check in
      match awaited_results
              (check_many checker urls_to_check None env finish_order) with
      | Done results =>
          Done (attach_and_record (index_by_url_and_normal_form results)
                                  businesses_to_check)
      | Pending => Pending
      end
  end.

End Pipeline.

(* ================================================================== *)
(** ** Vocabulary of the lead properties *)
(* ================================================================== *)

Module LeadVocabulary.

Import Filter.

(** The sum of the counts of a dictionary of counters *)
Definition dict_total (d : dict Z) : Z :=
  fold_right (fun kv acc => (snd kv + acc)%Z) 0%Z d.

(** Whether the types of the business pass the type filter *)
Definition type_wanted (c : FilterCriteria) (b : Business) : bool :=
  match business_types c with
  | None | Some [] => true
  | Some wanted => existsb (fun t => str_mem t wanted) (types b)
  end.

(** The nine checks of [LeadFilter.is_potential_lead] as a condition on
    the business, without the book-keeping. *)
Definition accepts {RT : PyRuntime} (c : FilterCriteria) (b : Business)
  : bool :=
  has_website b &&
  match website_check_result b with
  | None => false
  | Some result =>
      status_mem (status result) (include_statuses c)
      && negb (status_mem (status result) (exclude_statuses c))
      && negb (float_lt (rating b) (min_rating c))
      && negb (user_ratings_total b <? min_reviews c)%Z
      && negb (require_phone c && negb (truthy (formatted_phone_number b)))
      && type_wanted c b
      && match excluded_keyword c b with Some _ => false | None => true end
  end.

Definition bucket_total (k : RatingBuckets) : Z :=
  (bucket_0_1 k + bucket_1_2 k + bucket_2_3 k + bucket_3_4 k
   + bucket_4_5 k + no_rating k)%Z.

Definition has_result (b : Business) : bool :=
  match website_check_result b with Some _ => true | None => false end.

(** [a] may stand before [b] in a list ordered by falling count. *)
Definition by_count_desc (a b : str * Z) : Prop := (snd b <= snd a)%Z.

End LeadVocabulary.
Import LeadVocabulary.

Module LeadSamples.

Definition dead_result : WebsiteCheckResult :=
  mkResult (lit "https://dead-site.com") NO_DNS None (lit "DNS not found")
           None None.

(** The first business of the test at the end of [lead_filter.py] *)
Definition test_restaurant : Business :=
  mkBusiness (lit "1") (lit "Test Restaurant") [] (lit "02-123-4567")
             (lit "https://dead-site.com") (9 # 2) 100
             [lit "some_place"; lit "restaurant"; lit "food"] [] 0 0 []
             (mkDatetime 2024 12 10 9 30 0 0) (Some dead_result).

(** A business that was not checked yet *)
Definition unchecked_cafe : Business :=
  mkBusiness (lit "2") (lit "Corner Cafe") [] [] (lit "example.com")
             (4 # 1) 12 [lit "cafe"] [] 0 0 []
             (mkDatetime 2024 12 10 9 31 0 0) None.

End LeadSamples.

Module MoreSamples.

Import Samples.

(** HEAD is refused with [code], GET serves a plain page. *)
Definition head_rejected (code : Z) : Attempt :=
  mkAttempt (page code "https://example.com/error" (lit "no"))
            (page 200 "https://example.com/" (lit "hello")) one_second_later.

(** HEAD and GET answer 500. *)
Definition server_error : Attempt :=
  mkAttempt (page 500 "https://example.com/" [])
            (page 500 "https://example.com/" []) one_second_later.

(** The connection fails on the certificate. *)
Definition bad_certificate : exn :=
  mkExn ConnectError
        (lit "[SSL: CERTIFICATE_VERIFY_FAILED] certificate verify failed").

Definition refused : Attempt :=
  mkAttempt (Raise bad_certificate) (Raise bad_certificate) one_second_later.

Definition plain_result : WebsiteCheckResult :=
  mkResult example_url OK (Some 200%Z) (lit "Website is accessible")
           (Some (of_int 1000))
           (Some (lit "https://example.com/")).

Definition parking_result : WebsiteCheckResult :=
  mkResult example_url REDIRECT_PARKING (Some 200%Z)
           (lit "Content appears to be a parking/for-sale page")
           (Some (of_int 1000))
           (Some (lit "https://example.com/")).

Definition head_200 : Response :=
  respond HEAD (mkReply 200 (lit "https://example.com/") (Return [])).

(** A progress callback that does nothing *)
Definition silent : callback := fun _ _ => Return tt.

(** Every task starts at [0.0] and meets the network of [flaky]. *)
Definition flaky_env (i : nat) : TaskEnv := mkTaskEnv at_start flaky.

End MoreSamples.

(* ================================================================== *)
(** * Properties *)
(* ================================================================== *)

(** ** Strings *)

Section StripLemmas.

Variable drop : char -> bool.

Lemma rstrip_by_nil_iff (s : str) :
  rstrip_by drop s = [] <-> forallb drop s = true.
Proof.
  induction s as [|c t IH]; simpl.
  - tauto.
  - destruct (rstrip_by drop t) as [|x t'] eqn:E.
    + destruct (drop c); simpl.
      * split; [intros _; apply IH; reflexivity | reflexivity].
      * split; discriminate.
    + split; [discriminate|].
      intros H. apply andb_true_iff in H. destruct H as [_ H].
      apply IH in H. discriminate.
Qed.

Lemma rstrip_by_keeps (s : str) :
  existsb (fun c => negb (drop c)) s = true -> rstrip_by drop s <> [].
Proof.
  intros H E. apply rstrip_by_nil_iff in E.
  apply existsb_exists in H. destruct H as [c [Hin Hc]].
  rewrite forallb_forall in E. rewrite (E c Hin) in Hc. discriminate.
Qed.

Lemma rstrip_by_app (a s : str) :
  rstrip_by drop s <> [] ->
  rstrip_by drop (a ++ s) = a ++ rstrip_by drop s.
Proof.
  intros Hs. induction a as [|x a IH]; simpl.
  - reflexivity.
  - rewrite IH. destruct (a ++ rstrip_by drop s) eqn:E.
    + apply app_eq_nil in E. tauto.
    + reflexivity.
Qed.

Lemma rstrip_by_idempotent (s : str) :
  rstrip_by drop (rstrip_by drop s) = rstrip_by drop s.
Proof.
  induction s as [|c t IH]; simpl.
  - reflexivity.
  - destruct (rstrip_by drop t) as [|x t'] eqn:E.
    + destruct (drop c) eqn:D; simpl; [reflexivity | rewrite D; reflexivity].
    + simpl in IH |- *. rewrite IH. reflexivity.
Qed.

End StripLemmas.

Lemma startswith_app (p s : str) : startswith (p ++ s) p = true.
Proof.
  induction p as [|a p IH]; simpl.
  - reflexivity.
  - rewrite N.eqb_refl. exact IH.
Qed.

Lemma startswith_iff (s p : str) :
  startswith s p = true <-> exists post, s = p ++ post.
Proof.
  revert s. induction p as [|a p IH]; intros s; simpl.
  - split; [intros _; exists s; reflexivity | reflexivity].
  - destruct s as [|b s].
    + split; [discriminate | intros [post H]; discriminate].
    + rewrite andb_true_iff, N.eqb_eq, IH. split.
      * intros [-> [post ->]]. exists post. reflexivity.
      * intros [post H]. injection H as -> ->. split; [reflexivity|].
        exists post. reflexivity.
Qed.

Lemma contains_iff (s p : str) : contains s p = true <-> occurs_in p s.
Proof.
  unfold occurs_in. induction s as [|c s IH]; simpl.
  - rewrite orb_false_r, startswith_iff. split.
    + intros [post H]. exists [], post. exact H.
    + intros [pre [post H]]. destruct pre; [exists post; exact H | discriminate].
  - rewrite orb_true_iff, IH.
    split.
    + intros [H | [pre [post H]]].
      * apply (startswith_iff (c :: s) p) in H. destruct H as [post H].
        exists [], post. exact H.
      * exists (c :: pre), post. simpl. rewrite H. reflexivity.
    + intros [pre [post H]]. destruct pre as [|x pre]; simpl in H.
      * left. apply (startswith_iff (c :: s) p). exists post. exact H.
      * right. injection H as _ H. exists pre, post. exact H.
Qed.

Lemma occurs_in_trans (a b c : str) :
  occurs_in a b -> occurs_in b c -> occurs_in a c.
Proof.
  intros [pre1 [post1 ->]] [pre2 [post2 ->]].
  exists (pre2 ++ pre1), (post1 ++ post2).
  rewrite <- !app_assoc. reflexivity.
Qed.

(** ** URL normalizer *)

Lemma normalize_nonempty (u : str) :
  strip u <> [] ->
  _normalize_url u =
  rstrip (lit "/")
         (if negb (startswith_any (strip u) SCHEMES)
          then HTTPS ++ strip u else strip u).
Proof.
  unfold _normalize_url. destruct (strip u); [tauto | reflexivity].
Qed.

Lemma normalize_is_rstripped (u : str) :
  rstrip (lit "/") (_normalize_url u) = _normalize_url u.
Proof.
  unfold _normalize_url. destruct (strip u) eqn:E; [reflexivity|].
  unfold rstrip. apply rstrip_by_idempotent.
Qed.

(** Where the normal form kept its scheme and has no white space left at
    its ends, normalizing again changes nothing. *)
Lemma normalize_fixpoint_on_proper_urls (u : str) :
  startswith_any (_normalize_url u) SCHEMES = true ->
  strip (_normalize_url u) = _normalize_url u ->
  _normalize_url (_normalize_url u) = _normalize_url u.
Proof.
  intros Hs Ht.
  assert (Hne : strip (_normalize_url u) <> []).
  { rewrite Ht. intros E. rewrite E in Hs. discriminate. }
  rewrite (normalize_nonempty _ Hne), Ht, Hs. simpl negb. cbv iota.
  apply normalize_is_rstripped.
Qed.

(** C3 (the code at the failing input).  Normalizing the string "http://"
    gives "http:", and normalizing that gives "https://http:": the second
    pass does not return what the first one did. *)
Theorem normalize_not_idempotent_on_bare_scheme :
  _normalize_url (lit "http://") = lit "http:" /\
  _normalize_url (_normalize_url (lit "http://")) = lit "https://http:" /\
  _normalize_url (_normalize_url (lit "http://")) <> _normalize_url (lit "http://").
Proof.
  split; [reflexivity|]. split; [reflexivity|].
  vm_compute. discriminate.
Qed.

(** C8 (as stated, at the empty string).  The empty string has no scheme,
    and its normal form is the empty string, which does not start with
    "https://". *)
Lemma normalize_empty_has_no_scheme :
  startswith_any (strip (lit "")) SCHEMES = false /\
  _normalize_url (lit "") = [] /\
  startswith (_normalize_url (lit "")) HTTPS = false.
Proof. repeat split. Qed.

(** C8 (amended).  For every string whose trimmed form lacks an http:// or
    https:// prefix and has a character other than "/", the normal form
    starts with "https://". *)
Theorem normalize_adds_https (u : str) :
  startswith_any (strip u) SCHEMES = false ->
  existsb (fun c => negb (is_slash c)) (strip u) = true ->
  startswith (_normalize_url u) HTTPS = true.
Proof.
  intros Hscheme Hchar.
  assert (Hne : strip u <> []).
  { intros E. rewrite E in Hchar. discriminate. }
  rewrite (normalize_nonempty _ Hne), Hscheme. simpl negb. cbv iota.
  unfold rstrip. rewrite rstrip_by_app.
  - apply startswith_app.
  - apply rstrip_by_keeps. exact Hchar.
Qed.

Lemma normalize_adds_https_witness :
  startswith (_normalize_url (lit " Example.com/path/ ")) HTTPS = true.
Proof.
  apply (normalize_adds_https (lit " Example.com/path/ ")); reflexivity.
Defined.

(** ** Counting matches *)

Lemma filter_has_one {A : Type} (f : A -> bool) (l : list A) (x : A) :
  In x l -> f x = true -> (1 <= length (filter f l))%nat.
Proof.
  intros Hin Hf.
  assert (H : In x (filter f l)) by (apply filter_In; auto).
  destruct (filter f l); [destruct H | simpl; lia].
Qed.

Lemma filter_has_two {A : Type} (f : A -> bool) (l : list A) (x y : A) :
  In x l -> In y l -> x <> y -> f x = true -> f y = true ->
  (2 <= length (filter f l))%nat.
Proof.
  induction l as [|a l IH]; intros Hx Hy Hne Hfx Hfy; [destruct Hx|].
  simpl in Hx, Hy. simpl.
  destruct Hx as [-> | Hx]; destruct Hy as [-> | Hy].
  - congruence.
  - rewrite Hfx. simpl. pose proof (filter_has_one f l y Hy Hfy). lia.
  - rewrite Hfy. simpl. pose proof (filter_has_one f l x Hx Hfx). lia.
  - specialize (IH Hx Hy Hne Hfx Hfy). destruct (f a); simpl; lia.
Qed.

Lemma filter_at_most_one {A : Type} (f : A -> bool) (l : list A) (p : A) :
  NoDup l ->
  (forall q, In q l -> f q = true -> q = p) ->
  (length (filter f l) <= 1)%nat.
Proof.
  intros Hnd Hall.
  change 1%nat with (length [p]).
  apply NoDup_incl_length.
  - apply NoDup_filter. exact Hnd.
  - intros q Hq. apply filter_In in Hq. destruct Hq as [Hin Hf].
    left. symmetry. apply Hall; assumption.
Qed.

Lemma indicators_NoDup : NoDup indicators.
Proof.
  vm_compute.
  repeat (constructor;
          [ simpl; intros H;
            repeat (destruct H as [H | H]; [discriminate H|]); exact H |]).
  constructor.
Qed.

(** ** One attempt: [_do_check] *)

Section DoCheck.

Context {RT : PyRuntime}.

Lemma parking_domain_iff (final : str) :
  _is_parking_domain final = true <->
  exists entry, In entry PARKING_PAGE_DOMAINS /\
                occurs_in entry (_extract_domain final).
Proof.
  unfold _is_parking_domain. rewrite existsb_exists.
  split; intros [e [Hin H]]; exists e; split; auto;
    apply contains_iff; exact H.
Qed.

Lemma parking_content_silent (body : str) :
  (forall kw, In kw PARKING_PAGE_KEYWORDS ->
              ~ occurs_in (str_lower kw) (str_lower body)) ->
  _check_parking_content body = false.
Proof.
  intros H. unfold _check_parking_content. destruct body; [reflexivity|].
  apply not_true_is_false. intros E. apply existsb_exists in E.
  destruct E as [kw [Hin Hc]]. apply contains_iff in Hc.
  exact (H kw Hin Hc).
Qed.

Lemma success_bands (code : Z) :
  (code < 400)%Z -> (500 <=? code)%Z = false /\ (400 <=? code)%Z = false.
Proof. intros H. split; apply Z.leb_gt; lia. Qed.

(** C4.  Whenever an attempt ends with a response, whatever its status
    code, and an entry of the parking set occurs in the lowered host of the
    final URL ([host] being any part of the network location that
    [urlparse] gives, such as the host name between the user information
    and the port), the attempt is classified REDIRECT_PARKING, with the
    status code kept in the result; the status-code bands are not
    consulted. *)
Theorem parking_final_url_overrides_status
        (self : WebsiteChecker) (url : str) (start_time : float) (a : Attempt)
        (response : Response) (netloc host entry : str) :
  exchange a = Return response ->
  urlparse_netloc (resp_url response) = Some netloc ->
  occurs_in (str_lower host) (str_lower netloc) ->
  In entry PARKING_PAGE_DOMAINS ->
  occurs_in entry (str_lower host) ->
  exists r,
    _do_check self url start_time a = Return r /\
    status r = REDIRECT_PARKING /\
    status_code r = Some (resp_status_code response) /\
    final_url r = Some (resp_url response).
Proof.
  intros Hex Hnetloc Hhost Hin Hocc.
  assert (Hp : _is_parking_domain (resp_url response) = true).
  { apply parking_domain_iff. exists entry. split; [exact Hin|].
    unfold _extract_domain. rewrite Hnetloc.
    exact (occurs_in_trans _ _ _ Hocc Hhost). }
  unfold _do_check. rewrite Hex, Hp.
  eexists. split; [reflexivity|]. simpl. auto.
Qed.

(** C7.  When the response has a status code below 300, its final URL is
    not a parking domain, and getting the body raises, the attempt is
    classified OK. *)
Theorem content_failure_keeps_ok
        (self : WebsiteChecker) (url : str) (start_time : float) (a : Attempt)
        (response : Response) :
  exchange a = Return response ->
  (resp_status_code response < 300)%Z ->
  _is_parking_domain (resp_url response) = false ->
  raises (page_content response a) ->
  exists r,
    _do_check self url start_time a = Return r /\
    status r = OK /\
    status_code r = Some (resp_status_code response).
Proof.
  intros Hex Hcode Hpark [e He].
  destruct (success_bands (resp_status_code response)) as [H5 H4]; [lia|].
  unfold _do_check. rewrite Hex, Hpark, H5, H4.
  unfold content_verdict. rewrite He.
  destruct (check_content self && _);
    (eexists; split; [reflexivity | simpl; auto]).
Qed.

(** C2 (amended).  With content checking on, a response with status 200
    whose final URL is not a parking domain, and a fetched body of 2000
    characters or more that contains no parking-page keyword: if two
    distinct under-construction phrases occur in the lowered body the
    attempt is classified UNDER_CONSTRUCTION, and if exactly one occurs it
    is classified OK. *)
Theorem long_body_under_construction_rule
        (self : WebsiteChecker) (url : str) (start_time : float) (a : Attempt)
        (response : Response) (body : str) :
  check_content self = true ->
  exchange a = Return response ->
  resp_status_code response = 200%Z ->
  _is_parking_domain (resp_url response) = false ->
  page_content response a = Return body ->
  (2000 <= length body)%nat ->
  (forall kw, In kw PARKING_PAGE_KEYWORDS ->
              ~ occurs_in (str_lower kw) (str_lower body)) ->
  exists r,
    _do_check self url start_time a = Return r /\
    ((exists p1 p2,
         In p1 indicators /\ In p2 indicators /\ p1 <> p2 /\
         occurs_in p1 (str_lower body) /\ occurs_in p2 (str_lower body)) ->
     status r = UNDER_CONSTRUCTION) /\
    ((exists p,
         In p indicators /\ occurs_in p (str_lower body) /\
         forall q, In q indicators -> occurs_in q (str_lower body) -> q = p) ->
     status r = OK).
Proof.
  intros Hcc Hex Hcode Hpark Hbody Hlen Hsilent.
  destruct (success_bands (resp_status_code response)) as [H5 H4]; [lia|].
  apply parking_content_silent in Hsilent.
  assert (Hshort : (length body <? 2000)%nat = false)
    by (apply Nat.ltb_ge; exact Hlen).
  assert (Huc : _is_under_construction body
                = (2 <=? indicator_matches (str_lower body))%nat).
  { unfold _is_under_construction. destruct body as [|c body'].
    - simpl in Hlen. lia.
    - rewrite Hshort. reflexivity. }
  unfold _do_check. rewrite Hex, Hpark, H5, H4.
  unfold content_verdict. rewrite Hcc, Hcode, Hbody, Hsilent, Huc.
  simpl andb. cbv iota.
  destruct (2 <=? indicator_matches (str_lower body))%nat eqn:Hm;
    (eexists; split; [reflexivity|]); simpl; split.
  - reflexivity.
  - intros [p [Hin [Hocc Huniq]]]. exfalso.
    apply Nat.leb_le in Hm. unfold indicator_matches in Hm.
    pose proof (filter_at_most_one
                  (fun ind => contains (str_lower body) ind)
                  indicators p indicators_NoDup) as Hle.
    assert (length
              (filter (fun ind => contains (str_lower body) ind) indicators)
            <= 1)%nat.
    { apply Hle. intros q Hq Hc. apply Huniq; [exact Hq|].
      apply contains_iff. exact Hc. }
    lia.
  - intros [p1 [p2 [H1 [H2 [Hne [Ho1 Ho2]]]]]]. exfalso.
    apply Nat.leb_gt in Hm. unfold indicator_matches in Hm.
    pose proof (filter_has_two
                  (fun ind => contains (str_lower body) ind)
                  indicators p1 p2 H1 H2 Hne) as Hge.
    assert (2 <= length
              (filter (fun ind => contains (str_lower body) ind) indicators))%nat.
    { apply Hge; apply contains_iff; assumption. }
    lia.
  - reflexivity.
Qed.

End DoCheck.

(** ** The retry loop: [check_single] *)

(** Closes a goal [Return res = Return r -> In (status r) DEFINITE] for a
    result [res] that is written out. *)
Ltac returned :=
  let H := fresh "H" in
  intros H; injection H as <-; simpl; tauto.

Section Retry.

Context {RT : PyRuntime}.

Variable self : WebsiteChecker.
Variable url : str.
Variable start_time : float.
Variable net : nat -> Attempt.

Let attempt (k : nat) : outcome WebsiteCheckResult :=
  _do_check self url start_time (net k).

Lemma do_check_definite (a : Attempt) (r : WebsiteCheckResult) :
  _do_check self url start_time a = Return r -> In (status r) DEFINITE.
Proof.
  unfold _do_check, classify_failure, content_verdict.
  destruct (exchange a) as [response | e].
  - destruct (_is_parking_domain _); [returned|].
    destruct (500 <=? _)%Z; [returned|].
    destruct (400 <=? _)%Z; [returned|].
    destruct (check_content self && _); [|returned].
    destruct (page_content response a) as [content | e']; [|returned].
    destruct (_check_parking_content content); [returned|].
    destruct (_is_under_construction content); returned.
  - destruct (kind e).
    + destruct (existsb _ DNS_MARKERS); returned.
    + returned.
    + returned.
    + destruct (existsb _ SSL_MARKERS); [returned | discriminate].
Qed.

Lemma do_check_raises_unclassified (a : Attempt) (e : exn) :
  _do_check self url start_time a = Raise e ->
  exchange a = Raise e /\
  kind e = OtherException /\
  existsb (fun x => contains (str_lower (message e)) x) SSL_MARKERS = false.
Proof.
  unfold _do_check, classify_failure.
  destruct (exchange a) as [response | e0].
  - destruct (_is_parking_domain _); [discriminate|].
    destruct (500 <=? _)%Z; [discriminate|].
    destruct (400 <=? _)%Z; [discriminate|].
    destruct (content_verdict _ _ _ _ _ _); discriminate.
  - destruct (kind e0) eqn:K.
    + destruct (existsb _ DNS_MARKERS); discriminate.
    + discriminate.
    + discriminate.
    + destruct (existsb _ SSL_MARKERS) eqn:S; [discriminate|].
      intros H. injection H as <-. auto.
Qed.

Lemma loop_returns (k : nat) :
  forall (i remaining : nat) (r : WebsiteCheckResult),
    (k < remaining)%nat ->
    (Z.of_nat (i + k) <= max_retries self)%Z ->
    (forall j, (j < k)%nat -> raises (attempt (i + j))) ->
    attempt (i + k) = Return r ->
    attempt_loop self url start_time net i remaining
    = mkRun r (S k) (map backoff (seq i k)).
Proof.
  induction k as [|k IH]; intros i remaining r Hrem Hmax Hfail Hret;
    (destruct remaining as [|remaining]; [lia|]); simpl.
  - rewrite Nat.add_0_r in Hret. unfold attempt in Hret. rewrite Hret.
    reflexivity.
  - destruct (Hfail 0%nat) as [e He]; [lia|].
    rewrite Nat.add_0_r in He. unfold attempt in He. rewrite He.
    assert (Hlt : (Z.of_nat i <? max_retries self)%Z = true)
      by (apply Z.ltb_lt; lia).
    rewrite Hlt.
    rewrite (IH (S i) remaining r); [reflexivity | lia | lia | | ].
    + intros j Hj. replace (S i + j)%nat with (i + S j)%nat by lia.
      apply Hfail. lia.
    + replace (S i + k)%nat with (i + S k)%nat by lia. exact Hret.
Qed.

Lemma loop_exhausts (remaining : nat) :
  forall (i : nat) (e : exn),
    Z.of_nat (i + S remaining) = (max_retries self + 1)%Z ->
    (forall j, (j <= remaining)%nat -> raises (attempt (i + j))) ->
    attempt (i + remaining) = Raise e ->
    attempt_loop self url start_time net i (S remaining)
    = mkRun (gave_up self url start_time net (i + remaining) e) (S remaining)
            (map backoff (seq i remaining)).
Proof.
  induction remaining as [|remaining IH]; intros i e Hlast Hfail Hraise.
  - simpl. rewrite Nat.add_0_r in Hraise |- *.
    unfold attempt in Hraise. rewrite Hraise.
    assert (Hge : (Z.of_nat i <? max_retries self)%Z = false)
      by (apply Z.ltb_ge; lia).
    rewrite Hge. reflexivity.
  - destruct (Hfail 0%nat) as [e0 He0]; [lia|].
    rewrite Nat.add_0_r in He0. unfold attempt in He0.
    change (attempt_loop self url start_time net i (S (S remaining)))
      with (match _do_check self url start_time (net i) with
            | Return result => mkRun result 1 []
            | Raise e1 =>
                if (Z.of_nat i <? max_retries self)%Z then
                  let rest := attempt_loop self url start_time net
                                           (S i) (S remaining) in
                  mkRun (probe_result rest) (S (tries rest))
                        (backoff i :: sleeps rest)
                else mkRun (gave_up self url start_time net i e1) 1 []
            end).
    rewrite He0.
    assert (Hlt : (Z.of_nat i <? max_retries self)%Z = true)
      by (apply Z.ltb_lt; lia).
    rewrite Hlt.
    rewrite (IH (S i) e).
    + simpl. replace (S (i + remaining)) with (i + S remaining)%nat by lia.
      reflexivity.
    + lia.
    + intros j Hj. replace (S i + j)%nat with (i + S j)%nat by lia.
      apply Hfail. lia.
    + replace (S i + remaining)%nat with (i + S remaining)%nat by lia.
      exact Hraise.
Qed.

End Retry.

(** ** The semaphore in front of the retry loop *)

Lemma check_single_admitted
      {RT : PyRuntime} (self : WebsiteChecker) (url : str)
      (start_time : float) (net : nat -> Attempt) :
  (0 < concurrent_limit self)%Z ->
  check_single self url start_time net
  = Done (probe self url start_time net).
Proof.
  intros Hlimit. apply Z.ltb_lt in Hlimit.
  unfold check_single, probe, with_semaphore. rewrite Hlimit.
  destruct (_normalize_url url); reflexivity.
Qed.

Lemma check_single_blank
      {RT : PyRuntime} (self : WebsiteChecker) (url : str)
      (start_time : float) (net : nat -> Attempt) :
  _normalize_url url = [] ->
  check_single self url start_time net
  = Done (mkRun (mkResult [] NO_WEBSITE None (lit "Empty URL") None None)
                0 []).
Proof. intros E. unfold check_single. rewrite E. reflexivity. Qed.

(** A checker whose semaphore has no permit never starts a probe. *)
Lemma check_single_waits
      {RT : PyRuntime} (self : WebsiteChecker) (url : str)
      (start_time : float) (net : nat -> Attempt) :
  (concurrent_limit self <= 0)%Z ->
  _normalize_url url <> [] ->
  check_single self url start_time net = Pending.
Proof.
  intros Hlimit Hne. apply Z.ltb_ge in Hlimit.
  unfold check_single, with_semaphore. rewrite Hlimit.
  destruct (_normalize_url url); [tauto | reflexivity].
Qed.

(** With a negative [max_retries] the range of the loop is empty: no
    attempt is made and the result is the one after the loop. *)
Lemma no_attempt_on_empty_range
      {RT : PyRuntime} (self : WebsiteChecker) (url : str)
      (start_time : float) (net : nat -> Attempt) :
  _normalize_url url <> [] ->
  (max_retries self < 0)%Z ->
  (0 < concurrent_limit self)%Z ->
  check_single self url start_time net
  = Done (mkRun (mkResult (_normalize_url url) UNKNOWN None
                          (lit "Unknown error") None None) 0 []).
Proof.
  intros Hne Hneg Hlimit. rewrite check_single_admitted by exact Hlimit.
  unfold probe. destruct (_normalize_url url) as [|c t]; [tauto|].
  replace (Z.to_nat (max_retries self + 1)) with 0%nat by lia.
  reflexivity.
Qed.

(** C5.  For a probe of a non-blank URL by a checker with
    [max_retries >= 0] whose semaphore has a permit: the probe returns; an
    attempt that returns a classification ends the probe at once with
    that result, which is one of NO_DNS, SSL_ERROR, TIMEOUT,
    CONNECTION_ERROR, HTTP_ERROR_4XX, HTTP_ERROR_5XX, REDIRECT_PARKING,
    UNDER_CONSTRUCTION, OK; an attempt is only followed by another one when
    it raised an exception that no [except] clause classifies; the pause
    after the attempt number [j] (counting from 1) is the float
    [0.5 * j], in seconds; and when all [max_retries + 1] attempts raised,
    the result is UNKNOWN with the message of the last exception at the
    end of its reason. *)
Theorem retry_only_unclassified
        {RT : PyRuntime} (self : WebsiteChecker) (url : str)
        (start_time : float) (net : nat -> Attempt) :
  _normalize_url url <> [] ->
  (0 <= max_retries self)%Z ->
  (0 < concurrent_limit self)%Z ->
  let u := _normalize_url url in
  let attempt := fun k => _do_check self u start_time (net k) in
  exists run,
    check_single self url start_time net = Done run /\
    (forall k r,
        (Z.of_nat k <= max_retries self)%Z ->
        (forall j, (j < k)%nat -> raises (attempt j)) ->
        attempt k = Return r ->
        probe_result run = r /\ In (status r) DEFINITE /\
        tries run = S k /\
        sleeps run
        = map (fun j => fmul half (of_int (Z.of_nat j + 1))) (seq 0 k))
    /\
    (forall k e,
        attempt k = Raise e ->
        exchange (net k) = Raise e /\ kind e = OtherException /\
        existsb (fun x => contains (str_lower (message e)) x) SSL_MARKERS
        = false)
    /\
    (forall e,
        (forall j, (Z.of_nat j <= max_retries self)%Z ->
                   raises (attempt j)) ->
        attempt (Z.to_nat (max_retries self)) = Raise e ->
        status (probe_result run) = UNKNOWN /\
        reason (probe_result run)
        = lit "Unexpected error after " ++ str_of_int (max_retries self + 1)
            ++ lit " attempts: " ++ message e /\
        tries run = S (Z.to_nat (max_retries self)) /\
        sleeps run
        = map (fun j => fmul half (of_int (Z.of_nat j + 1)))
              (seq 0 (Z.to_nat (max_retries self)))).
Proof.
  intros Hne Hmax Hlimit u attempt.
  exists (probe self url start_time net).
  split; [apply check_single_admitted; exact Hlimit|].
  assert (Hrun : probe self url start_time net
                 = attempt_loop self u start_time net 0
                                (Z.to_nat (max_retries self + 1))).
  { unfold probe, u. destruct (_normalize_url url); [tauto | reflexivity]. }
  assert (Hfuel : Z.to_nat (max_retries self + 1)
                  = S (Z.to_nat (max_retries self))) by lia.
  split; [|split].
  - intros k r Hk Hfail Hret.
    rewrite Hrun, (loop_returns self u start_time net k 0 _ r);
      [ | lia | lia | exact Hfail | exact Hret ].
    simpl. repeat split; auto.
    exact (do_check_definite self u start_time (net k) r Hret).
  - intros k e He.
    exact (do_check_raises_unclassified self u start_time (net k) e He).
  - intros e Hfail Hlast.
    rewrite Hrun, Hfuel,
      (loop_exhausts self u start_time net (Z.to_nat (max_retries self)) 0 e);
      [ | lia | intros j Hj; apply Hfail; lia | exact Hlast ].
    simpl. auto.
Qed.

(** ** The batch: [check_many] *)

Lemma lstrip_by_nil_iff (drop : char -> bool) (s : str) :
  lstrip_by drop s = [] <-> forallb drop s = true.
Proof.
  induction s as [|c t IH]; simpl.
  - tauto.
  - destruct (drop c); simpl; [exact IH | split; discriminate].
Qed.

Lemma lstrip_by_head (drop : char -> bool) (s : str) :
  match lstrip_by drop s with
  | [] => True
  | c :: _ => drop c = false
  end.
Proof.
  induction s as [|c t IH]; simpl; [exact I|].
  destruct (drop c) eqn:D; [exact IH | exact D].
Qed.

Lemma strip_nil_iff (u : str) : strip u = [] <-> is_blank u = true.
Proof.
  unfold strip, is_blank. rewrite rstrip_by_nil_iff.
  rewrite <- (lstrip_by_nil_iff isspace u).
  pose proof (lstrip_by_head isspace u) as Hh.
  destruct (lstrip_by isspace u) as [|c t]; [simpl; tauto|].
  simpl. rewrite Hh. simpl. split; discriminate.
Qed.

Lemma is_valid_url_spec (u : str) : is_valid_url u = negb (is_blank u).
Proof.
  unfold is_valid_url. destruct u as [|c t]; [reflexivity|].
  destruct (strip (c :: t)) eqn:E.
  - apply strip_nil_iff in E. rewrite E. reflexivity.
  - destruct (is_blank (c :: t)) eqn:B; [|reflexivity].
    apply strip_nil_iff in B. congruence.
Qed.

Lemma scheme_starts_with_h (s : str) :
  startswith_any s SCHEMES = true ->
  existsb (fun c => negb (is_slash c)) s = true.
Proof.
  unfold startswith_any, SCHEMES. cbn [existsb].
  rewrite orb_false_r, orb_true_iff.
  intros [H | H]; apply startswith_iff in H; destruct H as [post ->];
    reflexivity.
Qed.

Lemma normalize_empty_iff_blank (u : str) :
  _normalize_url u = [] <-> is_blank u = true.
Proof.
  rewrite <- strip_nil_iff. split.
  - intros H. destruct (strip u) as [|c t] eqn:E; [reflexivity|].
    exfalso.
    assert (Hne : strip u <> []) by (rewrite E; discriminate).
    rewrite (normalize_nonempty u Hne) in H.
    unfold rstrip in H. apply rstrip_by_nil_iff in H.
    destruct (startswith_any (strip u) SCHEMES) eqn:S; simpl negb in H;
      cbv iota in H.
    + apply scheme_starts_with_h in S.
      apply existsb_exists in S. destruct S as [x [Hin Hx]].
      rewrite forallb_forall in H. unfold is_slash in Hx.
      rewrite (H x Hin) in Hx. discriminate.
    + discriminate H.
  - intros H. unfold _normalize_url. rewrite H. reflexivity.
Qed.

Lemma map_indexed_length {A B : Type} (f : nat -> A -> B) (l : list A) :
  forall i, length (map_indexed f i l) = length l.
Proof. induction l as [|x t IH]; intros i; simpl; [|rewrite IH]; reflexivity. Qed.

Lemma take_nth_perm {A : Type} (l : list A) :
  forall k, (k < length l)%nat ->
            exists x rest, take_nth k l = Some (x, rest) /\
                           Permutation (x :: rest) l.
Proof.
  induction l as [|a l IH]; intros k Hk; simpl in Hk; [lia|].
  destruct k as [|k]; simpl.
  - exists a, l. split; [reflexivity | apply Permutation_refl].
  - destruct (IH k) as [x [rest [E P]]]; [lia|].
    rewrite E. exists x, (a :: rest). split; [reflexivity|].
    apply perm_trans with (a :: x :: rest); [apply perm_swap|].
    apply perm_skip. exact P.
Qed.

Lemma as_completed_perm {A : Type} (finish_order : nat -> nat) (n : nat) :
  forall (step : nat) (pending : list A),
    length pending = n ->
    Permutation (as_completed finish_order step pending n) pending.
Proof.
  induction n as [|n IH]; intros step pending Hlen.
  - destruct pending; [apply perm_nil | discriminate].
  - simpl.
    destruct (take_nth_perm pending (finish_order step mod length pending))
      as [x [rest [E P]]].
    { apply Nat.mod_upper_bound. lia. }
    rewrite E. apply perm_trans with (x :: rest); [|exact P].
    apply perm_skip. apply IH.
    apply Permutation_length in P. simpl in P. lia.
Qed.

Section Drain.

Variable total : Z.

Lemma drain_counts (progress_callback : option callback)
      (rs : list WebsiteCheckResult) :
  forall b : BatchRun,
    let b' := fold_left (drain_one progress_callback total) rs b in
    results b' = results b ++ rs /\
    completed b' = (completed b + Z.of_nat (length rs))%Z /\
    total_checked (checker b')
    = (total_checked (checker b) + Z.of_nat (length rs))%Z /\
    total_dead (checker b')
    = (total_dead (checker b) + count is_dead rs)%Z.
Proof.
  unfold count.
  induction rs as [|r rs IH]; intros b.
  - simpl. rewrite app_nil_r, !Z.add_0_r. auto.
  - cbn [fold_left]. cbv zeta in IH |- *.
    destruct (IH (drain_one progress_callback total b r))
      as [H1 [H2 [H3 H4]]].
    rewrite H1, H2, H3, H4. unfold drain_one.
    cbn [results completed checker].
    rewrite <- app_assoc. cbn [app filter length].
    rewrite Nat2Z.inj_succ.
    destruct (is_dead r); cbn [length total_checked total_dead
                                count_dead count_checked];
      rewrite ?Nat2Z.inj_succ; repeat split; lia.
Qed.

Lemma drain_calls (progress_callback : callback)
      (rs : list WebsiteCheckResult) :
  forall b : BatchRun,
    progress_calls (fold_left (drain_one (Some progress_callback) total) rs b)
    = progress_calls b
        ++ map (fun k => ((completed b + Z.of_nat k)%Z, total))
               (seq 1 (length rs)).
Proof.
  induction rs as [|r rs IH]; intros b.
  - simpl. rewrite app_nil_r. reflexivity.
  - cbn [fold_left]. rewrite IH. unfold drain_one.
    cbn [progress_calls completed length seq map].
    rewrite <- app_assoc. cbn [app]. do 2 f_equal.
    rewrite <- (seq_shift (length rs) 1), map_map. apply map_ext.
    intros k. f_equal. lia.
Qed.

End Drain.

Lemma ticks_shape (n total : nat) :
  length (ticks n total) = n /\
  map fst (ticks n total) = map Z.of_nat (seq 1 n) /\
  StronglySorted Z.lt (map fst (ticks n total)) /\
  last (map fst (ticks n total)) 0%Z = Z.of_nat n.
Proof.
  unfold ticks.
  assert (Hfst : map fst (map (fun k => (Z.of_nat k, Z.of_nat total)) (seq 1 n))
                 = map Z.of_nat (seq 1 n)).
  { rewrite map_map. apply map_ext. reflexivity. }
  rewrite Hfst, length_map, length_seq. clear Hfst.
  repeat split.
  - generalize 1%nat. induction n as [|n IH]; intros s; simpl.
    + constructor.
    + constructor; [apply IH|].
      apply Forall_forall. intros z Hz. apply in_map_iff in Hz.
      destruct Hz as [k [<- Hk]]. apply in_seq in Hk. lia.
  - destruct n as [|n]; [reflexivity|].
    rewrite seq_S, map_app. cbn [map]. rewrite last_last. lia.
Qed.

Section Batch.

Context {RT : PyRuntime}.

Variable self : WebsiteChecker.
Variable env : nat -> TaskEnv.
Variable finish_order : nat -> nat.

Lemma check_many_unfold (urls : list str) (cb : option callback) :
  let valid_urls := filter is_valid_url urls in
  let tasks :=
    map_indexed (fun i url => _check_with_progress self url (env i))
                0 valid_urls in
  check_many self urls cb env finish_order
  = fold_left (drain_one cb (Z.of_nat (length valid_urls)))
              (as_completed finish_order 0 (completing tasks)
                            (length (completing tasks)))
              (mkBatch [] 0 self [] (forallb completes tasks)).
Proof.
  unfold check_many. destruct urls as [|u urls]; [reflexivity|].
  destruct (filter is_valid_url (u :: urls)); reflexivity.
Qed.

Lemma task_admitted (i : nat) (u : str) :
  (0 < concurrent_limit self)%Z ->
  _check_with_progress self u (env i) = Done (task_result self env i u).
Proof.
  intros Hlimit. unfold _check_with_progress, task_result.
  rewrite check_single_admitted by exact Hlimit. reflexivity.
Qed.

Lemma task_waits (i : nat) (u : str) :
  (concurrent_limit self <= 0)%Z ->
  is_valid_url u = true ->
  _check_with_progress self u (env i) = Pending.
Proof.
  intros Hlimit Hv. unfold _check_with_progress.
  rewrite check_single_waits; [reflexivity | exact Hlimit |].
  intros E. apply normalize_empty_iff_blank in E.
  rewrite is_valid_url_spec, E in Hv. discriminate.
Qed.

(** With a permit in the semaphore every task completes. *)
Lemma tasks_all_complete (l : list str) :
  (0 < concurrent_limit self)%Z ->
  forall i,
    let tasks :=
      map_indexed (fun i url => _check_with_progress self url (env i)) i l in
    completing tasks = map_indexed (task_result self env) i l /\
    forallb completes tasks = true /\
    tasks = map Done (map_indexed (task_result self env) i l).
Proof.
  intros Hlimit. induction l as [|u l IH]; intros i; cbv zeta.
  - repeat split.
  - cbn [map_indexed map]. rewrite task_admitted by exact Hlimit.
    destruct (IH (S i)) as [H1 [H2 H3]]. cbv zeta in H1, H2, H3.
    cbn [completing forallb completes]. rewrite H1, H2, <- H3.
    repeat split.
Qed.

(** Without one, none does. *)
Lemma tasks_all_wait (l : list str) :
  (concurrent_limit self <= 0)%Z ->
  (forall u, In u l -> is_valid_url u = true) ->
  forall i,
    let tasks :=
      map_indexed (fun i url => _check_with_progress self url (env i)) i l in
    completing tasks = [] /\
    forallb completes tasks = match l with [] => true | _ => false end.
Proof.
  intros Hlimit. induction l as [|u l IH]; intros Hv i; cbv zeta.
  - repeat split.
  - cbn [map_indexed]. rewrite task_waits; [|exact Hlimit|apply Hv; left; reflexivity].
    destruct (IH (fun x Hx => Hv x (or_intror Hx)) (S i)) as [H1 _].
    cbv zeta in H1. cbn [completing forallb completes]. rewrite H1.
    repeat split.
Qed.

Lemma check_many_open (urls : list str) (cb : option callback) :
  (0 < concurrent_limit self)%Z ->
  let valid_urls := filter is_valid_url urls in
  let tasks := map_indexed (task_result self env) 0 valid_urls in
  check_many self urls cb env finish_order
  = fold_left (drain_one cb (Z.of_nat (length valid_urls)))
              (as_completed finish_order 0 tasks (length tasks))
              (mkBatch [] 0 self [] true).
Proof.
  intros Hlimit. cbv zeta. rewrite check_many_unfold. cbv zeta.
  destruct (tasks_all_complete (filter is_valid_url urls) Hlimit 0)
    as [H1 [H2 _]].
  cbv zeta in H1, H2. rewrite H1, H2. reflexivity.
Qed.

(** A batch with a valid URL never returns when the semaphore has no
    permit: no result, no tick, no counter moves. *)
Lemma batch_waits_without_permit (urls : list str) (cb : option callback) :
  (concurrent_limit self <= 0)%Z ->
  filter is_valid_url urls <> [] ->
  check_many self urls cb env finish_order = mkBatch [] 0 self [] false.
Proof.
  intros Hlimit Hne. rewrite check_many_unfold. cbv zeta.
  destruct (tasks_all_wait (filter is_valid_url urls) Hlimit) with (i := 0%nat)
    as [H1 H2].
  { intros u Hu. apply filter_In in Hu. tauto. }
  cbv zeta in H1, H2. rewrite H1, H2.
  destruct (filter is_valid_url urls); [tauto | reflexivity].
Qed.

Lemma drain_returned (cb : option callback) (total : Z)
      (rs : list WebsiteCheckResult) :
  forall b : BatchRun,
    returned (fold_left (drain_one cb total) rs b) = returned b.
Proof.
  induction rs as [|r rs IH]; intros b; [reflexivity|].
  cbn [fold_left]. rewrite IH. reflexivity.
Qed.

Lemma batch_returns (urls : list str) (cb : option callback) :
  (0 < concurrent_limit self)%Z ->
  returned (check_many self urls cb env finish_order) = true.
Proof.
  intros Hlimit. rewrite check_many_open by exact Hlimit.
  apply drain_returned.
Qed.

Lemma valid_urls_spec (urls : list str) :
  filter is_valid_url urls = filter (fun u => negb (is_blank u)) urls.
Proof. apply filter_ext. exact is_valid_url_spec. Qed.

(** C6.  For every input list given to a checker whose semaphore has a
    permit, with [M] the number of its URLs that are neither empty nor
    white space only: the batch returns, with [M] results, which are the
    values of the tasks created for those [M] URLs in some order, and it
    calls the progress callback [M] times, with
    [(1, M); (2, M); ...; (M, M)]: the completed counts increase strictly
    and end at [M].  Blank URLs give no result and no tick. *)
Theorem batch_one_result_and_tick_per_valid_url
        (urls : list str) (progress_callback : callback) :
  (0 < concurrent_limit self)%Z ->
  let run := check_many self urls (Some progress_callback)
                        env finish_order in
  let valid := filter (fun u => negb (is_blank u)) urls in
  let M := length valid in
  returned run = true /\
  length (results run) = M /\
  Permutation
    (map Done (results run))
    (map_indexed (fun i url => _check_with_progress self url (env i))
                 0 valid) /\
  progress_calls run = ticks M M /\
  length (progress_calls run) = M /\
  StronglySorted Z.lt (map fst (progress_calls run)) /\
  last (map fst (progress_calls run)) 0%Z = Z.of_nat M.
Proof.
  intros Hlimit run valid M.
  destruct (tasks_all_complete valid Hlimit 0) as [_ [_ Htasks]].
  cbv zeta in Htasks. rewrite Htasks. clear Htasks.
  unfold run. rewrite check_many_open by exact Hlimit. cbv zeta.
  rewrite valid_urls_spec. fold valid. fold M.
  set (tasks := map_indexed (task_result self env) 0 valid).
  set (done := as_completed finish_order 0 tasks (length tasks)).
  assert (Hperm : Permutation done tasks)
    by (apply as_completed_perm; reflexivity).
  assert (Hlen : length done = M).
  { rewrite (Permutation_length Hperm). apply map_indexed_length. }
  destruct (drain_counts (Z.of_nat M) (Some progress_callback) done
                         (mkBatch [] 0 self [] true)) as [Hres _].
  pose proof (drain_calls (Z.of_nat M) progress_callback done
                          (mkBatch [] 0 self [] true)) as Hcalls.
  cbn [results progress_calls completed app] in Hres, Hcalls.
  rewrite Hlen in Hcalls.
  assert (Hticks : progress_calls
                     (fold_left
                        (drain_one (Some progress_callback) (Z.of_nat M))
                        done (mkBatch [] 0 self [] true))
                   = ticks M M).
  { rewrite Hcalls. unfold ticks. apply map_ext. intros k. reflexivity. }
  rewrite Hres, Hticks, drain_returned.
  destruct (ticks_shape M M) as [T1 [_ [T3 T4]]].
  repeat split; auto.
  apply Permutation_map. exact Hperm.
Qed.

(** C1 (amended).  A batch adds to [total_dead] the number of its results
    whose status is none of OK, NO_WEBSITE and UNKNOWN, so on a checker
    whose counter was 0 the counter ends equal to that number; and
    [is_dead] holds exactly for the results whose status is none of the
    three. *)
Theorem total_dead_counts_the_dead_set
        (urls : list str) (progress_callback : option callback) :
  let run := check_many self urls progress_callback env finish_order in
  total_dead (checker run)
  = (total_dead self + count counted_dead (results run))%Z /\
  (forall r : WebsiteCheckResult,
      is_dead r = true <->
      status r <> OK /\ status r <> NO_WEBSITE /\ status r <> UNKNOWN).
Proof.
  intros run. split.
  - unfold run. rewrite check_many_unfold. cbv zeta.
    match goal with
    | |- context [fold_left ?f ?rs ?b] =>
        destruct (drain_counts (Z.of_nat (length (filter is_valid_url urls)))
                               progress_callback rs b)
          as [Hres [_ [_ Hdead]]]
    end.
    cbv zeta in Hres, Hdead. rewrite Hdead, Hres.
    cbn [checker total_dead results app]. f_equal.
    unfold count. do 2 f_equal. apply filter_ext.
    intros r. unfold is_dead, counted_dead.
    destruct (status r); reflexivity.
  - intros r. unfold is_dead. destruct (status r); simpl;
      split; try discriminate; try tauto;
      intros; repeat split; discriminate.
Qed.

End Batch.

(** ** The admission gate *)

Module GateProps.
Import Gate.

Lemma count_weight (p : phase) (l : list phase) :
  count_occ phase_eq_dec (p :: l) InFlight
  = (weight p + count_occ phase_eq_dec l InFlight)%nat.
Proof.
  simpl. destruct (phase_eq_dec p InFlight) as [-> | Hne].
  - reflexivity.
  - destruct p; simpl; congruence.
Qed.

Lemma set_phase_count (l : list phase) :
  forall (i : nat) (p q : phase),
    nth_error l i = Some p ->
    (count_occ phase_eq_dec (set_phase i q l) InFlight + weight p
     = count_occ phase_eq_dec l InFlight + weight q)%nat.
Proof.
  induction l as [|x l IH]; intros i p q Hnth.
  - destruct i; discriminate.
  - destruct i as [|i].
    + injection Hnth as ->. cbn [set_phase]. rewrite !count_weight. lia.
    + cbn [set_phase nth_error] in *. rewrite !count_weight.
      specialize (IH i p q Hnth). lia.
Qed.

Lemma step_keeps_balance (g : gate) (ev : event) :
  (value (step g ev) + in_flight (step g ev)
   = value g + in_flight g)%nat.
Proof.
  unfold step, in_flight.
  destruct ev as [i | i | i];
    destruct (nth_error (phases g) i) as [[ | | ]|] eqn:E;
    try reflexivity.
  - destruct (value g) as [|v] eqn:V; [rewrite V; reflexivity|].
    cbn [value phases].
    pose proof (set_phase_count (phases g) i Queued InFlight E) as H.
    simpl weight in H. lia.
  - cbn [value phases].
    pose proof (set_phase_count (phases g) i InFlight Finished E) as H.
    simpl weight in H. lia.
  - cbn [value phases].
    pose proof (set_phase_count (phases g) i Queued Finished E) as H.
    simpl weight in H. lia.
Qed.

Lemma run_keeps_balance (evs : list event) :
  forall g, (value (run evs g) + in_flight (run evs g)
             = value g + in_flight g)%nat.
Proof.
  unfold run. induction evs as [|ev evs IH]; intros g; simpl.
  - reflexivity.
  - rewrite IH. apply step_keeps_balance.
Qed.

Lemma start_balance (limit tasks : nat) :
  in_flight (start limit tasks) = 0%nat.
Proof.
  unfold in_flight, start. cbn [phases].
  induction tasks as [|n IH]; simpl; [reflexivity | exact IH].
Qed.

Lemma balance_from_start (N M : nat) (evs : list event) :
  (value (run evs (start N M)) + in_flight (run evs (start N M)) = N)%nat.
Proof.
  pose proof (run_keeps_balance evs (start N M)) as H.
  rewrite start_balance in H. cbn [start value] in H. lia.
Qed.

(** C9.  In a batch run by a checker with [concurrent_limit = N], after
    any sequence of tasks entering the [async with] block, leaving it or
    returning before it, the number of tasks inside the block is at most
    [N]: it is [N] minus the permits the semaphore has left.  This holds
    for any number of URLs, in particular for more than [N]. *)
Theorem at_most_limit_in_flight
        (self : WebsiteChecker) (urls : list str) (N : nat)
        (evs : list event) :
  concurrent_limit self = Z.of_nat N ->
  (in_flight (run evs (batch_start self urls)) <= N)%nat /\
  (value (run evs (batch_start self urls))
   + in_flight (run evs (batch_start self urls)) = N)%nat.
Proof.
  intros Hlimit. unfold batch_start. rewrite Hlimit, Nat2Z.id.
  pose proof (balance_from_start
                N (length (filter is_valid_url urls)) evs) as H.
  lia.
Qed.

Lemma at_most_limit_in_flight_witness :
  let g := run [Acquire 0; Acquire 1; Acquire 2]
               (batch_start (mkChecker 2 10 2 true 0 0)
                            [lit "a.com"; lit "b.com"; lit "c.com"]) in
  (in_flight g <= 2)%nat /\ (value g + in_flight g = 2)%nat.
Proof.
  apply (at_most_limit_in_flight
           (mkChecker 2 10 2 true 0 0)
           [lit "a.com"; lit "b.com"; lit "c.com"] 2
           [Acquire 0; Acquire 1; Acquire 2]).
  reflexivity.
Defined.

(** With two permits and three tasks that all ask to enter, two are in
    flight and the third one still waits. *)
Lemma third_task_waits :
  let g := run [Acquire 0; Acquire 1; Acquire 2] (start 2 3) in
  in_flight g = 2%nat /\ phases g = [InFlight; InFlight; Queued] /\
  phases (run [Release 0; Acquire 2] g) = [Finished; InFlight; InFlight].
Proof. repeat split. Qed.

(** *** Who gets past the semaphore

    What [with_semaphore] takes for granted: without a permit nobody is
    ever let in, and with one every task can have its turn. *)

Lemma no_permit_no_entry (M : nat) (evs : list event) :
  value (run evs (start 0 M)) = 0%nat /\
  forall i, nth_error (phases (run evs (start 0 M))) i <> Some InFlight.
Proof.
  pose proof (balance_from_start 0 M evs) as H.
  split; [lia|]. intros i Hi.
  assert (Hin : In InFlight (phases (run evs (start 0 M))))
    by (eapply nth_error_In; exact Hi).
  apply (count_occ_In phase_eq_dec) in Hin.
  unfold in_flight in H. lia.
Qed.

Lemma set_phase_after (a p x : phase) (k : nat) (l : list phase) :
  set_phase k p (repeat a k ++ x :: l) = repeat a k ++ p :: l.
Proof. induction k as [|k IH]; simpl; [|rewrite IH]; reflexivity. Qed.

Lemma nth_error_after (a x : phase) (k : nat) (l : list phase) :
  nth_error (repeat a k ++ x :: l) k = Some x.
Proof. induction k as [|k IH]; simpl; [reflexivity | exact IH]. Qed.

Lemma one_turn (N k : nat) (l : list phase) :
  step (step (mkGate (S N) (repeat Finished k ++ Queued :: l)) (Acquire k))
       (Release k)
  = mkGate (S N) (repeat Finished k ++ Finished :: l).
Proof.
  unfold step at 2. cbn [phases value].
  rewrite nth_error_after, set_phase_after.
  unfold step. cbn [phases value].
  rewrite nth_error_after, set_phase_after. reflexivity.
Qed.

Lemma turns_finish (N rest : nat) :
  forall k,
    run (flat_map (fun i => [Acquire i; Release i]) (seq k rest))
        (mkGate (S N) (repeat Finished k ++ repeat Queued rest))
    = mkGate (S N) (repeat Finished (k + rest)).
Proof.
  induction rest as [|rest IH]; intros k.
  - simpl. rewrite app_nil_r, Nat.add_0_r. reflexivity.
  - cbn [seq flat_map app repeat]. unfold run in *. cbn [fold_left].
    rewrite one_turn.
    replace (repeat Finished k ++ Finished :: repeat Queued rest)
      with (repeat Finished (S k) ++ repeat Queued rest).
    + rewrite IH. f_equal. f_equal. lia.
    + cbn [repeat]. rewrite repeat_cons, <- app_assoc. reflexivity.
Qed.

Lemma every_task_can_finish (N M : nat) :
  (0 < N)%nat ->
  phases (run (flat_map (fun i => [Acquire i; Release i]) (seq 0 M))
              (start N M))
  = repeat Finished M.
Proof.
  intros HN. destruct N as [|N]; [lia|].
  unfold start.
  change (mkGate (S N) (repeat Queued M))
    with (mkGate (S N) (repeat Finished 0 ++ repeat Queued M)).
  rewrite (turns_finish N M 0). reflexivity.
Qed.

End GateProps.

(** The constructor refuses a negative limit; a checker that it builds
    has fresh counters and a semaphore of [concurrent_limit] permits. *)
Lemma new_checker_spec (limit tmo retries : Z) (content : bool) :
  ((limit < 0)%Z -> new_checker limit tmo retries content = Raise ValueError)
  /\
  ((0 <= limit)%Z ->
   new_checker limit tmo retries content
   = Return (mkChecker limit tmo retries content 0 0)).
Proof.
  unfold new_checker. split; intros H.
  - apply Z.ltb_lt in H. rewrite H. reflexivity.
  - apply Z.ltb_ge in H. rewrite H. reflexivity.
Qed.

(** ** Float arithmetic: rounding keeps a value below a bound

    What the statistics need of binary64 arithmetic: the rounded quotient
    of two integers [0 <= a <= b] is at most [1.0], and its rounded
    product with [100.0] is at most [100.0]. *)

Section Rounding.

Local Open Scope Z_scope.

Lemma fexp_eq (e : Z) : fexp64 e = Z.max (e - 53) (-1074).
Proof. reflexivity. Qed.

Lemma digits2_size (p : positive) : digits2_pos p = Pos.size p.
Proof. induction p; simpl; congruence. Qed.

Lemma digits_pos_bounds (p : positive) :
  2 ^ (Z.pos (digits2_pos p) - 1) <= Z.pos p < 2 ^ Z.pos (digits2_pos p).
Proof.
  rewrite digits2_size. split.
  - pose proof (Pos.size_le p) as H.
    assert (H' : 2 ^ Z.pos (Pos.size p) <= 2 * Z.pos p).
    { change (2 * Z.pos p) with (Z.pos p~0). rewrite <- Pos2Z.inj_pow.
      apply Pos2Z.pos_le_pos. exact H. }
    replace (Z.pos (Pos.size p)) with (Z.succ (Z.pos (Pos.size p) - 1)) in H'
      by lia.
    rewrite Z.pow_succ_r in H' by lia. lia.
  - pose proof (Pos.size_gt p) as H.
    rewrite <- Pos2Z.inj_pow. apply Pos2Z.pos_lt_pos. exact H.
Qed.

Lemma Zdigits2_bounds (m : Z) :
  0 < m -> 2 ^ (Zdigits2 m - 1) <= m < 2 ^ Zdigits2 m.
Proof.
  destruct m as [|p|p]; try lia. intros _. apply digits_pos_bounds.
Qed.

Lemma Zdigits2_pos (m : Z) : 0 < m -> 0 < Zdigits2 m.
Proof. destruct m; simpl; lia. Qed.

Lemma Zdigits2_unique (m d : Z) :
  2 ^ (d - 1) <= m < 2 ^ d -> 0 < m -> Zdigits2 m = d.
Proof.
  intros [Hlo Hhi] Hm.
  pose proof (Zdigits2_bounds m Hm) as [Blo Bhi].
  pose proof (Zdigits2_pos m Hm) as Hd.
  assert (0 < d).
  { destruct (Z.lt_trichotomy d 0) as [L | [E | G]]; [| |exact G].
    - rewrite Z.pow_neg_r in Hhi by lia. lia.
    - subst d. simpl in Hhi. lia. }
  destruct (Z.lt_trichotomy (Zdigits2 m) d) as [L | [E | G]]; [|exact E|].
  - assert (2 ^ Zdigits2 m <= 2 ^ (d - 1)) by (apply Z.pow_le_mono_r; lia). lia.
  - assert (2 ^ d <= 2 ^ (Zdigits2 m - 1)) by (apply Z.pow_le_mono_r; lia). lia.
Qed.

(** *** Shifting a mantissa to the right *)

Lemma iter_pos_nat {A : Type} (f : A -> A) (p : positive) :
  forall x, iter_pos f p x = Nat.iter (Pos.to_nat p) f x.
Proof.
  induction p as [p IH | p IH |]; intros x; cbn [iter_pos].
  - rewrite !IH, Pos2Nat.inj_xI.
    replace (S (2 * Pos.to_nat p)) with (S (Pos.to_nat p + Pos.to_nat p))
      by lia.
    rewrite Nat.iter_succ_r, Nat.iter_add. reflexivity.
  - rewrite !IH, Pos2Nat.inj_xO.
    replace (2 * Pos.to_nat p)%nat with (Pos.to_nat p + Pos.to_nat p)%nat
      by lia.
    rewrite Nat.iter_add. reflexivity.
  - reflexivity.
Qed.

Lemma shr_1_m (m : Z) (r s : bool) :
  0 <= m ->
  shr_1 (Build_shr_record m r s)
  = Build_shr_record (m / 2) (Z.odd m) (r || s).
Proof.
  intros Hm. destruct m as [|p|p]; [reflexivity| |lia].
  destruct p as [p|p|]; cbn [shr_1].
  - f_equal. rewrite Pos2Z.inj_xI. 
    replace (2 * Z.pos p + 1) with (1 + Z.pos p * 2) by lia.
    rewrite Z.div_add by lia. reflexivity.
  - f_equal. rewrite Pos2Z.inj_xO.
    replace (2 * Z.pos p) with (Z.pos p * 2) by lia.
    rewrite Z.div_mul by lia. reflexivity.
  - reflexivity.
Qed.

Lemma shr_iter (n : nat) :
  forall (m : Z) (r s : bool),
    0 <= m ->
    shr_m (Nat.iter n shr_1 (Build_shr_record m r s)) = m / 2 ^ Z.of_nat n /\
    (r = false -> s = false -> m mod 2 ^ Z.of_nat n = 0 ->
     shr_r (Nat.iter n shr_1 (Build_shr_record m r s)) = false /\
     shr_s (Nat.iter n shr_1 (Build_shr_record m r s)) = false).
Proof.
  induction n as [|n IH]; intros m r s Hm.
  - simpl. rewrite Z.div_1_r. auto.
  - rewrite Nat.iter_succ_r, shr_1_m by exact Hm.
    assert (Hh : 0 <= m / 2) by (apply Z.div_pos; lia).
    destruct (IH (m / 2) (Z.odd m) (r || s) Hh) as [H1 H2].
    rewrite Nat2Z.inj_succ, Z.pow_succ_r by lia.
    split.
    + rewrite H1. rewrite Z.div_div by lia. reflexivity.
    + intros -> -> Hmod.
      assert (Hpos : 0 < 2 ^ Z.of_nat n) by (apply Z.pow_pos_nonneg; lia).
      assert (Hdiv : m = 2 * (2 ^ Z.of_nat n * (m / (2 * 2 ^ Z.of_nat n)))).
      { pose proof (Z.div_mod m (2 * 2 ^ Z.of_nat n)) as D. lia. }
      assert (Hodd : Z.odd m = false).
      { rewrite Hdiv. rewrite Z.odd_mul. reflexivity. }
      apply H2; [exact Hodd | reflexivity |].
      rewrite Hdiv. rewrite Z.mul_comm, Z.div_mul by lia.
      rewrite Z.mul_comm. apply Z.mod_mul. lia.
Qed.

Lemma shr_spec (m e n : Z) (l : location) :
  0 <= m -> 0 <= n ->
  let mrs := fst (shr (shr_record_of_loc m l) e n) in
  let m2 := round_nearest_even (shr_m mrs) (loc_of_shr_record mrs) in
  snd (shr (shr_record_of_loc m l) e n) = e + n /\
  m / 2 ^ n <= m2 <= m / 2 ^ n + 1 /\
  (forall N, ceil_loc m l <= N * 2 ^ n -> m2 <= N).
Proof.
  intros Hm Hn.
  destruct n as [|p|p]; [| |lia].
  - cbn [shr fst snd]. cbv zeta. rewrite Z.pow_0_r, Z.div_1_r, Z.add_0_r.
    split; [reflexivity|].
    destruct l as [|[ | | ]]; cbn [shr_record_of_loc shr_m loc_of_shr_record
                                     round_nearest_even ceil_loc];
      try destruct (Z.even m); split; try lia; intros N; lia.
  - cbn [shr fst snd]. cbv zeta. split; [reflexivity|].
    rewrite iter_pos_nat.
    set (k := Pos.to_nat p).
    assert (Hk : Z.pos p = Z.of_nat k) by (unfold k; lia).
    rewrite Hk.
    assert (Hpos : 0 < 2 ^ Z.of_nat k) by (apply Z.pow_pos_nonneg; lia).
    assert (Hrec : exists r s, shr_record_of_loc m l = Build_shr_record m r s
                               /\ (l = loc_Exact -> r = false /\ s = false)).
    { destruct l as [|[ | | ]]; simpl; eauto; do 2 eexists;
        (split; [reflexivity | discriminate]). }
    destruct Hrec as [r [s [-> Hex]]].
    destruct (shr_iter k m r s Hm) as [H1 H2].
    set (mrs := Nat.iter k shr_1 (Build_shr_record m r s)) in *.
    assert (Hrange : shr_m mrs
                     <= round_nearest_even (shr_m mrs) (loc_of_shr_record mrs)
                     <= shr_m mrs + 1).
    { destruct mrs as [m' [|] [|]]; cbn [loc_of_shr_record round_nearest_even shr_m];
        try destruct (Z.even m'); lia. }
    split; [rewrite <- H1; exact Hrange|].
    intros N HN.
    assert (Hle : m / 2 ^ Z.of_nat k <= N).
    { apply Z.div_le_upper_bound; [lia|].
      destruct l; simpl in HN; lia. }
    destruct (Z.eq_dec (m / 2 ^ Z.of_nat k) N) as [Heq | Hne]; [|lia].
    assert (Hge : N * 2 ^ Z.of_nat k <= m).
    { rewrite <- Heq. rewrite Z.mul_comm. apply Z.mul_div_le. lia. }
    destruct l as [|c]; [|simpl in HN; lia].
    simpl in HN. assert (Hm' : m = N * 2 ^ Z.of_nat k) by lia.
    destruct (Hex eq_refl) as [-> ->].
    destruct H2 as [Hr Hs]; [reflexivity | reflexivity | |].
    { rewrite Hm'. apply Z.mod_mul. lia. }
    destruct mrs as [m' r' s']. cbn [shr_r shr_s shr_m] in *.
    subst r' s'. cbn [loc_of_shr_record round_nearest_even]. lia.
Qed.

(** *** Rounding stays below a float that bounds the exact value *)

Lemma bounded_facts (M : positive) (E : Z) :
  bounded 53 1024 M E = true ->
  -1074 <= E <= 971 /\ Z.pos M < 2 ^ 53 /\ (-1074 < E -> 2 ^ 52 <= Z.pos M).
Proof.
  unfold bounded, canonical_mantissa.
  rewrite andb_true_iff, Z.eqb_eq, Z.leb_le, fexp_eq.
  intros [Hc He].
  pose proof (digits_pos_bounds M) as [Blo Bhi].
  set (d := Z.pos (digits2_pos M)) in *.
  split; [lia|]. split.
  - assert (Hd : d <= 53) by lia.
    assert (2 ^ d <= 2 ^ 53) by (apply Z.pow_le_mono_r; lia). lia.
  - intros Hn. assert (Hd : d = 53) by lia. rewrite Hd in Blo.
    exact Blo.
Qed.

Lemma bounded_intro (m : positive) (e : Z) :
  -1074 <= e <= 971 -> Z.pos m < 2 ^ 53 ->
  (-1074 < e -> 2 ^ 52 <= Z.pos m) ->
  bounded 53 1024 m e = true.
Proof.
  intros He Hm Hn. unfold bounded, canonical_mantissa.
  rewrite andb_true_iff, Z.eqb_eq, Z.leb_le, fexp_eq.
  pose proof (digits_pos_bounds m) as [Blo Bhi].
  set (d := Z.pos (digits2_pos m)) in *.
  assert (Hd0 : 0 < d) by (unfold d; lia).
  assert (Hd : d <= 53).
  { assert (L : 2 ^ (d - 1) < 2 ^ 53) by lia.
    apply Z.pow_lt_mono_r_iff in L; lia. }
  split; [|lia].
  destruct (Z.eq_dec e (-1074)) as [-> | Hne]; [lia|].
  assert (L : 2 ^ 52 < 2 ^ d) by (specialize (Hn ltac:(lia)); lia).
  apply Z.pow_lt_mono_r_iff in L; lia.
Qed.

Lemma shr_noop (mrs : shr_record) (e n : Z) :
  n <= 0 -> shr mrs e n = (mrs, e).
Proof. destruct n; [reflexivity | lia | reflexivity]. Qed.

Lemma bra_le (sx : bool) (mx ex : Z) (lx : location) (M : positive) (E : Z) :
  0 <= mx ->
  ex <= fexp64 (Zdigits2 mx + ex) ->
  bounded 53 1024 M E = true ->
  ex <= E ->
  ceil_loc mx lx <= Z.pos M * 2 ^ (E - ex) ->
  binary_round_aux 53 1024 sx mx ex lx = S754_zero sx \/
  exists m e,
    binary_round_aux 53 1024 sx mx ex lx = S754_finite sx m e /\
    bounded 53 1024 m e = true /\ e <= E /\
    Z.pos m <= Z.pos M * 2 ^ (E - e).
Proof.
  intros Hmx Halign HB HexE Hceil.
  destruct (bounded_facts M E HB) as [[HE1 HE2] [HM Hnorm]].
  unfold binary_round_aux, shr_fexp.
  set (d := Zdigits2 mx) in *.
  set (e1 := fexp64 (d + ex)) in *.
  set (n := e1 - ex).
  assert (Hn : 0 <= n) by (unfold n; lia).
  destruct (shr_spec mx ex n lx Hmx Hn) as [Hsnd [Hrange Hup]].
  cbv zeta in Hsnd, Hrange, Hup.
  destruct (shr (shr_record_of_loc mx lx) ex n) as [mrs' e'] eqn:Eshr.
  cbn [fst snd] in *. subst e'.
  set (m2 := round_nearest_even (shr_m mrs') (loc_of_shr_record mrs')) in *.
  replace (ex + n) with e1 by (unfold n; lia).
  assert (Hpn : 0 < 2 ^ n) by (apply Z.pow_pos_nonneg; lia).
  assert (He1 : -1074 <= e1) by (unfold e1; rewrite fexp_eq; lia).
  assert (Hd0 : mx = 0 -> d = 0) by (intros ->; reflexivity).
  assert (Hm1 : mx / 2 ^ n < 2 ^ 53).
  { destruct (Z.eq_dec mx 0) as [-> | Hne].
    - rewrite Z.div_0_l by lia. reflexivity.
    - destruct (Zdigits2_bounds mx ltac:(lia)) as [_ Bhi]. fold d in Bhi.
      apply Z.div_lt_upper_bound; [lia|].
      rewrite <- Z.pow_add_r by lia.
      assert (d <= n + 53) by (unfold n, e1; rewrite fexp_eq; lia).
      assert (2 ^ d <= 2 ^ (n + 53)) by (apply Z.pow_le_mono_r; lia).
      lia. }
  assert (Hnormal : -1074 < e1 -> 2 ^ 52 * 2 ^ n <= mx).
  { intros Hgt.
    assert (Hne : mx <> 0).
    { intros H0. specialize (Hd0 H0).
      unfold e1 in *. rewrite fexp_eq in *. lia. }
    destruct (Zdigits2_bounds mx ltac:(lia)) as [Blo _]. fold d in Blo.
    assert (Hd : d - 1 = 52 + n) by (unfold n, e1 in *; rewrite fexp_eq in *; lia).
    rewrite Hd, Z.pow_add_r in Blo by lia. exact Blo. }
  assert (Hmxceil : mx <= ceil_loc mx lx) by (destruct lx; simpl; lia).
  assert (He1E : e1 <= E).
  { destruct (Z.le_gt_cases e1 E) as [L | G]; [exact L | exfalso].
    specialize (Hnormal ltac:(lia)).
    assert (HP : 0 < 2 ^ (E - ex)) by (apply Z.pow_pos_nonneg; lia).
    assert (HQ : 2 ^ n = 2 ^ (n - (E - ex)) * 2 ^ (E - ex)).
    { rewrite <- Z.pow_add_r by (unfold n; lia). f_equal. lia. }
    assert (H2 : 2 ^ 1 <= 2 ^ (n - (E - ex)))
      by (apply Z.pow_le_mono_r; unfold n; lia).
    change (2 ^ 1) with 2 in H2. nia. }
  set (N := Z.pos M * 2 ^ (E - e1)).
  assert (HN : Z.pos M * 2 ^ (E - ex) = N * 2 ^ n).
  { unfold N. rewrite <- Z.mul_assoc, <- Z.pow_add_r by (unfold n; lia).
    do 2 f_equal. unfold n. lia. }
  assert (Hm2N : m2 <= N) by (apply Hup; lia).
  assert (Hm2lo : mx / 2 ^ n <= m2) by lia.
  assert (Hm1lo : 0 <= mx / 2 ^ n) by (apply Z.div_pos; lia).
  assert (Hm2hi : m2 <= 2 ^ 53) by lia.
  assert (Hm2n : -1074 < e1 -> 2 ^ 52 <= m2).
  { intros Hgt. specialize (Hnormal Hgt).
    assert (2 ^ 52 <= mx / 2 ^ n)
      by (apply Z.div_le_lower_bound; lia).
    lia. }
  clearbody m2. clear Hrange Hup Eshr mrs'.
  cbn [shr_record_of_loc].
  destruct (Z.eq_dec m2 0) as [-> | Hne0].
  { left. cbn [Zdigits2]. rewrite shr_noop by (rewrite fexp_eq; lia).
    reflexivity. }
  destruct (Z.eq_dec m2 (2 ^ 53)) as [-> | Hne53].
  { right.
    change (Zdigits2 (2 ^ 53)) with 54.
    replace (fexp64 (54 + e1) - e1) with 1 by (rewrite fexp_eq; lia).
    cbn [shr iter_pos]. 
    change (shr_1 {| shr_m := 2 ^ 53; shr_r := false; shr_s := false |})
      with {| shr_m := 2 ^ 52; shr_r := false; shr_s := false |}.
    cbn [shr_m]. change (2 ^ 52) with (Z.pos (2 ^ 52)) at 1.
    cbv iota beta.
    assert (HE : E - e1 >= 1).
    { destruct (Z.le_gt_cases (E - e1) 0) as [L | G]; [|lia].
      assert (E = e1) by lia. subst N.
      replace (E - e1) with 0 in Hm2N by lia. simpl in Hm2N. lia. }
    assert (Hle : (e1 + 1 <=? 1024 - 53) = true) by (apply Z.leb_le; lia).
    rewrite Hle. exists (2 ^ 52)%positive, (e1 + 1).
    split; [reflexivity|]. split; [|split; [lia|]].
    - apply bounded_intro; [lia | reflexivity | intros _; reflexivity].
    - unfold N in Hm2N.
      replace (E - e1) with (Z.succ (E - (e1 + 1))) in Hm2N by lia.
      rewrite Z.pow_succ_r in Hm2N by lia.
      change (Z.pos (2 ^ 52)) with (2 ^ 52). 
      change (2 ^ 53) with (2 * 2 ^ 52) in Hm2N. lia. }
  right.
  assert (Hpos : 0 < m2) by lia.
  assert (Hlt : m2 < 2 ^ 53) by lia.
  destruct (Zdigits2_bounds m2 Hpos) as [Blo Bhi].
  assert (Hd2 : Zdigits2 m2 <= 53).
  { assert (L : 2 ^ (Zdigits2 m2 - 1) < 2 ^ 53) by lia.
    apply Z.pow_lt_mono_r_iff in L; lia. }
  rewrite shr_noop by (rewrite fexp_eq; lia).
  cbn [shr_m].
  destruct m2 as [|p|p]; try lia.
  assert (Hle : (e1 <=? 1024 - 53) = true) by (apply Z.leb_le; lia).
  rewrite Hle. exists p, e1.
  split; [reflexivity|]. split; [|split; [lia|exact Hm2N]].
  apply bounded_intro; [lia | exact Hlt | exact Hm2n].
Qed.

(** *** Quotients and products *)

Lemma below_leb (r : spec_float) (M : positive) (E : Z) :
  below r M E ->
  SFleb (S754_zero false) r = true /\
  SFleb r (S754_finite false M E) = true.
Proof.
  intros [-> | [m [e [-> [_ [He Hm]]]]]]; [split; reflexivity|].
  split; [reflexivity|].
  unfold SFleb, SFcompare.
  destruct (Z.compare_spec e E) as [-> | L | G]; [|reflexivity | lia].
  rewrite Z.sub_diag, Z.mul_1_r in Hm.
  fold (Pos.compare m M).
  destruct (Pos.compare_spec m M) as [? | ? | G]; try reflexivity. lia.
Qed.

Lemma new_location_ceil (nb q k : Z) :
  ceil_loc q (new_location nb k) = if k =? 0 then q else q + 1.
Proof.
  unfold new_location, new_location_even, new_location_odd.
  destruct (Z.even nb); destruct (k =? 0); reflexivity.
Qed.

(** The quotient of two positive floats whose values are in order. *)
Lemma div_below_one (m1 m2 : positive) (e1 e2 : Z) :
  Z.pos m1 * 2 ^ (e1 - Z.min e1 e2) <= Z.pos m2 * 2 ^ (e2 - Z.min e1 e2) ->
  below (SFdiv 53 1024 (S754_finite false m1 e1) (S754_finite false m2 e2))
        (2 ^ 52) (-52).
Proof.
  intros Hval. cbn [SFdiv xorb]. unfold SFdiv_core_binary.
  cbn [Zdigits2].
  pose proof (digits_pos_bounds m1) as [B1lo B1hi].
  pose proof (digits_pos_bounds m2) as [B2lo B2hi].
  set (d1 := Z.pos (digits2_pos m1)) in *.
  set (d2 := Z.pos (digits2_pos m2)) in *.
  assert (Hd1 : 0 < d1) by (unfold d1; lia).
  assert (Hd2 : 0 < d2) by (unfold d2; lia).
  set (X := d1 + e1 - (d2 + e2)).
  set (e' := Z.min (fexp64 X) (e1 - e2)).
  set (s := e1 - e2 - e').
  assert (Hs : 0 <= s) by (unfold s, e'; lia).
  set (m' := match s with
             | 0 => Z.pos m1
             | Z.pos _ => Z.shiftl (Z.pos m1) s
             | Z.neg _ => 0
             end).
  assert (Hm' : m' = Z.pos m1 * 2 ^ s).
  { unfold m'. destruct s as [|p|p] eqn:Es; [lia| |lia].
    apply Z.shiftl_mul_pow2. lia. }
  clearbody m'.
  assert (Hps : 0 < 2 ^ s) by (apply Z.pow_pos_nonneg; lia).
  (* the hypothesis on the values bounds the digits *)
  set (k := Z.min e1 e2) in *.
  assert (HX : X <= 0).
  { assert (L : 2 ^ (d1 - 1) * 2 ^ (e1 - k) < 2 ^ d2 * 2 ^ (e2 - k)).
    { assert (0 < 2 ^ (e1 - k)) by (apply Z.pow_pos_nonneg; unfold k; lia).
      assert (0 < 2 ^ (e2 - k)) by (apply Z.pow_pos_nonneg; unfold k; lia).
      nia. }
    rewrite <- !Z.pow_add_r in L by (unfold k; lia).
    apply Z.pow_lt_mono_r_iff in L; unfold k in *; unfold X; lia. }
  assert (He' : e' <= -53) by (unfold e'; rewrite fexp_eq; lia).
  assert (Hup : m' <= Z.pos m2 * 2 ^ (- e')).
  { set (t := - e' - (e2 - k)).
    assert (Ht : 0 <= t) by (unfold t, s, k in *; lia).
    assert (Hpt : 0 < 2 ^ t) by (apply Z.pow_pos_nonneg; lia).
    replace s with ((e1 - k) + t) in Hm' by (unfold t, s; lia).
    replace (- e') with ((e2 - k) + t) by (unfold t; lia).
    rewrite Hm', !Z.pow_add_r by (unfold k; lia). nia. }
  destruct (Z.div_eucl m' (Z.pos m2)) as [q r] eqn:D.
  assert (Hq : q = m' / Z.pos m2) by (unfold Z.div; rewrite D; reflexivity).
  assert (Hr : r = m' mod Z.pos m2) by (unfold Z.modulo; rewrite D; reflexivity).
  pose proof (Z.div_mod m' (Z.pos m2) ltac:(lia)) as Hdm.
  pose proof (Z.mod_pos_bound m' (Z.pos m2) ltac:(lia)) as Hrb.
  rewrite <- Hq, <- Hr in *. clear D.
  assert (Hq0 : 0 <= q) by (rewrite Hq; apply Z.div_pos; lia).
  assert (Hpe : 0 < 2 ^ (- e')) by (apply Z.pow_pos_nonneg; lia).
  apply bra_le.
  - exact Hq0.
  - destruct (Z.eq_dec q 0) as [-> | Hne].
    + cbn [Zdigits2].
      assert (Hlt : m' < Z.pos m2) by lia.
      assert (L : 2 ^ (d1 - 1) * 2 ^ s < 2 ^ d2) by nia.
      rewrite <- Z.pow_add_r in L by lia.
      apply Z.pow_lt_mono_r_iff in L; [|lia|lia].
      assert (F1 : e' <= fexp64 X) by (unfold e'; lia).
      assert (F2 : X = d1 - d2 + s + e') by (unfold s, X; lia).
      rewrite fexp_eq in F1 |- *. lia.
    + assert (Hqpos : 0 < q) by lia.
      destruct (Zdigits2_bounds q Hqpos) as [_ Qhi].
      pose proof (Zdigits2_pos q Hqpos) as Hdq.
      assert (Hdig : d1 - d2 + s <= Zdigits2 q).
      { destruct (Z.le_gt_cases (d1 - d2 + s) 0) as [L | G]; [lia|].
        set (c := d1 - d2 + s - 1) in *.
        assert (Hc : 0 <= c) by (unfold c; lia).
        assert (Hqc : 2 ^ c <= q).
        { rewrite Hq. apply Z.div_le_lower_bound; [lia|].
          assert (E1 : 2 ^ d2 * 2 ^ c = 2 ^ (d1 - 1) * 2 ^ s).
          { rewrite <- !Z.pow_add_r by lia. f_equal. unfold c. lia. }
          assert (0 < 2 ^ c) by (apply Z.pow_pos_nonneg; lia).
          nia. }
        assert (L : 2 ^ c < 2 ^ Zdigits2 q) by lia.
        apply Z.pow_lt_mono_r_iff in L; unfold c in *; lia. }
      assert (F1 : e' <= fexp64 X) by (unfold e'; lia).
      assert (F2 : X = d1 - d2 + s + e') by (unfold s, X; lia).
      rewrite fexp_eq in F1 |- *. lia.
  - reflexivity.
  - lia.
  - rewrite new_location_ceil.
    change (Z.pos (2 ^ 52)) with (2 ^ 52).
    rewrite <- Z.pow_add_r by lia.
    replace (52 + (-52 - e')) with (- e') by lia.
    destruct (Z.eqb_spec r 0) as [-> | Hne]; nia.
Qed.

(** The product with a positive float of a float that is at most 1. *)
Lemma mul_below (r : spec_float) (M : positive) (E : Z) :
  bounded 53 1024 M E = true ->
  2 ^ 52 <= Z.pos M ->
  below r (2 ^ 52) (-52) ->
  below (SFmul 53 1024 r (S754_finite false M E)) M E.
Proof.
  intros HB HM [-> | [m [e [-> [Hb [He Hm]]]]]]; [left; reflexivity|].
  cbn [SFmul xorb].
  change (Z.pos (2 ^ 52)) with (2 ^ 52) in Hm.
  rewrite <- Z.pow_add_r in Hm by lia.
  replace (52 + (-52 - e)) with (- e) in Hm by lia.
  assert (Hpe : 0 < 2 ^ (- e)) by (apply Z.pow_pos_nonneg; lia).
  apply bra_le.
  - lia.
  - assert (Hd : 53 <= Zdigits2 (Z.pos (m * M))).
    { destruct (Zdigits2_bounds (Z.pos (m * M)) ltac:(lia)) as [_ Bhi].
      assert (L : 2 ^ 52 < 2 ^ Zdigits2 (Z.pos (m * M))).
      { rewrite Pos2Z.inj_mul in *. nia. }
      apply Z.pow_lt_mono_r_iff in L; [lia | lia |].
      pose proof (Zdigits2_pos (Z.pos (m * M))); lia. }
    rewrite fexp_eq. lia.
  - exact HB.
  - lia.
  - cbn [ceil_loc]. rewrite Pos2Z.inj_mul.
    replace (E - (e + E)) with (- e) by lia. nia.
Qed.

(** *** Integers as floats *)

Lemma bra_canonical (sx : bool) (m : positive) (e : Z) :
  bounded 53 1024 m e = true ->
  binary_round_aux 53 1024 sx (Z.pos m) e loc_Exact = S754_finite sx m e.
Proof.
  intros Hb.
  assert (Hc : fexp64 (Zdigits2 (Z.pos m) + e) - e = 0).
  { unfold bounded, canonical_mantissa in Hb.
    apply andb_true_iff in Hb. destruct Hb as [Hc _].
    apply Z.eqb_eq in Hc. cbn [Zdigits2]. lia. }
  destruct (bounded_facts m e Hb) as [[_ He] _].
  unfold binary_round_aux, shr_fexp.
  rewrite Hc. cbn [shr shr_record_of_loc shr_m loc_of_shr_record
                   round_nearest_even].
  rewrite Hc. cbn [shr shr_m].
  assert (Hle : (e <=? 1024 - 53) = true) by (apply Z.leb_le; lia).
  rewrite Hle. reflexivity.
Qed.

Lemma iter_xO (p d : positive) :
  Z.pos (Pos.iter xO p d) = Z.pos p * 2 ^ Z.pos d.
Proof.
  induction d as [|d IH] using Pos.peano_ind.
  - simpl. lia.
  - rewrite Pos.iter_succ, Pos2Z.inj_xO, IH, Pos2Z.inj_succ.
    rewrite Z.pow_succ_r by lia. lia.
Qed.

Lemma of_int_small (z : Z) :
  0 < z < 2 ^ 53 ->
  exists m e,
    binary_normalize 53 1024 z 0 false = S754_finite false m e /\
    bounded 53 1024 m e = true /\ e <= 0 /\ Z.pos m = z * 2 ^ (- e).
Proof.
  intros [Hpos Hlt]. destruct z as [|p|p]; try lia.
  cbn [binary_normalize]. unfold binary_round, shl_align.
  pose proof (digits_pos_bounds p) as [Blo Bhi].
  set (d := Z.pos (digits2_pos p)) in *.
  assert (Hd0 : 0 < d) by (unfold d; lia).
  assert (Hd : d <= 53).
  { assert (L : 2 ^ (d - 1) < 2 ^ 53) by lia.
    apply Z.pow_lt_mono_r_iff in L; lia. }
  rewrite fexp_eq.
  replace (Z.max (d + 0 - 53) (-1074) - 0) with (d - 53) by lia.
  replace (Z.max (d + 0 - 53) (-1074)) with (d - 53) by lia.
  destruct (d - 53) as [|k|k] eqn:Ek; try lia.
  - assert (Hb : bounded 53 1024 p 0 = true).
    { apply bounded_intro; [lia | exact Hlt |].
      intros _. replace (d - 1) with 52 in Blo by lia. exact Blo. }
    rewrite (bra_canonical false p 0 Hb).
    exists p, 0. rewrite Z.mul_1_r. auto with zarith.
  - assert (Hk : Z.pos k = 53 - d) by lia.
    assert (Hm : Z.pos (Pos.iter xO p k) = Z.pos p * 2 ^ (53 - d))
      by (rewrite iter_xO, Hk; reflexivity).
    assert (Hb : bounded 53 1024 (Pos.iter xO p k) (Z.neg k) = true).
    { apply bounded_intro; [lia | |].
      - rewrite Hm.
        assert (E : 2 ^ 53 = 2 ^ d * 2 ^ (53 - d))
          by (rewrite <- Z.pow_add_r by lia; f_equal; lia).
        assert (0 < 2 ^ (53 - d)) by (apply Z.pow_pos_nonneg; lia).
        rewrite E. nia.
      - intros _. rewrite Hm.
        assert (E : 2 ^ 52 = 2 ^ (d - 1) * 2 ^ (53 - d))
          by (rewrite <- Z.pow_add_r by lia; f_equal; lia).
        assert (0 < 2 ^ (53 - d)) by (apply Z.pow_pos_nonneg; lia).
        rewrite E. nia. }
    rewrite (bra_canonical false _ _ Hb).
    exists (Pos.iter xO p k), (Z.neg k).
    split; [reflexivity|]. split; [exact Hb|]. split; [lia|].
    rewrite Hm. do 2 f_equal. lia.
Qed.

End Rounding.

(** ** Statistics *)

Lemma truediv_of_fraction (a b : Z) :
  (0 <= a <= b)%Z -> (0 < b)%Z ->
  exists q, truediv a b = Return q /\ below q (2 ^ 52) (-52).
Proof.
  intros Ha Hb. unfold truediv.
  assert (Hb0 : (b =? 0)%Z = false) by (apply Z.eqb_neq; lia).
  rewrite Hb0.
  destruct (Z.eq_dec a 0) as [-> | Hne].
  - (* the quotient of 0 *)
    destruct b as [|pb|pb]; try lia.
    destruct (fits_mantissa 0 && fits_mantissa (Z.pos pb)) eqn:F.
    + apply andb_true_iff in F. destruct F as [_ F].
      unfold fits_mantissa in F. apply Z.ltb_lt in F.
      destruct (of_int_small (Z.pos pb)) as [m [e [E _]]]; [lia|].
      rewrite E. eexists. split; [reflexivity|]. left. reflexivity.
    + eexists. split; [reflexivity|]. left. reflexivity.
  - destruct a as [|pa|pa]; try lia. destruct b as [|pb|pb]; try lia.
    destruct (fits_mantissa (Z.pos pa) && fits_mantissa (Z.pos pb)) eqn:F.
    + apply andb_true_iff in F. destruct F as [Fa Fb].
      unfold fits_mantissa in Fa, Fb. apply Z.ltb_lt in Fa, Fb.
      destruct (of_int_small (Z.pos pa)) as [ma [ea [Ea [_ [Hea Hma]]]]];
        [lia|].
      destruct (of_int_small (Z.pos pb)) as [mb [eb [Eb [_ [Heb Hmb]]]]];
        [lia|].
      rewrite Ea, Eb. eexists. split; [reflexivity|].
      apply div_below_one. rewrite Hma, Hmb.
      set (k := Z.min ea eb).
      rewrite <- !Z.mul_assoc, <- !Z.pow_add_r by (unfold k; lia).
      replace (- ea + (ea - k))%Z with (- k)%Z by lia.
      replace (- eb + (eb - k))%Z with (- k)%Z by lia.
      assert (0 < 2 ^ (- k))%Z by (apply Z.pow_pos_nonneg; unfold k; lia).
      nia.
    + cbn [int_mantissa].
      destruct (div_below_one pa pb 0 0) as [E | [m [e [E H]]]];
        [simpl; lia | |];
        rewrite E; eexists; (split; [reflexivity|]).
      * left. reflexivity.
      * right. exists m, e. split; [reflexivity | exact H].
Qed.

(** The percentage that [a] is of [b], for [0 <= a <= b] and [0 < b]: the
    division returns and the product with [100] is a float between [0]
    and [100]. *)
Lemma percentage_between (a b : Z) :
  (0 <= a <= b)%Z -> (0 < b)%Z ->
  exists q,
    truediv a b = Return q /\
    between 0 100 (PyFloat (fmul q (of_int 100))).
Proof.
  intros Ha Hb. destruct (truediv_of_fraction a b Ha Hb) as [q [E Hq]].
  exists q. split; [exact E|].
  change (of_int 100) with (S754_finite false 7036874417766400 (-46)).
  apply (below_leb _ 7036874417766400 (-46)).
  apply mul_below; [reflexivity | vm_compute; discriminate | exact Hq].
Qed.

Lemma truediv_raises_on_zero_only (a b : Z) :
  b <> 0%Z -> truediv a b <> Raise ZeroDivisionError.
Proof.
  intros Hb. unfold truediv.
  apply Z.eqb_neq in Hb. rewrite Hb.
  destruct (fits_mantissa a && fits_mantissa b); [discriminate|].
  destruct (fdiv (int_mantissa a) (int_mantissa b)); discriminate.
Qed.

(** C10.  [get_stats] never divides by zero.  With no URL checked the
    dead percentage is the integer 0.  Otherwise it is the float
    [total_dead / total_checked * 100]: for counters below [2 ** 53] the
    quotient of the two counters as floats, times [100.0]; beyond that the
    quotient is rounded from the integers, and the only exception there
    can be is the overflow of that quotient. *)
Theorem get_stats_guards_division (self : WebsiteChecker) :
  (0 <= total_checked self)%Z ->
  get_stats self <> Raise ZeroDivisionError /\
  (total_checked self = 0%Z ->
   get_stats self
   = Return (mkStats (total_checked self) (total_dead self) (PyInt 0))) /\
  (total_checked self <> 0%Z ->
   (Z.abs (total_dead self) < 2 ^ 53)%Z ->
   (total_checked self < 2 ^ 53)%Z ->
   get_stats self
   = Return (mkStats (total_checked self) (total_dead self)
               (PyFloat (fmul (fdiv (of_int (total_dead self))
                                    (of_int (total_checked self)))
                              (of_int 100))))) /\
  (total_checked self <> 0%Z ->
   ~ ((Z.abs (total_dead self) < 2 ^ 53)%Z /\
      (total_checked self < 2 ^ 53)%Z) ->
   match fdiv (int_mantissa (total_dead self))
              (int_mantissa (total_checked self)) with
   | S754_infinity _ => get_stats self = Raise OverflowError
   | q =>
       get_stats self
       = Return (mkStats (total_checked self) (total_dead self)
                   (PyFloat (fmul q (of_int 100))))
   end).
Proof.
  intros Hnonneg. unfold get_stats.
  destruct (0 <? total_checked self)%Z eqn:E.
  - apply Z.ltb_lt in E.
    split; [|split; [lia|split]].
    + pose proof (truediv_raises_on_zero_only
                    (total_dead self) (total_checked self) ltac:(lia)) as H.
      destruct (truediv (total_dead self) (total_checked self));
        [discriminate|].
      cbn [bind]. congruence.
    + intros _ Hd Hc. unfold truediv.
      assert (H0 : (total_checked self =? 0)%Z = false)
        by (apply Z.eqb_neq; lia).
      assert (Hf : fits_mantissa (total_dead self)
                   && fits_mantissa (total_checked self) = true).
      { unfold fits_mantissa. apply andb_true_iff.
        split; apply Z.ltb_lt; lia. }
      rewrite H0, Hf. reflexivity.
    + intros _ Hbig. unfold truediv.
      assert (H0 : (total_checked self =? 0)%Z = false)
        by (apply Z.eqb_neq; lia).
      assert (Hf : fits_mantissa (total_dead self)
                   && fits_mantissa (total_checked self) = false).
      { unfold fits_mantissa. apply andb_false_iff.
        destruct (Z.lt_ge_cases (Z.abs (total_dead self)) (2 ^ 53)) as [L | G].
        - right. apply Z.ltb_ge. lia.
        - left. apply Z.ltb_ge. exact G. }
      rewrite H0, Hf.
      destruct (fdiv (int_mantissa (total_dead self))
                     (int_mantissa (total_checked self))); reflexivity.
  - apply Z.ltb_ge in E.
    split; [discriminate|]. split; [reflexivity|].
    split; intros; lia.
Qed.

(** ** The properties on concrete probes *)

Section Concrete.

Import Samples.

Lemma parking_final_url_overrides_status_witness :
  exists r,
    _do_check (RT := RefRuntime.runtime) default_checker example_url at_start
              parked_503 = Return r /\
    status r = REDIRECT_PARKING /\
    status_code r = Some 503%Z /\
    final_url r
    = Some (lit "https://www.SedoParking.com:8443/lander?d=example.com").
Proof.
  apply (parking_final_url_overrides_status
           (RT := RefRuntime.runtime) default_checker example_url at_start
           parked_503
           (respond GET
              (mkReply 503
                 (lit "https://www.SedoParking.com:8443/lander?d=example.com")
                 (Return [])))
           (lit "www.SedoParking.com:8443") (lit "www.SedoParking.com")
           (lit "sedoparking.com")).
  - reflexivity.
  - vm_compute. reflexivity.
  - exists [], (lit ":8443"). vm_compute. reflexivity.
  - vm_compute. left. reflexivity.
  - exists (lit "www."), []. vm_compute. reflexivity.
Defined.

Lemma content_failure_keeps_ok_witness :
  exists r,
    _do_check (RT := RefRuntime.runtime) default_checker example_url at_start
              body_times_out = Return r /\
    status r = OK /\
    status_code r = Some 200%Z.
Proof.
  apply (content_failure_keeps_ok
           (RT := RefRuntime.runtime) default_checker example_url at_start
           body_times_out
           (respond HEAD (mkReply 200 (lit "https://example.com/")
                                  (Return [])))).
  - reflexivity.
  - simpl. lia.
  - vm_compute. reflexivity.
  - exists (mkExn TimeoutException (lit "read timed out")). reflexivity.
Defined.

(** C2 (as stated, at a concrete page).  A response with status 200 whose
    final URL is not a parking domain, with a body of more than 2000
    characters in which two distinct under-construction phrases occur:
    the body also says "buy this domain", and the attempt is classified
    REDIRECT_PARKING, not UNDER_CONSTRUCTION. *)
Lemma two_phrases_yet_parking :
  exchange (serves two_phrases_for_sale)
  = Return (respond HEAD (mkReply 200 (lit "https://example.com/")
                                  (Return []))) /\
  _is_parking_domain (RT := RefRuntime.runtime) (lit "https://example.com/")
  = false /\
  page_content (respond HEAD (mkReply 200 (lit "https://example.com/")
                                      (Return [])))
               (serves two_phrases_for_sale)
  = Return two_phrases_for_sale /\
  (2000 < length two_phrases_for_sale)%nat /\
  In (lit "launching soon") indicators /\
  In (lit "we're working on it") indicators /\
  lit "launching soon" <> lit "we're working on it" /\
  contains (lower two_phrases_for_sale) (lit "launching soon") = true /\
  contains (lower two_phrases_for_sale) (lit "we're working on it") = true /\
  exists r,
    _do_check (RT := RefRuntime.runtime) default_checker example_url at_start
              (serves two_phrases_for_sale) = Return r /\
    status r = REDIRECT_PARKING /\
    status r <> UNDER_CONSTRUCTION.
Proof.
  split; [reflexivity|].
  split; [vm_compute; reflexivity|].
  split; [reflexivity|].
  split; [apply Nat.ltb_lt; vm_compute; reflexivity|].
  split; [vm_compute; tauto|].
  split; [vm_compute; tauto|].
  split; [vm_compute; discriminate|].
  split; [vm_compute; reflexivity|].
  split; [vm_compute; reflexivity|].
  eexists. split; [vm_compute; reflexivity|].
  split; [reflexivity | discriminate].
Qed.

Lemma no_parking_keyword (body : str) :
  _check_parking_content (RT := RefRuntime.runtime) body = false ->
  forall kw, In kw PARKING_PAGE_KEYWORDS ->
             ~ occurs_in (lower kw) (lower body).
Proof.
  intros H kw Hin Hocc.
  unfold _check_parking_content in H. destruct body as [|c body].
  - destruct Hocc as [pre [post E]]. simpl in E.
    destruct pre; [|discriminate]. simpl in E.
    destruct kw; [|discriminate].
    vm_compute in Hin.
    repeat (destruct Hin as [Hin | Hin]; [discriminate Hin|]). exact Hin.
  - apply contains_iff in Hocc.
    assert (E : existsb
                  (fun keyword =>
                     contains (lower (c :: body)) (lower keyword))
                  PARKING_PAGE_KEYWORDS = true).
    { apply existsb_exists. exists kw. split; assumption. }
    change (@str_lower RefRuntime.runtime) with lower in H.
    rewrite E in H. discriminate.
Qed.

Lemma only_phrase_is (body p : str) :
  filter (fun ind => contains (lower body) ind) indicators = [p] ->
  forall q, In q indicators -> occurs_in q (lower body) -> q = p.
Proof.
  intros H q Hin Hocc. apply contains_iff in Hocc.
  assert (Hq : In q (filter (fun ind => contains (lower body) ind)
                            indicators))
    by (apply filter_In; split; assumption).
  rewrite H in Hq. destruct Hq as [Hq | []]. symmetry. exact Hq.
Qed.

Lemma long_body_under_construction_rule_witness :
  (exists r,
      _do_check (RT := RefRuntime.runtime) default_checker example_url at_start
                (serves two_phrases) = Return r /\
      status r = UNDER_CONSTRUCTION) /\
  (exists r,
      _do_check (RT := RefRuntime.runtime) default_checker example_url at_start
                (serves one_phrase) = Return r /\
      status r = OK).
Proof.
  split.
  - destruct (long_body_under_construction_rule
                (RT := RefRuntime.runtime) default_checker example_url at_start
                (serves two_phrases)
                (respond HEAD (mkReply 200 (lit "https://example.com/")
                                       (Return [])))
                two_phrases)
      as [r [Hr [Htwo _]]].
    + reflexivity.
    + reflexivity.
    + reflexivity.
    + vm_compute. reflexivity.
    + reflexivity.
    + apply Nat.leb_le. vm_compute. reflexivity.
    + apply no_parking_keyword. vm_compute. reflexivity.
    + exists r. split; [exact Hr|]. apply Htwo.
      exists (lit "launching soon"), (lit "we're working on it").
      split; [vm_compute; tauto|].
      split; [vm_compute; tauto|].
      split; [vm_compute; discriminate|].
      split; apply contains_iff; vm_compute; reflexivity.
  - destruct (long_body_under_construction_rule
                (RT := RefRuntime.runtime) default_checker example_url at_start
                (serves one_phrase)
                (respond HEAD (mkReply 200 (lit "https://example.com/")
                                       (Return [])))
                one_phrase)
      as [r [Hr [_ Hone]]].
    + reflexivity.
    + reflexivity.
    + reflexivity.
    + vm_compute. reflexivity.
    + reflexivity.
    + apply Nat.leb_le. vm_compute. reflexivity.
    + apply no_parking_keyword. vm_compute. reflexivity.
    + exists r. split; [exact Hr|]. apply Hone.
      exists (lit "launching soon").
      split; [vm_compute; tauto|].
      split; [apply contains_iff; vm_compute; reflexivity|].
      apply only_phrase_is. vm_compute. reflexivity.
Defined.

Lemma retry_only_unclassified_witness :
  exists run,
    check_single (RT := RefRuntime.runtime) default_checker
                 (lit "example.com") at_start flaky = Done run /\
    status (probe_result run) = OK /\
    tries run = 2%nat /\
    sleeps run = [half].
Proof.
  destruct (retry_only_unclassified
              (RT := RefRuntime.runtime) default_checker
              (lit "example.com") at_start flaky)
    as [run [Hrun [Hfinal _]]].
  - vm_compute. discriminate.
  - simpl. lia.
  - simpl. lia.
  - exists run. split; [exact Hrun|].
    destruct (_do_check (RT := RefRuntime.runtime) default_checker
                        (_normalize_url (lit "example.com")) at_start
                        (flaky 1))
      as [r | e] eqn:E.
    + destruct (Hfinal 1%nat r) as [Hres [_ [Htries Hsleeps]]].
      * simpl. lia.
      * intros j Hj. assert (j = 0)%nat as -> by lia.
        exists (mkExn OtherException (lit "protocol error")).
        vm_compute. reflexivity.
      * exact E.
      * rewrite Hres, Htries, Hsleeps.
        vm_compute in E. injection E as <-. repeat split.
    + vm_compute in E. discriminate E.
Defined.

(** C1 (as stated, on a concrete batch).  A fresh checker probes one URL
    whose three attempts all raise an unclassified exception: the only
    result has status UNKNOWN, which is neither OK nor NO_WEBSITE, yet
    [is_dead] is false on it and [total_dead] stays 0. *)
Lemma unknown_result_is_not_counted :
  let run := check_many (RT := RefRuntime.runtime) default_checker
                        [lit "example.com"] None
                        (fun _ => mkTaskEnv at_start always_broken)
                        first_to_finish in
  map status (results run) = [UNKNOWN] /\
  map is_dead (results run) = [false] /\
  count not_ok_nor_absent (results run) = 1%Z /\
  total_dead (checker run) = 0%Z /\
  total_dead (checker run) <> count not_ok_nor_absent (results run).
Proof.
  vm_compute. repeat split. discriminate.
Qed.

(** One dead URL out of three: 33.33333333333333 per cent, the float
    [4691249611844266 * 2 ** -47], not the third of a hundred. *)
Lemma get_stats_guards_division_witness :
  get_stats (mkChecker 100 10 2 true 3 1)
  = Return (mkStats 3 1 (PyFloat (S754_finite false 4691249611844266 (-47)))).
Proof.
  destruct (get_stats_guards_division (mkChecker 100 10 2 true 3 1))
    as [_ [_ [H _]]].
  - simpl. lia.
  - rewrite H; [reflexivity | simpl; lia | vm_compute; reflexivity
                | vm_compute; reflexivity].
Defined.

(** Three attempts that all break: two pauses, of 0.5 s and 1 s, then
    UNKNOWN with the message of the last exception. *)
Lemma gives_up_after_three_attempts :
  exists run,
    check_single (RT := RefRuntime.runtime) default_checker
                 (lit "example.com") at_start always_broken = Done run /\
    status (probe_result run) = UNKNOWN /\
    reason (probe_result run)
    = lit "Unexpected error after 3 attempts: protocol error" /\
    tries run = 3%nat /\
    sleeps run = [half; of_int 1].
Proof. eexists. split; [vm_compute; reflexivity|]. repeat split. Qed.

Lemma stats_after_reset (self : WebsiteChecker) :
  get_stats (reset_stats self) = Return (mkStats 0 0 (PyInt 0)).
Proof. reflexivity. Qed.

(** A quotient beyond the floats is an [OverflowError], as for
    [10 ** 400 / 1]; no state gives a [ZeroDivisionError]. *)
Lemma get_stats_overflows :
  get_stats (mkChecker 100 10 2 true 1 (10 ^ 400)) = Raise OverflowError.
Proof. vm_compute. reflexivity. Qed.

End Concrete.

(* ================================================================== *)
(** * Further properties of the checker *)
(* ================================================================== *)

(** ** One attempt, continued *)

Section DoCheckMore.

Context {RT : PyRuntime}.

Variable self : WebsiteChecker.
Variable url : str.
Variable start_time : float.

Lemma do_check_keeps_url (a : Attempt) (r : WebsiteCheckResult) :
  _do_check self url start_time a = Return r -> Models.url r = url.
Proof.
  unfold _do_check, classify_failure, content_verdict.
  destruct (exchange a) as [response | e].
  - destruct (_is_parking_domain _); [intros H; injection H as <-; auto|].
    destruct (500 <=? _)%Z; [intros H; injection H as <-; auto|].
    destruct (400 <=? _)%Z; [intros H; injection H as <-; auto|].
    destruct (check_content self && _); [|intros H; injection H as <-; auto].
    destruct (page_content response a) as [content | e'];
      [|intros H; injection H as <-; auto].
    destruct (_check_parking_content content);
      [intros H; injection H as <-; auto|].
    destruct (_is_under_construction content);
      intros H; injection H as <-; auto.
  - destruct (kind e).
    + destruct (existsb _ DNS_MARKERS); intros H; injection H as <-; auto.
    + intros H; injection H as <-; auto.
    + intros H; injection H as <-; auto.
    + destruct (existsb _ SSL_MARKERS);
        [intros H; injection H as <-; auto | discriminate].
Qed.

(** X1.  What a result of [_do_check] always carries: the URL it was given and
    the elapsed time in milliseconds, which is the float
    [(clock - start_time) * 1000] for the reading [clock] of the attempt;
    a status code and a final URL exactly when the exchange ended with a
    response. *)
Theorem do_check_result_fields (a : Attempt) (r : WebsiteCheckResult) :
  _do_check self url start_time a = Return r ->
  Models.url r = url /\
  response_time_ms r
  = Some (fmul (fsub (clock a) start_time) (of_int 1000)) /\
  match exchange a with
  | Return response =>
      status_code r = Some (resp_status_code response) /\
      final_url r = Some (resp_url response)
  | Raise _ => status_code r = None /\ final_url r = None
  end.
Proof.
  unfold _do_check, classify_failure, content_verdict.
  destruct (exchange a) as [response | e].
  - destruct (_is_parking_domain _);
      [intros H; injection H as <-; simpl; auto|].
    destruct (500 <=? _)%Z; [intros H; injection H as <-; simpl; auto|].
    destruct (400 <=? _)%Z; [intros H; injection H as <-; simpl; auto|].
    destruct (check_content self && _);
      [|intros H; injection H as <-; simpl; auto].
    destruct (page_content response a) as [content | e'];
      [|intros H; injection H as <-; simpl; auto].
    destruct (_check_parking_content content);
      [intros H; injection H as <-; simpl; auto|].
    destruct (_is_under_construction content);
      intros H; injection H as <-; simpl; auto.
  - destruct (kind e).
    + destruct (existsb _ DNS_MARKERS);
        intros H; injection H as <-; simpl; auto.
    + intros H; injection H as <-; simpl; auto.
    + intros H; injection H as <-; simpl; auto.
    + destruct (existsb _ SSL_MARKERS);
        [intros H; injection H as <-; simpl; auto | discriminate].
Qed.

(** X2.  The status-code bands, for a response whose final URL is not a parking
    domain: 500 and more is HTTP_ERROR_5XX, 400 to 499 is HTTP_ERROR_4XX;
    below 400 the result is OK, REDIRECT_PARKING or UNDER_CONSTRUCTION, and
    it is OK without the body being looked at when the code is 300 or more
    or content checking is off. *)
Theorem status_code_bands (a : Attempt) (response : Response) :
  exchange a = Return response ->
  _is_parking_domain (resp_url response) = false ->
  exists r,
    _do_check self url start_time a = Return r /\
    ((500 <= resp_status_code response)%Z -> status r = HTTP_ERROR_5XX) /\
    ((400 <= resp_status_code response < 500)%Z ->
     status r = HTTP_ERROR_4XX) /\
    ((resp_status_code response < 400)%Z ->
     In (status r) [OK; REDIRECT_PARKING; UNDER_CONSTRUCTION]) /\
    ((resp_status_code response < 400)%Z ->
     (300 <= resp_status_code response)%Z \/ check_content self = false ->
     status r = OK).
Proof.
  intros Hex Hpark. unfold _do_check. rewrite Hex, Hpark.
  destruct (500 <=? resp_status_code response)%Z eqn:H5.
  { apply Z.leb_le in H5. eexists. split; [reflexivity|].
    simpl. repeat split; intros; try reflexivity; lia. }
  apply Z.leb_gt in H5.
  destruct (400 <=? resp_status_code response)%Z eqn:H4.
  { apply Z.leb_le in H4. eexists. split; [reflexivity|].
    simpl. repeat split; intros; try reflexivity; lia. }
  apply Z.leb_gt in H4.
  unfold content_verdict.
  destruct (check_content self) eqn:Hcc;
    destruct (resp_status_code response <? 300)%Z eqn:H3; simpl andb; cbv iota.
  - apply Z.ltb_lt in H3.
    destruct (page_content response a) as [content | e].
    + destruct (_check_parking_content content);
        [|destruct (_is_under_construction content)];
        (eexists; split; [reflexivity|]); simpl;
          (split; [lia|]); (split; [lia|]); (split; [tauto|]);
          intros _ [H | H]; try lia; discriminate.
    + eexists. split; [reflexivity|]. simpl.
      split; [lia|]. split; [lia|]. split; [tauto|]. reflexivity.
  - eexists. split; [reflexivity|]. simpl.
    split; [lia|]. split; [lia|]. split; [tauto|]. reflexivity.
  - eexists. split; [reflexivity|]. simpl.
    split; [lia|]. split; [lia|]. split; [tauto|]. reflexivity.
  - eexists. split; [reflexivity|]. simpl.
    split; [lia|]. split; [lia|]. split; [tauto|]. reflexivity.
Qed.

(** X3.  When HEAD is answered with 400 or more, the request is made again with
    GET and only that second answer counts: two attempts that differ in
    the rejected HEAD answer alone give the same outcome. *)
Theorem rejected_head_leaves_no_trace (a a' : Attempt) (h h' : Reply) :
  head_reply a = Return h ->
  head_reply a' = Return h' ->
  (400 <= reply_status h)%Z ->
  (400 <= reply_status h')%Z ->
  get_reply a = get_reply a' ->
  clock a = clock a' ->
  exchange a = client_get a /\
  _do_check self url start_time a = _do_check self url start_time a'.
Proof.
  intros Hh Hh' H4 H4' Hget Hclock.
  assert (E : forall b g, head_reply b = Return g ->
                          (400 <= reply_status g)%Z ->
                          exchange b = client_get b).
  { intros b g Hb Hg. unfold exchange, client_head. rewrite Hb. simpl.
    apply Z.leb_le in Hg. rewrite Hg. reflexivity. }
  split; [exact (E a h Hh H4)|].
  unfold _do_check, classify_failure, content_verdict, page_content,
    elapsed_ms.
  rewrite (E a h Hh H4), (E a' h' Hh' H4').
  unfold client_get. rewrite Hget, Hclock. reflexivity.
Qed.

(** X4.  The kinds of exception that an [except] clause names are classified
    by their kind, whatever their message says: a connection error is
    NO_DNS when a DNS marker occurs in its lowered message and
    CONNECTION_ERROR otherwise, a timeout is TIMEOUT, too many redirects
    are REDIRECT_PARKING.  None of them is SSL_ERROR and none is raised
    again; the result has no status code and no final URL. *)
Theorem named_exceptions_are_classified_by_kind (a : Attempt) (e : exn) :
  exchange a = Raise e ->
  kind e <> OtherException ->
  exists r,
    _do_check self url start_time a = Return r /\
    status r <> SSL_ERROR /\
    status_code r = None /\ final_url r = None /\
    status r =
    match kind e with
    | ConnectError =>
        if existsb (fun x => contains (str_lower (message e)) x) DNS_MARKERS
        then NO_DNS else CONNECTION_ERROR
    | TimeoutException => TIMEOUT
    | _ => REDIRECT_PARKING
    end.
Proof.
  intros Hex Hkind. unfold _do_check, classify_failure. rewrite Hex.
  destruct (kind e); try tauto.
  - destruct (existsb _ DNS_MARKERS);
      (eexists; split; [reflexivity|]); simpl;
        repeat split; auto; discriminate.
  - eexists; split; [reflexivity|]; simpl; repeat split; auto; discriminate.
  - eexists; split; [reflexivity|]; simpl; repeat split; auto; discriminate.
Qed.

End DoCheckMore.

(** ** Domain classifier and content heuristics, continued *)

Section HeuristicsMore.

Context {RT : PyRuntime}.

(** X5.  An URL that [urlparse] rejects has the empty domain: it is neither a
    parking domain nor a domain to skip, and no exception comes out. *)
Theorem unparsable_url_is_not_classified (u : str) :
  urlparse_netloc u = None ->
  _extract_domain u = [] /\
  _is_parking_domain u = false /\
  should_skip_domain u = false.
Proof.
  intros H. unfold _is_parking_domain, should_skip_domain, _extract_domain.
  rewrite H. repeat split.
Qed.

Lemma parking_keyword_found (body p : str) :
  body <> [] ->
  In p PARKING_PAGE_KEYWORDS ->
  occurs_in (str_lower p) (str_lower body) ->
  _check_parking_content body = true.
Proof.
  intros Hne Hin Hocc. unfold _check_parking_content.
  destruct body as [|c body]; [tauto|].
  apply existsb_exists. exists p. split; [exact Hin|].
  apply contains_iff. exact Hocc.
Qed.

Lemma under_construction_nonempty (body : str) :
  _is_under_construction body = true -> body <> [].
Proof. destruct body; [discriminate | discriminate]. Qed.

(** X6.  A phrase that is both an under-construction indicator and a
    parking-page keyword (as "coming soon" is) never leads to
    UNDER_CONSTRUCTION: a body in which it occurs is taken by the
    parking-page check, which runs first. *)
Theorem shared_phrase_never_under_construction
        (self : WebsiteChecker) (url : str) (start_time : float) (a : Attempt)
        (response : Response) (body p : str) (r : WebsiteCheckResult) :
  In p indicators ->
  In p PARKING_PAGE_KEYWORDS ->
  str_lower p = p ->
  exchange a = Return response ->
  page_content response a = Return body ->
  occurs_in p (str_lower body) ->
  _do_check self url start_time a = Return r ->
  status r <> UNDER_CONSTRUCTION.
Proof.
  intros Hind Hkw Hfix Hex Hbody Hocc.
  unfold _do_check, content_verdict. rewrite Hex, Hbody.
  destruct (_is_parking_domain _);
    [intros H; injection H as <-; discriminate|].
  destruct (500 <=? _)%Z; [intros H; injection H as <-; discriminate|].
  destruct (400 <=? _)%Z; [intros H; injection H as <-; discriminate|].
  destruct (check_content self && _);
    [|intros H; injection H as <-; discriminate].
  destruct (_check_parking_content body) eqn:Hp;
    [intros H; injection H as <-; discriminate|].
  destruct (_is_under_construction body) eqn:Hu;
    [|intros H; injection H as <-; discriminate].
  exfalso. apply under_construction_nonempty in Hu.
  rewrite <- Hfix in Hocc at 1.
  rewrite (parking_keyword_found body p Hu Hkw Hocc) in Hp. discriminate.
Qed.

(** X7.  The short-body rule.  With content checking on, a response below 300
    whose final URL is not a parking domain, and a fetched, non-empty body
    without parking-page keyword: when the body is shorter than 2000
    characters, one under-construction phrase occurring in it makes the
    attempt UNDER_CONSTRUCTION; and whatever its length, when no phrase
    occurs the attempt is OK. *)
Theorem short_body_one_phrase_suffices
        (self : WebsiteChecker) (url : str) (start_time : float) (a : Attempt)
        (response : Response) (body : str) :
  check_content self = true ->
  exchange a = Return response ->
  (resp_status_code response < 300)%Z ->
  _is_parking_domain (resp_url response) = false ->
  page_content response a = Return body ->
  body <> [] ->
  (forall kw, In kw PARKING_PAGE_KEYWORDS ->
              ~ occurs_in (str_lower kw) (str_lower body)) ->
  exists r,
    _do_check self url start_time a = Return r /\
    ((length body < 2000)%nat ->
     (exists p, In p indicators /\ occurs_in p (str_lower body)) ->
     status r = UNDER_CONSTRUCTION) /\
    ((forall p, In p indicators -> ~ occurs_in p (str_lower body)) ->
     status r = OK).
Proof.
  intros Hcc Hex Hcode Hpark Hbody Hne Hsilent.
  destruct (success_bands (resp_status_code response)) as [H5 H4]; [lia|].
  apply parking_content_silent in Hsilent.
  apply Z.ltb_lt in Hcode.
  unfold _do_check. rewrite Hex, Hpark, H5, H4.
  unfold content_verdict. rewrite Hcc, Hcode, Hbody, Hsilent.
  simpl andb. cbv iota.
  destruct (_is_under_construction body) eqn:Hu;
    (eexists; split; [reflexivity|]); simpl; split.
  - reflexivity.
  - intros Hnone. exfalso.
    unfold _is_under_construction in Hu. destruct body as [|c body]; [tauto|].
    assert (Hz : indicator_matches (str_lower (c :: body)) = 0%nat).
    { unfold indicator_matches.
      destruct (filter _ indicators) as [|q l] eqn:F; [reflexivity|].
      assert (Hq : In q (filter
                           (fun ind => contains (str_lower (c :: body)) ind)
                           indicators))
        by (rewrite F; left; reflexivity).
      apply filter_In in Hq. destruct Hq as [Hq Hc].
      apply contains_iff in Hc. destruct (Hnone q Hq Hc). }
    rewrite Hz in Hu. rewrite andb_false_r in Hu. discriminate.
  - intros Hshort [p [Hin Hocc]]. exfalso.
    unfold _is_under_construction in Hu. destruct body as [|c body]; [tauto|].
    apply Nat.ltb_lt in Hshort. rewrite Hshort in Hu.
    apply contains_iff in Hocc.
    pose proof (filter_has_one
                  (fun ind => contains (str_lower (c :: body)) ind)
                  indicators p Hin Hocc) as H1.
    apply Nat.leb_le in H1. unfold indicator_matches in Hu.
    rewrite H1 in Hu. discriminate.
  - reflexivity.
Qed.

End HeuristicsMore.

(** ** Normalizer and retry loop, continued *)

Section RetryMore.

Context {RT : PyRuntime}.

Variable self : WebsiteChecker.
Variable start_time : float.
Variable net : nat -> Attempt.

Lemma attempt_loop_budget (url : str) (remaining : nat) :
  forall i : nat,
    (max_retries self + 1 <= Z.of_nat (i + remaining))%Z \/ remaining = 0%nat ->
    let run := attempt_loop self url start_time net i remaining in
    (tries run <= remaining)%nat /\
    ((0 < remaining)%nat -> (0 < tries run)%nat) /\
    sleeps run = map backoff (seq i (tries run - 1)) /\
    Models.url (probe_result run) = url /\
    In (status (probe_result run)) (UNKNOWN :: DEFINITE).
Proof.
  induction remaining as [|remaining IH]; intros i Hinv; cbv zeta.
  - simpl. repeat split; auto.
  - cbn [attempt_loop].
    destruct (_do_check self url start_time (net i)) as [r | e] eqn:E.
    + simpl. repeat split; [lia | lia | |].
      * exact (do_check_keeps_url self url start_time _ r E).
      * right. exact (do_check_definite self url start_time _ r E).
    + destruct (Z.of_nat i <? max_retries self)%Z eqn:Hlt.
      * apply Z.ltb_lt in Hlt.
        destruct (IH (S i)) as [H1 [H2 [H3 [H4 H5]]]]; [left; lia|].
        cbv zeta in H1, H2, H3, H4, H5.
        cbn [tries sleeps probe_result].
        assert (Hpos : (0 < remaining)%nat) by lia.
        specialize (H2 Hpos).
        split; [lia|]. split; [lia|]. split; [|split; assumption].
        rewrite H3.
        replace (S (tries (attempt_loop self url start_time net (S i)
                                        remaining)) - 1)%nat
          with (S (tries (attempt_loop self url start_time net (S i)
                                       remaining) - 1))%nat by lia.
        reflexivity.
      * simpl. split; [lia|]. split; [lia|]. auto.
Qed.

Lemma probe_budget (url : str) :
  let run := probe self url start_time net in
  (tries run <= Z.to_nat (max_retries self + 1))%nat /\
  sleeps run = map backoff (seq 0 (tries run - 1)) /\
  Models.url (probe_result run) = _normalize_url url /\
  In (status (probe_result run)) (NO_WEBSITE :: UNKNOWN :: DEFINITE) /\
  (status (probe_result run) = NO_WEBSITE -> _normalize_url url = []).
Proof.
  cbv zeta. unfold probe.
  destruct (_normalize_url url) as [|c t] eqn:E.
  - simpl. repeat split; auto. lia.
  - destruct (attempt_loop_budget (c :: t) (Z.to_nat (max_retries self + 1)) 0)
      as [H1 [_ [H3 [H4 H5]]]].
    { destruct (Z.to_nat (max_retries self + 1)) eqn:Z; [right; reflexivity|].
      left. lia. }
    cbv zeta in H1, H3, H4, H5. repeat split; auto.
    + right. exact H5.
    + intros Hd. rewrite Hd in H5. simpl in H5.
      repeat (destruct H5 as [H5 | H5]; [discriminate H5|]). destruct H5.
Qed.

(** X8.  Every probe by a checker whose semaphore has a permit, whatever the
    network does: it returns; it calls [_do_check] at most
    [max_retries + 1] times (never when that is 0 or less), it pauses
    between two calls only, for the floats [0.5 * 1], [0.5 * 2],
    [0.5 * 3], ... seconds in this order, its result carries the
    normalized URL, and its status is never DEAD_DOMAIN: it is
    NO_WEBSITE, UNKNOWN or one of the nine classifications of an
    attempt. *)
Theorem probe_stays_within_budget (url : str) :
  (0 < concurrent_limit self)%Z ->
  exists run,
    check_single self url start_time net = Done run /\
    (tries run <= Z.to_nat (max_retries self + 1))%nat /\
    sleeps run
    = map (fun j => fmul half (of_int (Z.of_nat j + 1)))
          (seq 0 (tries run - 1)) /\
    Models.url (probe_result run) = _normalize_url url /\
    In (status (probe_result run)) (NO_WEBSITE :: UNKNOWN :: DEFINITE) /\
    status (probe_result run) <> DEAD_DOMAIN.
Proof.
  intros Hlimit. exists (probe self url start_time net).
  split; [apply check_single_admitted; exact Hlimit|].
  destruct (probe_budget url) as [H1 [H2 [H3 [H4 _]]]].
  cbv zeta in H1, H2, H3, H4.
  split; [exact H1|]. split; [exact H2|]. split; [exact H3|].
  split; [exact H4|].
  intros Hd. rewrite Hd in H4. simpl in H4.
  repeat (destruct H4 as [H4 | H4]; [discriminate H4|]). exact H4.
Qed.

(** X9.  The normal form of an URL is empty exactly when the URL is blank
    (empty or white space only), a probe answers NO_WEBSITE exactly in
    that case, and then it returns without waiting at the semaphore and
    without any attempt. *)
Theorem no_website_iff_blank (url : str) :
  (_normalize_url url = [] <-> is_blank url = true) /\
  ((exists run, check_single self url start_time net = Done run /\
                status (probe_result run) = NO_WEBSITE)
   <-> is_blank url = true) /\
  (is_blank url = true ->
   exists run, check_single self url start_time net = Done run /\
               status (probe_result run) = NO_WEBSITE /\
               tries run = 0%nat /\ sleeps run = []).
Proof.
  split; [apply normalize_empty_iff_blank|].
  rewrite <- normalize_empty_iff_blank.
  assert (Hblank : _normalize_url url = [] ->
                   exists run,
                     check_single self url start_time net = Done run /\
                     status (probe_result run) = NO_WEBSITE /\
                     tries run = 0%nat /\ sleeps run = []).
  { intros E. eexists. split; [apply check_single_blank; exact E|].
    repeat split. }
  split; [split|exact Hblank].
  - intros [run [Hrun Hs]].
    destruct (_normalize_url url) as [|c t] eqn:E; [reflexivity | exfalso].
    unfold check_single, with_semaphore in Hrun. rewrite E in Hrun.
    destruct (0 <? concurrent_limit self)%Z; [|discriminate].
    injection Hrun as <-.
    destruct (attempt_loop_budget (c :: t) (Z.to_nat (max_retries self + 1)) 0)
      as [_ [_ [_ [_ H5]]]].
    { destruct (Z.to_nat (max_retries self + 1)) eqn:Z; [right; reflexivity|].
      left. lia. }
    cbv zeta in H5. rewrite Hs in H5. simpl in H5.
    repeat (destruct H5 as [H5 | H5]; [discriminate H5|]). exact H5.
  - intros E. destruct (Hblank E) as [run [H1 [H2 _]]]. exists run. auto.
Qed.

End RetryMore.

(** ** The batch, continued *)

Lemma in_map_indexed {A B : Type} (f : nat -> A -> B) (l : list A) :
  forall (i : nat) (y : B),
    In y (map_indexed f i l) -> exists k x, In x l /\ y = f k x.
Proof.
  induction l as [|a l IH]; intros i y; simpl; [tauto|].
  intros [<- | H].
  - exists i, a. auto.
  - destruct (IH _ _ H) as [k [x [Hin ->]]]. exists k, x. auto.
Qed.

Lemma map_indexed_covers {A B : Type} (f : nat -> A -> B) (l : list A) :
  forall (i : nat) (x : A),
    In x l -> exists k, In (f k x) (map_indexed f i l).
Proof.
  induction l as [|a l IH]; intros i x; simpl; [tauto|].
  intros [<- | H].
  - exists i. auto.
  - destruct (IH (S i) x H) as [k Hk]. exists k. auto.
Qed.

Section BatchMore.

Context {RT : PyRuntime}.

Variable self : WebsiteChecker.
Variable env : nat -> TaskEnv.
Variable finish_order : nat -> nat.

Lemma batch_results_perm (urls : list str) (cb : option callback) :
  (0 < concurrent_limit self)%Z ->
  Permutation
    (results (check_many self urls cb env finish_order))
    (map_indexed (task_result self env) 0 (filter is_valid_url urls)).
Proof.
  intros Hlimit. rewrite check_many_open by exact Hlimit. cbv zeta.
  match goal with
  | |- context [fold_left ?f ?rs ?b] =>
      destruct (drain_counts (Z.of_nat (length (filter is_valid_url urls)))
                             cb rs b) as [Hres _]
  end.
  cbv zeta in Hres. rewrite Hres. cbn [results app].
  apply as_completed_perm. reflexivity.
Qed.

Lemma valid_probe_facts (i : nat) (u : str) :
  is_valid_url u = true ->
  Models.url (task_result self env i u) = _normalize_url u /\
  _normalize_url u <> [] /\
  In (status (task_result self env i u)) (UNKNOWN :: DEFINITE).
Proof.
  intros Hv. rewrite is_valid_url_spec in Hv.
  assert (Hne : _normalize_url u <> []).
  { intros E. apply normalize_empty_iff_blank in E. rewrite E in Hv.
    discriminate. }
  split; [|split; [exact Hne|]]; unfold task_result, probe;
    destruct (_normalize_url u) as [|c t] eqn:E; try tauto;
    destruct (attempt_loop_budget self (started (env i)) (network (env i))
                (c :: t) (Z.to_nat (max_retries self + 1)) 0)
      as [_ [_ [_ [H4 H5]]]];
    try (destruct (Z.to_nat (max_retries self + 1)) eqn:Z;
         [right; reflexivity | left; lia]);
    assumption.
Qed.

Lemma batch_results_are_tasks (urls : list str) (cb : option callback) :
  (0 < concurrent_limit self)%Z ->
  let run := check_many self urls cb env finish_order in
  (forall u, In u urls -> is_valid_url u = true ->
             exists k, In (task_result self env k u) (results run)) /\
  (forall r, In r (results run) ->
             exists k u, In u urls /\ is_valid_url u = true /\
                         r = task_result self env k u).
Proof.
  intros Hlimit. cbv zeta.
  pose proof (batch_results_perm urls cb Hlimit) as P. split.
  - intros u Hin Hv.
    destruct (map_indexed_covers (task_result self env)
                                 (filter is_valid_url urls) 0 u) as [k Hk].
    { apply filter_In. auto. }
    exists k. apply (Permutation_in _ (Permutation_sym P)). exact Hk.
  - intros r Hr. apply (Permutation_in _ P) in Hr.
    apply in_map_indexed in Hr. destruct Hr as [k [u [Hu ->]]].
    apply filter_In in Hu. destruct Hu as [Hin Hv].
    exists k, u. auto.
Qed.

Lemma task_status_in_batch (k : nat) (u : str) :
  is_valid_url u = true ->
  status (task_result self env k u) <> NO_WEBSITE /\
  status (task_result self env k u) <> DEAD_DOMAIN.
Proof.
  intros Hv. destruct (valid_probe_facts k u Hv) as [_ [_ H3]].
  split; intros Hs; rewrite Hs in H3; simpl in H3;
    repeat (destruct H3 as [H3 | H3]; [discriminate H3|]); exact H3.
Qed.

(** X10.  What a batch returns when the semaphore of the checker has a
    permit, for any completion order: the call returns, every valid input
    URL has a result that carries its normal form, every result carries
    the (non-empty) normal form of a valid input URL, and no result is
    NO_WEBSITE or DEAD_DOMAIN.  So results can be matched with the inputs
    by looking up the normalized input URL. *)
Theorem batch_results_match_normalized_inputs
        (urls : list str) (cb : option callback) :
  (0 < concurrent_limit self)%Z ->
  let run := check_many self urls cb env finish_order in
  returned run = true /\
  (forall u, In u urls -> is_valid_url u = true ->
             exists r, In r (results run) /\
                       Models.url r = _normalize_url u) /\
  (forall r, In r (results run) ->
             (exists u, In u urls /\ is_valid_url u = true /\
                        Models.url r = _normalize_url u) /\
             Models.url r <> [] /\
             status r <> NO_WEBSITE /\ status r <> DEAD_DOMAIN).
Proof.
  intros Hlimit. cbv zeta.
  destruct (batch_results_are_tasks urls cb Hlimit) as [Hcover Hsound].
  cbv zeta in Hcover, Hsound.
  split; [apply batch_returns; exact Hlimit|].
  split.
  - intros u Hin Hv. destruct (Hcover u Hin Hv) as [k Hk].
    exists (task_result self env k u). split; [exact Hk|].
    apply valid_probe_facts. exact Hv.
  - intros r Hr. destruct (Hsound r Hr) as [k [u [Hin [Hv ->]]]].
    destruct (valid_probe_facts k u Hv) as [H1 [H2 _]].
    split; [exists u; auto|]. rewrite H1. split; [exact H2|].
    apply task_status_in_batch. exact Hv.
Qed.

Lemma drain_keeps_settings (cb : option callback) (total : Z)
      (rs : list WebsiteCheckResult) :
  forall b : BatchRun,
    let b' := fold_left (drain_one cb total) rs b in
    concurrent_limit (checker b') = concurrent_limit (checker b) /\
    timeout (checker b') = timeout (checker b) /\
    max_retries (checker b') = max_retries (checker b) /\
    check_content (checker b') = check_content (checker b).
Proof.
  induction rs as [|r rs IH]; intros b; cbv zeta.
  - simpl. auto.
  - cbn [fold_left]. destruct (IH (drain_one cb total b r)) as [H1 [H2 [H3 H4]]].
    cbv zeta in H1, H2, H3, H4. rewrite H1, H2, H3, H4.
    unfold drain_one. cbn [checker]. destruct (is_dead r); simpl; auto.
Qed.

(** X11.  The counters over a batch of a checker whose semaphore has a
    permit: [total_checked] grows by the number of valid URLs,
    [total_dead] by at most as much and never shrinks, so
    [0 <= total_dead <= total_checked] is kept once it holds (as it does
    for a new checker and after [reset_stats]); the settings of the
    checker are not touched. *)
Theorem batch_keeps_counters_consistent
        (urls : list str) (cb : option callback) :
  (0 < concurrent_limit self)%Z ->
  let run := check_many self urls cb env finish_order in
  let M := Z.of_nat (length (filter is_valid_url urls)) in
  total_checked (checker run) = (total_checked self + M)%Z /\
  (total_dead self <= total_dead (checker run) <= total_dead self + M)%Z /\
  ((0 <= total_dead self <= total_checked self)%Z ->
   (0 <= total_dead (checker run) <= total_checked (checker run))%Z) /\
  concurrent_limit (checker run) = concurrent_limit self /\
  timeout (checker run) = timeout self /\
  max_retries (checker run) = max_retries self /\
  check_content (checker run) = check_content self.
Proof.
  intros Hlimit. cbv zeta. rewrite check_many_open by exact Hlimit.
  cbv zeta.
  set (tasks := map_indexed (task_result self env) 0
                            (filter is_valid_url urls)).
  set (done := as_completed finish_order 0 tasks (length tasks)).
  assert (Hlen : length done = length (filter is_valid_url urls)).
  { transitivity (length tasks).
    - apply Permutation_length. apply as_completed_perm. reflexivity.
    - apply map_indexed_length. }
  destruct (drain_counts (Z.of_nat (length (filter is_valid_url urls)))
                         cb done (mkBatch [] 0 self [] true))
    as [_ [_ [Hc Hd]]].
  destruct (drain_keeps_settings
              cb (Z.of_nat (length (filter is_valid_url urls)))
              done (mkBatch [] 0 self [] true)) as [S1 [S2 [S3 S4]]].
  cbv zeta in Hc, Hd, S1, S2, S3, S4. cbn [checker] in Hc, Hd, S1, S2, S3, S4.
  rewrite Hc, Hd, S1, S2, S3, S4, Hlen.
  assert (Hcount : (0 <= count is_dead done
                    <= Z.of_nat (length (filter is_valid_url urls)))%Z).
  { unfold count. rewrite <- Hlen.
    pose proof (filter_length_le is_dead done). lia. }
  repeat split; auto; lia.
Qed.

End BatchMore.

(** ** Statistics, continued *)


Lemma reset_stats_zeroes (self : WebsiteChecker) :
  total_checked (reset_stats self) = 0%Z /\
  total_dead (reset_stats self) = 0%Z /\
  reset_stats (reset_stats self) = reset_stats self /\
  concurrent_limit (reset_stats self) = concurrent_limit self /\
  max_retries (reset_stats self) = max_retries self.
Proof. repeat split. Qed.

(* ================================================================== *)
(** * Properties of the lead modules *)
(* ================================================================== *)

(** ** Dictionaries *)

Lemma str_eqb_eq (a b : str) : str_eqb a b = true <-> a = b.
Proof.
  unfold str_eqb. destruct (str_eq_dec a b); split; auto; discriminate.
Qed.

Lemma str_eqb_refl (a : str) : str_eqb a a = true.
Proof. apply str_eqb_eq. reflexivity. Qed.

Lemma dict_get_set {V : Type} (d : dict V) (k k' : str) (v : V) :
  dict_get (dict_set d k v) k'
  = if str_eqb k k' then Some v else dict_get d k'.
Proof.
  induction d as [|[k0 v0] d IH]; simpl.
  - reflexivity.
  - destruct (str_eqb k0 k) eqn:E0; simpl.
    + apply str_eqb_eq in E0. subst k0.
      destruct (str_eqb k k'); reflexivity.
    + destruct (str_eqb k0 k') eqn:E1.
      * apply str_eqb_eq in E1. subst k0.
        destruct (str_eqb k k') eqn:E2; [|reflexivity].
        apply str_eqb_eq in E2. subst k'. rewrite str_eqb_refl in E0.
        discriminate.
      * exact IH.
Qed.

Lemma dict_total_bump (d : dict Z) (k : str) :
  dict_total (dict_bump d k) = (dict_total d + 1)%Z.
Proof.
  unfold dict_bump.
  induction d as [|[k0 v0] d IH]; simpl.
  - reflexivity.
  - destruct (str_eqb k0 k) eqn:E; simpl.
    + lia.
    + unfold dict_total in *. simpl. rewrite IH. lia.
Qed.

(** ** The lead filter *)

(** Closes a case of the book-keeping of [is_potential_lead]. *)
Ltac booked :=
  cbn [Filter.criteria Filter.total_processed Filter.passed
       Filter.rejected_reasons];
  rewrite ?dict_total_bump; repeat split; lia.

Section LeadFilterProps.

Import Filter.

Context {RT : PyRuntime}.

(** One call of [is_potential_lead]: the answer is [accepts], and the
    book-keeping counts the call, the pass or the one reason of
    rejection. *)
Lemma is_potential_lead_spec (self : LeadFilter) (b : Business) :
  let (answer, self') := is_potential_lead self b in
  answer = accepts (criteria self) b /\
  criteria self' = criteria self /\
  total_processed self' = (total_processed self + 1)%Z /\
  passed self' = (passed self + if answer then 1 else 0)%Z /\
  dict_total (rejected_reasons self')
  = (dict_total (rejected_reasons self) + if answer then 0 else 1)%Z.
Proof.
  unfold is_potential_lead, accepts, reject, _record_rejection, type_wanted.
  cbn [criteria total_processed passed rejected_reasons].
  destruct (has_website b); cbn [negb andb]; [|booked].
  destruct (website_check_result b) as [result|]; [|booked].
  destruct (status_mem (status result) (include_statuses (criteria self)));
    cbn [negb andb]; [|booked].
  destruct (status_mem (status result) (exclude_statuses (criteria self)));
    cbn [negb andb]; [booked|].
  destruct (float_lt (rating b) (min_rating (criteria self)));
    cbn [negb andb]; [booked|].
  destruct (user_ratings_total b <? min_reviews (criteria self))%Z;
    cbn [negb andb]; [booked|].
  destruct (require_phone (criteria self)
            && negb (truthy (formatted_phone_number b)));
    cbn [negb andb]; [booked|].
  destruct (business_types (criteria self)) as [[|w wanted]|];
    cbn [negb andb].
  - destruct (excluded_keyword (criteria self) b); booked.
  - destruct (existsb (fun t => str_mem t (w :: wanted)) (types b));
      cbn [negb andb]; [|booked].
    destruct (excluded_keyword (criteria self) b); booked.
  - destruct (excluded_keyword (criteria self) b); booked.
Qed.

Context {TT : PyText}.

Lemma filter_loop_spec (bs : list Business) :
  forall (self : LeadFilter) (leads : list Lead),
    let (out, self') := filter_loop self bs leads in
    out = leads ++ map from_business (filter (accepts (criteria self)) bs) /\
    criteria self' = criteria self /\
    total_processed self' = (total_processed self + Z.of_nat (length bs))%Z /\
    passed self'
    = (passed self
       + Z.of_nat (length (filter (accepts (criteria self)) bs)))%Z /\
    dict_total (rejected_reasons self')
    = (dict_total (rejected_reasons self) + Z.of_nat (length bs)
       - Z.of_nat (length (filter (accepts (criteria self)) bs)))%Z.
Proof.
  induction bs as [|b bs IH]; intros self leads.
  - simpl. rewrite app_nil_r. repeat split; lia.
  - cbn [filter_loop].
    pose proof (is_potential_lead_spec self b) as Hone.
    destruct (is_potential_lead self b) as [answer self1].
    destruct Hone as [Ha [Hc [Ht [Hp Hr]]]].
    specialize (IH self1
                   (if answer then leads ++ [from_business b] else leads)).
    destruct (filter_loop self1 bs _) as [out self'].
    destruct IH as [Io [Ic [It [Ip Ir]]]].
    rewrite Hc in Io, Ic, Ip, Ir.
    cbn [filter]. rewrite <- Ha.
    rewrite Io, Ic, It, Ip, Ir, Ht, Hp, Hr.
    destruct answer; cbn [map length]; rewrite ?Nat2Z.inj_succ;
      rewrite <- ?app_assoc; cbn [app]; repeat split; lia.
Qed.

(** X14.  [filter_leads] returns, in the order of the input, the leads of the
    businesses that pass the nine checks; the earlier statistics of the
    filter play no part; afterwards [total_processed] is the number of
    businesses, [passed] the number of leads, and the counts of the
    rejection reasons add up to the number of businesses rejected. *)
Theorem filter_leads_keeps_order_and_counts
        (self : LeadFilter) (bs : list Business) :
  let (leads, self') := filter_leads self bs in
  leads = map from_business (filter (accepts (criteria self)) bs) /\
  criteria self' = criteria self /\
  total_processed self' = Z.of_nat (length bs) /\
  passed self' = Z.of_nat (length leads) /\
  dict_total (rejected_reasons self')
  = (Z.of_nat (length bs) - Z.of_nat (length leads))%Z.
Proof.
  unfold filter_leads.
  pose proof (filter_loop_spec bs (reset_stats self) []) as H.
  destruct (filter_loop (reset_stats self) bs []) as [leads self'].
  destruct H as [Ho [Hc [Ht [Hp Hr]]]].
  cbn [reset_stats criteria total_processed passed rejected_reasons app] in *.
  unfold dict_total in Hr at 2. cbn [fold_right] in Hr.
  rewrite Ho, length_map. repeat split; auto; lia.
Qed.

End LeadFilterProps.

Section LeadCriteriaProps.

Import Filter.

Context {RT : PyRuntime}.

Lemma status_mem_iff (x : WebsiteStatus) (s : list WebsiteStatus) :
  status_mem x s = true <-> In x s.
Proof.
  unfold status_mem. rewrite existsb_exists. unfold status_eqb. split.
  - intros [y [Hin Hy]]. destruct (status_eq_dec x y); [subst; auto|discriminate].
  - intros H. exists x. split; [exact H|].
    destruct (status_eq_dec x x); [reflexivity | tauto].
Qed.

Lemma is_dead_mem (r : WebsiteCheckResult) :
  is_dead r = status_mem (status r) DEAD_WEBSITE_STATUSES.
Proof. reflexivity. Qed.

Lemma float_lt_false (a b : Q) : float_lt a b = false <-> (b <= a)%Q.
Proof.
  unfold float_lt. rewrite negb_false_iff. apply Qle_bool_iff.
Qed.

Lemma has_website_valid (b : Business) :
  has_website b = negb (is_blank (website b)).
Proof.
  rewrite <- is_valid_url_spec. unfold has_website, is_valid_url, truthy.
  destruct (website b); reflexivity.
Qed.

(** What passing the nine checks means for a business. *)
Lemma accepts_true (c : FilterCriteria) (b : Business) :
  accepts c b = true ->
  is_blank (website b) = false /\
  exists r,
    website_check_result b = Some r /\
    In (status r) (include_statuses c) /\
    ~ In (status r) (exclude_statuses c) /\
    (min_rating c <= rating b)%Q /\
    (min_reviews c <= user_ratings_total b)%Z /\
    (require_phone c = true -> formatted_phone_number b <> []) /\
    type_wanted c b = true /\
    excluded_keyword c b = None.
Proof.
  unfold accepts. rewrite has_website_valid.
  destruct (website_check_result b) as [r|];
    [|rewrite andb_false_r; discriminate].
  rewrite !andb_true_iff, !negb_true_iff.
  intros [Hw [[[[[[Hi He] Hr] Hv] Hp] Ht] Hk]].
  split; [exact Hw|]. exists r. split; [reflexivity|].
  split; [apply status_mem_iff; exact Hi|].
  split; [intros Hin; apply status_mem_iff in Hin; congruence|].
  split; [apply float_lt_false; exact Hr|].
  split; [apply Z.ltb_ge; exact Hv|].
  split.
  - intros Hreq E. rewrite Hreq, E in Hp. discriminate.
  - split; [exact Ht|]. destruct (excluded_keyword c b); [discriminate|].
    reflexivity.
Qed.

Context {TT : PyText}.

(** X15.  Every lead that [filter_leads] returns comes from a business of the
    input and shows that the criteria were met: its website is not blank,
    its status is the value of a status of the include set that is not in
    the exclude set, its rating and its number of reviews reach the
    minima, and it has a phone number when one is required. *)
Theorem leads_meet_the_criteria
        (self : LeadFilter) (bs : list Business) (lead : Lead) :
  In lead (fst (filter_leads self bs)) ->
  exists b st,
    In b bs /\ lead = from_business b /\
    is_blank (website_url lead) = false /\
    website_status lead = status_value st /\
    In st (include_statuses (criteria self)) /\
    ~ In st (exclude_statuses (criteria self)) /\
    (min_rating (criteria self) <= lead_rating lead)%Q /\
    (min_reviews (criteria self) <= lead_user_ratings_total lead)%Z /\
    (require_phone (criteria self) = true -> phone lead <> []).
Proof.
  unfold filter_leads.
  pose proof (filter_loop_spec bs (reset_stats self) []) as H.
  destruct (filter_loop (reset_stats self) bs []) as [leads self'].
  destruct H as [Ho _]. cbn [fst app reset_stats criteria] in *.
  rewrite Ho. intros Hin. apply in_map_iff in Hin.
  destruct Hin as [b [<- Hb]]. apply filter_In in Hb.
  destruct Hb as [Hb Hacc].
  destruct (accepts_true _ _ Hacc)
    as [Hw [r [Hr [Hi [He [Hra [Hrv [Hp _]]]]]]]].
  exists b, (status r). unfold from_business. rewrite Hr.
  cbn [website_url website_status lead_rating lead_user_ratings_total phone].
  repeat split; auto.
Qed.

Lemma default_accepts (c : FilterCriteria) (b : Business) :
  c = criteria create_default_filter ->
  (0 <= rating b)%Q ->
  (0 <= user_ratings_total b)%Z ->
  accepts c b = Biz.is_potential_lead b.
Proof.
  intros -> Hr Hv.
  unfold accepts, Biz.is_potential_lead, type_wanted, excluded_keyword.
  cbn [create_default_filter new_filter new_criteria criteria
       include_statuses exclude_statuses min_rating min_reviews
       require_phone business_types exclude_keywords].
  destruct (has_website b); [|reflexivity]. cbn [negb andb].
  destruct (website_check_result b) as [r|]; [|reflexivity].
  rewrite is_dead_mem.
  apply float_lt_false in Hr. rewrite Hr.
  apply Z.ltb_ge in Hv. rewrite Hv.
  cbn [status_mem existsb negb andb]. rewrite !andb_true_r. reflexivity.
Qed.

Lemma answer_is_accepts (self : LeadFilter) (b : Business) :
  fst (is_potential_lead self b) = accepts (criteria self) b.
Proof.
  pose proof (is_potential_lead_spec self b) as H.
  destruct (is_potential_lead self b) as [answer self'].
  destruct H as [-> _]. reflexivity.
Qed.

(** X16.  The default filter and [Business.is_potential_lead] agree on every
    business whose rating and number of reviews are not negative, whatever
    the statistics of the filter are. *)
Theorem default_filter_agrees_with_business
        (self : LeadFilter) (b : Business) :
  criteria self = criteria create_default_filter ->
  (0 <= rating b)%Q ->
  (0 <= user_ratings_total b)%Z ->
  fst (is_potential_lead self b) = Biz.is_potential_lead b.
Proof.
  intros Hc Hr Hv. rewrite answer_is_accepts.
  apply default_accepts; assumption.
Qed.

(** X17.  A business that the quality filter accepts is accepted by the default
    filter and is a potential lead for [Business.is_potential_lead]; it
    has a phone number, a rating of 3.5 or more and 5 reviews or more. *)
Theorem quality_leads_are_default_leads
        (quality default : LeadFilter) (b : Business) :
  criteria quality = criteria create_quality_filter ->
  criteria default = criteria create_default_filter ->
  fst (is_potential_lead quality b) = true ->
  fst (is_potential_lead default b) = true /\
  Biz.is_potential_lead b = true /\
  formatted_phone_number b <> [] /\
  (7 # 2 <= rating b)%Q /\ (5 <= user_ratings_total b)%Z.
Proof.
  intros Hq Hd Hacc. rewrite answer_is_accepts, Hq in Hacc.
  destruct (accepts_true _ _ Hacc) as [Hw [r [Hr [Hi [_ [Hra [Hrv [Hp _]]]]]]]].
  cbn [create_quality_filter new_filter new_criteria criteria
       include_statuses min_rating min_reviews require_phone] in Hi, Hra, Hrv, Hp.
  assert (Hr0 : (0 <= rating b)%Q).
  { apply Qle_trans with (7 # 2)%Q; [discriminate | exact Hra]. }
  assert (Hb : Biz.is_potential_lead b = true).
  { unfold Biz.is_potential_lead. rewrite has_website_valid, Hw, Hr.
    cbn [negb]. rewrite is_dead_mem. apply status_mem_iff. exact Hi. }
  rewrite answer_is_accepts, (default_accepts _ b Hd Hr0); [|lia].
  repeat split; auto.
Qed.

End LeadCriteriaProps.

(** ** Custom filters and status names *)

Lemma status_of_value_iff (n : str) (st : WebsiteStatus) :
  status_of_value n = Some st <-> n = status_value st.
Proof.
  split.
  - intros H. unfold status_of_value in H. apply find_some in H.
    destruct H as [_ H]. apply str_eqb_eq in H. auto.
  - intros ->. destruct st; vm_compute; reflexivity.
Qed.

Lemma parse_statuses_iff (names : list str) (st : WebsiteStatus) :
  In st (Filter.parse_statuses names) <-> In (status_value st) names.
Proof.
  induction names as [|n names IH]; simpl; [tauto|].
  destruct (status_of_value n) as [st'|] eqn:E.
  - apply status_of_value_iff in E. simpl. rewrite IH. split.
    + intros [<- | H]; auto.
    + intros [H | H]; [|auto]. left.
      assert (E' : status_of_value n = Some st)
        by (apply status_of_value_iff; auto).
      assert (E'' : status_of_value n = Some st')
        by (apply status_of_value_iff; auto).
      congruence.
  - rewrite IH. split; [auto|]. intros [H | H]; [|exact H].
    assert (E' : status_of_value n = Some st)
      by (apply status_of_value_iff; auto).
    congruence.
Qed.

(** X18.  [create_custom_filter] with a non-empty list of status names includes
    exactly the statuses whose value is in the list: a name that is the
    value of no status is dropped, and when all are, the filter accepts no
    business at all (while the empty list stands for the dead set).  The
    value of a status is a name that [WebsiteStatus(...)] reads back. *)
Theorem custom_filter_includes_named_statuses
        {RT : PyRuntime} (names : list str) (min_rating : Q)
        (min_reviews : Z) (require_phone : bool)
        (exclude_keywords : option (list str)) :
  names <> [] ->
  let f := Filter.create_custom_filter (Some names) min_rating min_reviews
                                       require_phone exclude_keywords in
  (forall st, In st (Filter.include_statuses (Filter.criteria f)) <->
              In (status_value st) names) /\
  ((forall n, In n names -> status_of_value n = None) ->
   forall self b, Filter.criteria self = Filter.criteria f ->
                  fst (Filter.is_potential_lead self b) = false) /\
  (forall st, status_of_value (status_value st) = Some st) /\
  Filter.include_statuses
    (Filter.criteria
       (Filter.create_custom_filter (Some []) min_rating min_reviews
                                    require_phone exclude_keywords))
  = DEAD_WEBSITE_STATUSES.
Proof.
  intros Hne f.
  assert (Hinc : Filter.include_statuses (Filter.criteria f)
                 = Filter.parse_statuses names).
  { unfold f, Filter.create_custom_filter. destruct names; [tauto|].
    reflexivity. }
  split; [|split; [|split]].
  - intros st. rewrite Hinc. apply parse_statuses_iff.
  - intros Hnone self b Hc. rewrite answer_is_accepts, Hc.
    destruct (accepts (Filter.criteria f) b) eqn:A; [|reflexivity].
    exfalso. apply accepts_true in A.
    destruct A as [_ [r [_ [Hi _]]]]. rewrite Hinc in Hi.
    apply parse_statuses_iff in Hi.
    assert (E : status_of_value (status_value (status r))
                = Some (status r)) by (apply status_of_value_iff; auto).
    rewrite (Hnone _ Hi) in E. discriminate.
  - intros st. apply status_of_value_iff. reflexivity.
  - reflexivity.
Qed.

(** ** Statistics of the filter *)

Lemma insert_by_count_perm (x : str * Z) (l : list (str * Z)) :
  Permutation (Filter.insert_by_count x l) (x :: l).
Proof.
  induction l as [|y t IH]; simpl; [apply Permutation_refl|].
  destruct (snd y <=? snd x)%Z; [apply Permutation_refl|].
  apply perm_trans with (y :: x :: t); [apply perm_skip; exact IH|].
  apply perm_swap.
Qed.

Lemma sorted_by_count_perm (l : list (str * Z)) :
  Permutation (Filter.sorted_by_count l) l.
Proof.
  induction l as [|x l IH]; simpl; [apply perm_nil|].
  apply perm_trans with (x :: Filter.sorted_by_count l);
    [apply insert_by_count_perm | apply perm_skip; exact IH].
Qed.

Lemma insert_by_count_sorted (x : str * Z) (l : list (str * Z)) :
  StronglySorted by_count_desc l ->
  StronglySorted by_count_desc (Filter.insert_by_count x l).
Proof.
  induction l as [|y t IH]; intros Hs; simpl.
  - constructor; [constructor | constructor].
  - destruct (snd y <=? snd x)%Z eqn:E.
    + apply Z.leb_le in E. constructor; [exact Hs|].
      inversion Hs as [|? ? Ht Hy]; subst.
      constructor; [exact E|].
      apply Forall_forall. intros z Hz.
      rewrite Forall_forall in Hy. specialize (Hy z Hz).
      unfold by_count_desc in *. lia.
    + apply Z.leb_gt in E.
      inversion Hs as [|? ? Ht Hy]; subst.
      constructor; [apply IH; exact Ht|].
      apply Forall_forall. intros z Hz.
      apply (Permutation_in _ (insert_by_count_perm x t)) in Hz.
      destruct Hz as [<- | Hz].
      * unfold by_count_desc. lia.
      * rewrite Forall_forall in Hy. apply Hy. exact Hz.
Qed.

Lemma sorted_by_count_sorted (l : list (str * Z)) :
  StronglySorted by_count_desc (Filter.sorted_by_count l).
Proof.
  induction l as [|x l IH]; simpl; [constructor|].
  apply insert_by_count_sorted. exact IH.
Qed.

Lemma dict_total_perm (l l' : list (str * Z)) :
  Permutation l l' -> dict_total l = dict_total l'.
Proof.
  unfold dict_total.
  induction 1; simpl; try lia.
Qed.

(** X19.  The statistics after [filter_leads]: [get_stats] returns; the numbers
    passed and rejected add up to the number of businesses; the number
    rejected is the sum of the counts of the reasons; the pass rate lies
    between 0 and 100 (it is the integer 0 or a float [f] with
    [0.0 <= f <= 100.0]); and the reasons are those recorded, ordered by
    falling count. *)
Theorem filter_stats_are_consistent
        {RT : PyRuntime} {TT : PyText}
        (self : Filter.LeadFilter) (bs : list Business) :
  let self' := snd (Filter.filter_leads self bs) in
  exists s,
    Filter.get_stats self' = Return s /\
    Filter.stat_total_processed s = Z.of_nat (length bs) /\
    (Filter.stat_passed s + Filter.stat_rejected s
     = Filter.stat_total_processed s)%Z /\
    Filter.stat_passed s
    = Z.of_nat (length (fst (Filter.filter_leads self bs))) /\
    Filter.stat_rejected s = dict_total (Filter.rejection_reasons s) /\
    (Filter.pass_rate s = PyInt 0 \/
     exists f, Filter.pass_rate s = PyFloat f /\
               fleb (of_int 0) f = true /\ fleb f (of_int 100) = true) /\
    Permutation (Filter.rejection_reasons s) (Filter.rejected_reasons self') /\
    StronglySorted by_count_desc (Filter.rejection_reasons s).
Proof.
  cbv zeta. unfold Filter.filter_leads.
  pose proof (filter_loop_spec bs (Filter.reset_stats self) []) as H.
  destruct (Filter.filter_loop (Filter.reset_stats self) bs [])
    as [leads self'].
  destruct H as [Ho [_ [Ht [Hp Hr]]]].
  cbn [fst snd Filter.reset_stats Filter.criteria Filter.total_processed
       Filter.passed Filter.rejected_reasons app] in *.
  unfold dict_total in Hr at 2. cbn [fold_right] in Hr.
  assert (Hlen : length leads
                 = length (filter (accepts (Filter.criteria self)) bs))
    by (rewrite Ho; apply length_map).
  pose proof (filter_length_le (accepts (Filter.criteria self)) bs) as Hle.
  unfold Filter.get_stats.
  destruct (0 <? Filter.total_processed self')%Z eqn:E.
  - apply Z.ltb_lt in E.
    destruct (percentage_between (Filter.passed self')
                                 (Filter.total_processed self'))
      as [q [Hq Hb]]; [lia | lia |].
    rewrite Hq. cbn [bind]. eexists. split; [reflexivity|].
    cbn [Filter.stat_total_processed Filter.stat_passed Filter.stat_rejected
         Filter.pass_rate Filter.rejection_reasons].
    rewrite (dict_total_perm _ _ (sorted_by_count_perm _)).
    split; [lia|]. split; [lia|]. split; [lia|]. split; [lia|].
    split; [right; eexists; split; [reflexivity | exact Hb]|].
    split; [apply sorted_by_count_perm | apply sorted_by_count_sorted].
  - apply Z.ltb_ge in E. cbn [bind]. eexists. split; [reflexivity|].
    cbn [Filter.stat_total_processed Filter.stat_passed Filter.stat_rejected
         Filter.pass_rate Filter.rejection_reasons].
    rewrite (dict_total_perm _ _ (sorted_by_count_perm _)).
    split; [lia|]. split; [lia|]. split; [lia|]. split; [lia|].
    split; [left; reflexivity|].
    split; [apply sorted_by_count_perm | apply sorted_by_count_sorted].
Qed.

(** ** analyze_businesses *)

Lemma add_rating_total (k : Filter.RatingBuckets) (r : Q) :
  bucket_total (Filter.add_rating k r) = (bucket_total k + 1)%Z.
Proof.
  unfold Filter.add_rating, bucket_total.
  destruct (Qeq_bool r 0); [simpl; lia|].
  destruct (float_lt r 1); [simpl; lia|].
  destruct (float_lt r 2); [simpl; lia|].
  destruct (float_lt r 3); [simpl; lia|].
  destruct (float_lt r 4); simpl; lia.
Qed.

Lemma buckets_total (bs : list Business) :
  forall k,
    bucket_total (fold_left (fun k b => Filter.add_rating k (rating b)) bs k)
    = (bucket_total k + Z.of_nat (length bs))%Z.
Proof.
  induction bs as [|b bs IH]; intros k; cbn [fold_left length].
  - lia.
  - rewrite IH, add_rating_total. lia.
Qed.

Lemma breakdown_total (bs : list Business) :
  forall d,
    dict_total
      (fold_left
         (fun counts b =>
            match website_check_result b with
            | Some result => dict_bump counts (status_value (status result))
            | None => counts
            end) bs d)
    = (dict_total d + Z.of_nat (length (filter has_result bs)))%Z.
Proof.
  induction bs as [|b bs IH]; intros d; cbn [fold_left filter].
  - simpl. lia.
  - rewrite IH. unfold has_result at 2.
    destruct (website_check_result b);
      [rewrite dict_total_bump; cbn [length]|]; lia.
Qed.

Lemma filter_length_mono {A : Type} (p q : A -> bool) (l : list A) :
  (forall x, p x = true -> q x = true) ->
  (length (filter p l) <= length (filter q l))%nat.
Proof.
  intros H. induction l as [|x l IH]; simpl; [lia|].
  destruct (p x) eqn:P.
  - rewrite (H x P). simpl. lia.
  - destruct (q x); simpl; lia.
Qed.

(** X20.  The report of [analyze_businesses] is always produced and its counts
    fit together: with and without website add up to the total, the six
    rating classes add up to the total (every business falls in exactly
    one), the status breakdown adds up to the number of businesses that
    have a check result, the potential leads are at most the businesses
    with a website, and the lead rate lies between 0 and 100 (it is the
    integer 0 or a float [f] with [0.0 <= f <= 100.0]). *)
Theorem analysis_counts_fit_together (bs : list Business) :
  exists a,
    Filter.analyze_businesses bs = Return a /\
    Filter.total_businesses a = Z.of_nat (length bs) /\
    (Filter.with_website a + Filter.without_website a
     = Filter.total_businesses a)%Z /\
    bucket_total (Filter.rating_distribution a) = Filter.total_businesses a /\
    dict_total (Filter.website_status_breakdown a)
    = Filter.count_if has_result bs /\
    (0 <= Filter.potential_leads a <= Filter.with_website a)%Z /\
    (Filter.with_website a <= Filter.total_businesses a)%Z /\
    (Filter.lead_rate a = PyInt 0 \/
     exists f, Filter.lead_rate a = PyFloat f /\
               fleb (of_int 0) f = true /\ fleb f (of_int 100) = true).
Proof.
  assert (Hpl : (Filter.count_if Biz.is_potential_lead bs
                 <= Filter.count_if has_website bs)%Z).
  { unfold Filter.count_if. apply inj_le. apply filter_length_mono.
    intros b. unfold Biz.is_potential_lead.
    destruct (has_website b); [reflexivity | discriminate]. }
  assert (Hw : (Filter.count_if has_website bs <= Z.of_nat (length bs))%Z).
  { unfold Filter.count_if. apply inj_le. apply filter_length_le. }
  assert (H0 : (0 <= Filter.count_if Biz.is_potential_lead bs)%Z)
    by (unfold Filter.count_if; lia).
  unfold Filter.analyze_businesses.
  destruct (0 <? Z.of_nat (length bs))%Z eqn:E.
  - apply Z.ltb_lt in E.
    destruct (percentage_between (Filter.count_if Biz.is_potential_lead bs)
                                 (Z.of_nat (length bs)))
      as [q [Hq Hb]]; [lia | lia |].
    rewrite Hq. cbn [bind]. eexists. split; [reflexivity|].
    cbn [Filter.total_businesses Filter.with_website Filter.without_website
         Filter.rating_distribution Filter.website_status_breakdown
         Filter.potential_leads Filter.lead_rate].
    rewrite buckets_total, breakdown_total.
    split; [reflexivity|]. split; [lia|]. split; [reflexivity|].
    split; [reflexivity|]. split; [lia|]. split; [lia|].
    right. eexists. split; [reflexivity | exact Hb].
  - apply Z.ltb_ge in E. cbn [bind]. eexists. split; [reflexivity|].
    cbn [Filter.total_businesses Filter.with_website Filter.without_website
         Filter.rating_distribution Filter.website_status_breakdown
         Filter.potential_leads Filter.lead_rate].
    rewrite buckets_total, breakdown_total.
    split; [reflexivity|]. split; [lia|]. split; [reflexivity|].
    split; [reflexivity|]. split; [lia|]. split; [lia|].
    left. reflexivity.
Qed.

(** ** Business categories *)

Section CategoryProps.

Context {TT : PyText}.

Lemma first_known_skips (unknown rest : list str) :
  (forall u, In u unknown -> dict_get BUSINESS_TYPE_THAI u = None) ->
  first_known (unknown ++ rest) = first_known rest.
Proof.
  intros H. induction unknown as [|u unknown IH]; [reflexivity|].
  cbn [app first_known]. rewrite (H u); [|left; reflexivity].
  apply IH. intros v Hv. apply H. right. exact Hv.
Qed.

(** X21.  The category of a business is the Thai name of the first of its types
    that the table knows, however many unknown types come before it; when
    the table knows none of them, it is the first type with its
    underscores turned into spaces, in title case. *)
Theorem category_is_first_known_type
        (unknown rest : list str) (t thai : str) :
  (forall u, In u unknown -> dict_get BUSINESS_TYPE_THAI u = None) ->
  dict_get BUSINESS_TYPE_THAI t = Some thai ->
  get_business_category (unknown ++ t :: rest) = thai /\
  (forall first others,
      unknown = first :: others ->
      get_business_category unknown
      = str_title (replace_char 95%N 32%N first)).
Proof.
  intros Hunknown Ht. split.
  - unfold get_business_category.
    destruct (unknown ++ t :: rest) as [|f l] eqn:E.
    + destruct unknown; discriminate.
    + rewrite <- E, first_known_skips by exact Hunknown.
      cbn [first_known]. rewrite Ht. reflexivity.
  - intros first others ->. unfold get_business_category.
    replace (first :: others) with ((first :: others) ++ []) at 1
      by apply app_nil_r.
    rewrite first_known_skips by exact Hunknown.
    cbn [first_known]. rewrite (Hunknown first); [|left; reflexivity].
    reflexivity.
Qed.

End CategoryProps.

(** ** main.py: results and businesses *)

Lemma Forall2_map_right {A B : Type} (R : A -> B -> Prop) (f : A -> B)
      (l : list A) :
  (forall x, In x l -> R x (f x)) -> Forall2 R l (map f l).
Proof.
  induction l as [|x l IH]; intros H; simpl; constructor.
  - apply H. left. reflexivity.
  - apply IH. intros y Hy. apply H. right. exact Hy.
Qed.

Lemma index_by_url_sound (rs : list WebsiteCheckResult) :
  forall (d0 : dict WebsiteCheckResult) (k : str) (r : WebsiteCheckResult),
    dict_get (fold_left (fun d r => dict_set d (url r) r) rs d0) k = Some r ->
    (In r rs /\ url r = k) \/ dict_get d0 k = Some r.
Proof.
  induction rs as [|x rs IH]; intros d0 k r H; cbn [fold_left] in H.
  - right. exact H.
  - apply IH in H. destruct H as [[Hin Hk] | H].
    + left. split; [right; exact Hin | exact Hk].
    + rewrite dict_get_set in H. destruct (str_eqb (url x) k) eqn:E.
      * injection H as <-. apply str_eqb_eq in E. left. split; [left|]; auto.
      * right. exact H.
Qed.

Lemma index_by_url_complete (rs : list WebsiteCheckResult) :
  forall (d0 : dict WebsiteCheckResult) (k : str),
    (exists r, In r rs /\ url r = k) \/ dict_get d0 k <> None ->
    dict_get (fold_left (fun d r => dict_set d (url r) r) rs d0) k <> None.
Proof.
  induction rs as [|x rs IH]; intros d0 k H; cbn [fold_left].
  - destruct H as [[r [[] _]] | H]. exact H.
  - apply IH. destruct H as [[r [[<- | Hin] Hk]] | H].
    + right. rewrite dict_get_set. rewrite <- Hk, str_eqb_refl. discriminate.
    + left. exists r. auto.
    + right. rewrite dict_get_set. destruct (str_eqb (url x) k);
        [discriminate | exact H].
Qed.

(** X23.  [run_mock_mode] with a checker whose semaphore has a permit: the
    batch returns, and then every business whose website is not blank has
    a check result, and it is a result for the normal form of that
    website (never NO_WEBSITE nor DEAD_DOMAIN); a business whose website
    is empty or blank is left as it was; nothing else of a business
    changes. *)
Theorem every_checked_business_gets_its_result
        {RT : PyRuntime} (checker : WebsiteChecker)
        (businesses : list Business)
        (env : nat -> TaskEnv) (finish_order : nat -> nat) :
  (0 < concurrent_limit checker)%Z ->
  exists attached,
    Main.check_and_attach checker businesses env finish_order
    = Done attached /\
    Forall2
      (fun b b' =>
         (is_blank (website b) = true -> b' = b) /\
         (is_blank (website b) = false ->
          exists r,
            b' = with_result b r /\
            url r = _normalize_url (website b) /\
            status r <> NO_WEBSITE /\ status r <> DEAD_DOMAIN))
      businesses attached.
Proof.
  intros Hlimit. unfold Main.check_and_attach, awaited_results.
  set (urls := map website (filter (fun b => truthy (website b)) businesses)).
  rewrite (batch_returns checker env finish_order urls None Hlimit).
  eexists. split; [reflexivity|].
  unfold Main.attach_results, Main.index_by_url.
  destruct (batch_results_are_tasks checker env finish_order urls None Hlimit)
    as [Hcover Hsound].
  cbv zeta in Hcover, Hsound.
  set (rs := results (check_many checker urls None env finish_order)) in *.
  apply Forall2_map_right. intros b Hb. split.
  - intros Hblank. destruct (truthy (website b)); [|reflexivity].
    destruct (dict_get _ _) as [r|] eqn:G; [|reflexivity].
    exfalso. apply index_by_url_sound in G.
    destruct G as [[Hin Hk] | G]; [|discriminate].
    destruct (Hsound r Hin) as [k [u [_ [Hv ->]]]].
    destruct (valid_probe_facts checker env finish_order k u Hv) as [H1 [H2 _]].
    apply normalize_empty_iff_blank in Hblank. congruence.
  - intros Hvalid.
    assert (Hv : is_valid_url (website b) = true)
      by (rewrite is_valid_url_spec, Hvalid; reflexivity).
    assert (Ht : truthy (website b) = true).
    { destruct (website b); [discriminate Hvalid | reflexivity]. }
    rewrite Ht.
    assert (Hu : In (website b) urls).
    { unfold urls. apply in_map. apply filter_In. auto. }
    destruct (Hcover (website b) Hu Hv) as [k0 Hin0].
    destruct (dict_get _ (_normalize_url (website b))) as [r|] eqn:G.
    + apply index_by_url_sound in G.
      destruct G as [[Hin Hk] | G]; [|discriminate].
      destruct (Hsound r Hin) as [k [u [_ [Hvu ->]]]].
      destruct (task_status_in_batch checker env finish_order k u Hvu) as [S1 S2].
      eexists. split; [reflexivity|]. auto.
    + exfalso. revert G. apply index_by_url_complete.
      left. exists (task_result checker env k0 (website b)).
      split; [exact Hin0|].
      apply (valid_probe_facts checker env finish_order k0 (website b) Hv).
Qed.

Lemma index_both_sound (rs : list WebsiteCheckResult) :
  forall (d0 : dict WebsiteCheckResult) (k : str) (r : WebsiteCheckResult),
    dict_get
      (fold_left
         (fun d result =>
            dict_set (dict_set d (url result) result)
                     (_normalize_url (url result)) result) rs d0) k
    = Some r ->
    (In r rs /\ (url r = k \/ _normalize_url (url r) = k))
    \/ dict_get d0 k = Some r.
Proof.
  induction rs as [|x rs IH]; intros d0 k r H; cbn [fold_left] in H.
  - right. exact H.
  - apply IH in H. destruct H as [[Hin Hk] | H].
    + left. split; [right; exact Hin | exact Hk].
    + rewrite !dict_get_set in H.
      destruct (str_eqb (_normalize_url (url x)) k) eqn:E.
      * injection H as <-. apply str_eqb_eq in E.
        left. split; [left|]; auto.
      * destruct (str_eqb (url x) k) eqn:E'.
        -- injection H as <-. apply str_eqb_eq in E'.
           left. split; [left|]; auto.
        -- right. exact H.
Qed.

Lemma index_both_complete (rs : list WebsiteCheckResult) :
  forall (d0 : dict WebsiteCheckResult) (k : str),
    (exists r, In r rs /\ url r = k) \/ dict_get d0 k <> None ->
    dict_get
      (fold_left
         (fun d result =>
            dict_set (dict_set d (url result) result)
                     (_normalize_url (url result)) result) rs d0) k
    <> None.
Proof.
  induction rs as [|x rs IH]; intros d0 k H; cbn [fold_left].
  - destruct H as [[r [[] _]] | H]. exact H.
  - apply IH. destruct H as [[r [[<- | Hin] Hk]] | H].
    + right. rewrite !dict_get_set. rewrite <- Hk, str_eqb_refl.
      destruct (str_eqb _ _); discriminate.
    + left. exists r. auto.
    + right. rewrite !dict_get_set.
      destruct (str_eqb (_normalize_url (url x)) k); [discriminate|].
      destruct (str_eqb (url x) k); [discriminate | exact H].
Qed.

Lemma attach_and_record_spec (d : dict WebsiteCheckResult)
      (l : list Business) :
  Forall2
    (fun b b' =>
       match dict_get d (_normalize_url (website b)) with
       | Some r =>
           b' = with_result b r /\
           In (place_id b, r) (snd (Pipeline.attach_and_record d l))
       | None => b' = b
       end)
    l (fst (Pipeline.attach_and_record d l)).
Proof.
  induction l as [|b l IH]; cbn [Pipeline.attach_and_record].
  - constructor.
  - destruct (Pipeline.attach_and_record d l) as [out ups].
    cbn [fst snd] in IH.
    destruct (dict_get d (_normalize_url (website b))) as [r|] eqn:G;
      cbn [fst snd]; constructor.
    + rewrite G. split; [reflexivity | left; reflexivity].
    + revert IH. apply Forall2_impl. intros x y H.
      destruct (dict_get d (_normalize_url (website x)));
        [destruct H; split; [|right]; assumption | exact H].
    + rewrite G. reflexivity.
    + exact IH.
Qed.

Lemma Forall2_impl_left {A B : Type} (R S : A -> B -> Prop)
      (l : list A) (l' : list B) :
  Forall2 R l l' ->
  (forall x y, In x l -> R x y -> S x y) ->
  Forall2 S l l'.
Proof.
  induction 1 as [|x y l l' Hxy H IH]; intros Himp; constructor.
  - apply Himp; [left; reflexivity | exact Hxy].
  - apply IH. intros a b Ha. apply Himp. right. exact Ha.
Qed.

Lemma rstrip_by_head (drop : char -> bool) (c : char) (t : str) :
  drop c = false -> exists t', rstrip_by drop (c :: t) = c :: t'.
Proof.
  intros H. cbn [rstrip_by]. destruct (rstrip_by drop t) as [|x t'].
  - rewrite H. exists []. reflexivity.
  - exists (x :: t'). reflexivity.
Qed.

Lemma normalize_head (u : str) :
  strip u <> [] -> exists t, _normalize_url u = 104%N :: t.
Proof.
  intros Hne. rewrite (normalize_nonempty u Hne). unfold rstrip.
  destruct (startswith_any (strip u) SCHEMES) eqn:S; simpl negb; cbv iota.
  - unfold startswith_any, SCHEMES in S. cbn [existsb] in S.
    rewrite orb_false_r, orb_true_iff in S.
    destruct S as [S | S]; apply startswith_iff in S;
      destruct S as [post ->]; apply rstrip_by_head; reflexivity.
  - apply rstrip_by_head. reflexivity.
Qed.

Lemma normalize_not_blank (u : str) :
  is_valid_url u = true -> is_blank (_normalize_url u) = false.
Proof.
  intros Hv. rewrite is_valid_url_spec in Hv.
  destruct (normalize_head u) as [t ->]; [|reflexivity].
  intros E. apply strip_nil_iff in E. rewrite E in Hv. discriminate.
Qed.

(** X24.  [run_full_pipeline] with a checker whose semaphore has a permit:
    the batch returns, and of the businesses that have a website and no
    check result yet, every one whose website is not blank gets a result
    of the batch, which is also written to the database under its place
    id; the look-up never misses.  The result is one whose URL, or the
    normal form of whose URL, is the normal form of the website.  A
    business with a blank website stays without result. *)
Theorem pipeline_lookup_never_misses
        {RT : PyRuntime} (checker : WebsiteChecker)
        (businesses : list Business)
        (env : nat -> TaskEnv) (finish_order : nat -> nat) :
  (0 < concurrent_limit checker)%Z ->
  exists run,
    Pipeline.check_unchecked checker businesses env finish_order = Done run
    /\
    Forall2
      (fun b b' =>
         (is_blank (website b) = true -> b' = b) /\
         (is_blank (website b) = false ->
          exists r,
            b' = with_result b r /\
            In (place_id b, r) (snd run) /\
            (url r = _normalize_url (website b) \/
             _normalize_url (url r) = _normalize_url (website b)) /\
            status r <> NO_WEBSITE /\ status r <> DEAD_DOMAIN))
      (filter Pipeline.needs_check businesses) (fst run).
Proof.
  intros Hlimit. unfold Pipeline.check_unchecked, awaited_results.
  destruct (filter Pipeline.needs_check businesses) as [|b0 l0] eqn:F;
    [eexists; split; [reflexivity | constructor]|].
  rewrite <- F. clear b0 l0 F.
  set (todo := filter Pipeline.needs_check businesses).
  set (urls := map website todo).
  rewrite (batch_returns checker env finish_order urls None Hlimit).
  eexists. split; [reflexivity|].
  destruct (batch_results_are_tasks checker env finish_order urls None Hlimit)
    as [Hcover Hsound].
  cbv zeta in Hcover, Hsound.
  set (rs := results (check_many checker urls None env finish_order)) in *.
  unfold Pipeline.index_by_url_and_normal_form.
  apply (Forall2_impl_left _ _ _ _
           (attach_and_record_spec
              (fold_left
                 (fun d result =>
                    dict_set (dict_set d (url result) result)
                             (_normalize_url (url result)) result) rs [])
              todo)).
  intros b b' Hb H. split.
  - intros Hblank.
    destruct (dict_get _ _) as [r|] eqn:G; [|exact H].
    exfalso. apply index_both_sound in G.
    destruct G as [[Hin Hk] | G]; [|discriminate].
    destruct (Hsound r Hin) as [k [u [_ [Hv ->]]]].
    destruct (valid_probe_facts checker env finish_order k u Hv) as [Hu [Hne _]].
    apply normalize_empty_iff_blank in Hblank. rewrite Hblank in Hk.
    destruct Hk as [Hk | Hk]; [congruence|].
    apply normalize_empty_iff_blank in Hk.
    rewrite Hu, (normalize_not_blank u Hv) in Hk. discriminate.
  - intros Hvalid.
    assert (Hv : is_valid_url (website b) = true)
      by (rewrite is_valid_url_spec, Hvalid; reflexivity).
    assert (Hu : In (website b) urls) by (unfold urls; apply in_map; exact Hb).
    destruct (Hcover (website b) Hu Hv) as [k0 Hin0].
    destruct (dict_get _ (_normalize_url (website b))) as [r|] eqn:G.
    + destruct H as [-> Hup].
      apply index_both_sound in G.
      destruct G as [[Hin Hk] | G]; [|discriminate].
      destruct (Hsound r Hin) as [k [u [_ [Hvu ->]]]].
      destruct (task_status_in_batch checker env finish_order k u Hvu) as [S1 S2].
      eexists. split; [reflexivity|]. auto.
    + exfalso. revert G. apply index_both_complete.
      left. exists (task_result checker env k0 (website b)).
      split; [exact Hin0|].
      apply (valid_probe_facts checker env finish_order k0 (website b) Hv).
Qed.

(** ** The further properties on concrete inputs *)

Section ConcreteMore.

Import Samples MoreSamples LeadSamples.

(** Started at 0.0 and classified at 1.0: 1000.0 milliseconds. *)
Lemma do_check_result_fields_witness :
  Models.url plain_result = example_url /\
  response_time_ms plain_result = Some (of_int 1000) /\
  status_code plain_result = Some 200%Z /\
  final_url plain_result = Some (lit "https://example.com/").
Proof.
  apply (do_check_result_fields
           (RT := RefRuntime.runtime) default_checker example_url at_start
           (serves (lit "hello")) plain_result).
  vm_compute. reflexivity.
Defined.

Lemma status_code_bands_witness :
  exists r,
    _do_check (RT := RefRuntime.runtime) default_checker example_url at_start
              server_error = Return r /\
    status r = HTTP_ERROR_5XX.
Proof.
  destruct (status_code_bands
              (RT := RefRuntime.runtime) default_checker example_url at_start
              server_error
              (respond GET (mkReply 500 (lit "https://example.com/")
                                    (Return []))))
    as [r [Hr [H5 _]]].
  - reflexivity.
  - vm_compute. reflexivity.
  - exists r. split; [exact Hr|]. apply H5. simpl. lia.
Defined.

Lemma rejected_head_leaves_no_trace_witness :
  exchange (head_rejected 405) = client_get (head_rejected 405) /\
  _do_check (RT := RefRuntime.runtime) default_checker example_url at_start
            (head_rejected 405)
  = _do_check (RT := RefRuntime.runtime) default_checker example_url at_start
              (head_rejected 503).
Proof.
  apply (rejected_head_leaves_no_trace
           (RT := RefRuntime.runtime) default_checker example_url at_start
           (head_rejected 405) (head_rejected 503)
           (mkReply 405 (lit "https://example.com/error") (Return (lit "no")))
           (mkReply 503 (lit "https://example.com/error") (Return (lit "no")))).
  - reflexivity.
  - reflexivity.
  - simpl. lia.
  - simpl. lia.
  - reflexivity.
  - reflexivity.
Defined.

Lemma named_exceptions_are_classified_by_kind_witness :
  exists r,
    _do_check (RT := RefRuntime.runtime) default_checker example_url at_start
              refused = Return r /\
    status r <> SSL_ERROR /\
    status_code r = None /\ final_url r = None /\
    status r = CONNECTION_ERROR.
Proof.
  apply (named_exceptions_are_classified_by_kind
           (RT := RefRuntime.runtime) default_checker example_url at_start
           refused bad_certificate).
  - reflexivity.
  - simpl. discriminate.
Defined.

Lemma unparsable_url_is_not_classified_witness :
  _extract_domain (RT := RefRuntime.runtime) (lit "http://[sedo.com/x") = [] /\
  _is_parking_domain (RT := RefRuntime.runtime) (lit "http://[sedo.com/x")
  = false /\
  should_skip_domain (RT := RefRuntime.runtime) (lit "http://[sedo.com/x")
  = false.
Proof.
  apply (unparsable_url_is_not_classified
           (RT := RefRuntime.runtime) (lit "http://[sedo.com/x")).
  vm_compute. reflexivity.
Defined.

Lemma shared_phrase_never_under_construction_witness :
  status parking_result <> UNDER_CONSTRUCTION.
Proof.
  apply (shared_phrase_never_under_construction
           (RT := RefRuntime.runtime) default_checker example_url at_start
           (serves (lit "Coming soon")) head_200 (lit "Coming soon")
           (lit "coming soon") parking_result).
  - vm_compute. tauto.
  - vm_compute. tauto.
  - vm_compute. reflexivity.
  - reflexivity.
  - reflexivity.
  - exists [], []. vm_compute. reflexivity.
  - vm_compute. reflexivity.
Defined.

Lemma short_body_one_phrase_suffices_witness :
  exists r,
    _do_check (RT := RefRuntime.runtime) default_checker example_url at_start
              (serves (lit "We're working on it!")) = Return r /\
    status r = UNDER_CONSTRUCTION.
Proof.
  destruct (short_body_one_phrase_suffices
              (RT := RefRuntime.runtime) default_checker example_url at_start
              (serves (lit "We're working on it!")) head_200
              (lit "We're working on it!"))
    as [r [Hr [Hshort _]]].
  - reflexivity.
  - reflexivity.
  - simpl. lia.
  - vm_compute. reflexivity.
  - reflexivity.
  - vm_compute. discriminate.
  - apply no_parking_keyword. vm_compute. reflexivity.
  - exists r. split; [exact Hr|]. apply Hshort.
    + apply Nat.ltb_lt. vm_compute. reflexivity.
    + exists (lit "we're working on it"). split; [vm_compute; tauto|].
      exists [], (lit "!"). vm_compute. reflexivity.
Defined.


Lemma leads_meet_the_criteria_witness :
  exists b st,
    In b [test_restaurant] /\
    from_business (TT := RefText.text) test_restaurant
    = from_business (TT := RefText.text) b /\
    is_blank (website_url (from_business (TT := RefText.text) test_restaurant))
    = false /\
    website_status (from_business (TT := RefText.text) test_restaurant)
    = status_value st /\
    In st (Filter.include_statuses
             (Filter.criteria Filter.create_quality_filter)) /\
    ~ In st (Filter.exclude_statuses
               (Filter.criteria Filter.create_quality_filter)) /\
    (Filter.min_rating (Filter.criteria Filter.create_quality_filter)
     <= lead_rating (from_business (TT := RefText.text) test_restaurant))%Q /\
    (Filter.min_reviews (Filter.criteria Filter.create_quality_filter)
     <= lead_user_ratings_total
          (from_business (TT := RefText.text) test_restaurant))%Z /\
    (Filter.require_phone (Filter.criteria Filter.create_quality_filter)
     = true ->
     phone (from_business (TT := RefText.text) test_restaurant) <> []).
Proof.
  apply (leads_meet_the_criteria
           (RT := RefRuntime.runtime) (TT := RefText.text)
           Filter.create_quality_filter [test_restaurant]
           (from_business (TT := RefText.text) test_restaurant)).
  vm_compute. left. reflexivity.
Defined.

Lemma default_filter_agrees_with_business_witness :
  fst (Filter.is_potential_lead (RT := RefRuntime.runtime)
                                Filter.create_default_filter test_restaurant)
  = Biz.is_potential_lead test_restaurant.
Proof.
  apply (default_filter_agrees_with_business
           (RT := RefRuntime.runtime) Filter.create_default_filter
           test_restaurant).
  - reflexivity.
  - unfold Qle. simpl. lia.
  - simpl. lia.
Defined.

Lemma quality_leads_are_default_leads_witness :
  fst (Filter.is_potential_lead (RT := RefRuntime.runtime)
                                Filter.create_default_filter test_restaurant)
  = true /\
  Biz.is_potential_lead test_restaurant = true /\
  formatted_phone_number test_restaurant <> [] /\
  (7 # 2 <= rating test_restaurant)%Q /\
  (5 <= user_ratings_total test_restaurant)%Z.
Proof.
  apply (quality_leads_are_default_leads
           (RT := RefRuntime.runtime) Filter.create_quality_filter
           Filter.create_default_filter test_restaurant).
  - reflexivity.
  - reflexivity.
  - vm_compute. reflexivity.
Defined.

Lemma custom_filter_includes_named_statuses_witness :
  let f := Filter.create_custom_filter
             (Some [lit "NO_DNS"; lit "bogus"]) 0 0 false None in
  (forall st, In st (Filter.include_statuses (Filter.criteria f)) <->
              In (status_value st) [lit "NO_DNS"; lit "bogus"]) /\
  ((forall n, In n [lit "NO_DNS"; lit "bogus"] -> status_of_value n = None) ->
   forall self b, Filter.criteria self = Filter.criteria f ->
                  fst (Filter.is_potential_lead
                         (RT := RefRuntime.runtime) self b) = false) /\
  (forall st, status_of_value (status_value st) = Some st) /\
  Filter.include_statuses
    (Filter.criteria
       (Filter.create_custom_filter (Some []) 0 0 false None))
  = DEAD_WEBSITE_STATUSES.
Proof.
  apply (custom_filter_includes_named_statuses
           (RT := RefRuntime.runtime) [lit "NO_DNS"; lit "bogus"]
           0 0 false None).
  discriminate.
Defined.

Lemma category_is_first_known_type_witness :
  get_business_category (TT := RefText.text)
                        ([lit "some_place"] ++ lit "restaurant" :: [lit "food"])
  = [3619; 3657; 3634; 3609; 3629; 3634; 3627; 3634; 3619]%N /\
  (forall first others,
      [lit "some_place"] = first :: others ->
      get_business_category (TT := RefText.text) [lit "some_place"]
      = str_title (PyText := RefText.text) (replace_char 95%N 32%N first)).
Proof.
  apply (category_is_first_known_type
           (TT := RefText.text) [lit "some_place"] [lit "food"]
           (lit "restaurant")).
  - intros u [<- | []]. vm_compute. reflexivity.
  - vm_compute. reflexivity.
Defined.

(** Started at 0.1 and classified at 0.3: 199.99999999999997
    milliseconds, and not 200. *)
Lemma elapsed_time_is_rounded :
  elapsed_ms (S754_finite false 7205759403792794 (-56))
             (mkAttempt (Raise bad_certificate) (Raise bad_certificate)
                        (S754_finite false 5404319552844595 (-54)))
  = Some (S754_finite false 7036874417766399 (-45)).
Proof. vm_compute. reflexivity. Qed.

(** The category of a business whose only type is unknown to the table *)
Lemma category_of_unknown_type :
  get_business_category (TT := RefText.text) [lit "some_place"]
  = lit "Some Place".
Proof. vm_compute. reflexivity. Qed.

End ConcreteMore.

(** ** Business.to_dict and Business.from_dict *)

Section CodecProps.

Import Codec.

Lemma split_no_comma (c : char) (x : str) :
  char_in x c = false -> split_char c x = [x].
Proof.
  induction x as [|a x IH]; intros H; [reflexivity|].
  unfold char_in in H. cbn [existsb] in H.
  apply orb_false_iff in H. destruct H as [Ha Hx].
  cbn [split_char]. rewrite N.eqb_sym, Ha.
  unfold char_in in IH. rewrite (IH Hx). reflexivity.
Qed.

Lemma split_app_comma (c : char) (x rest : str) :
  char_in x c = false ->
  split_char c (x ++ c :: rest) = x :: split_char c rest.
Proof.
  induction x as [|a x IH]; intros H.
  - cbn [app split_char]. rewrite N.eqb_refl. reflexivity.
  - unfold char_in in H. cbn [existsb] in H.
    apply orb_false_iff in H. destruct H as [Ha Hx].
    cbn [app split_char]. rewrite N.eqb_sym, Ha.
    unfold char_in in IH. rewrite (IH Hx). reflexivity.
Qed.

Lemma split_join (c : char) (l : list str) :
  (forall t, In t l -> char_in t c = false) ->
  split_char c (join [c] l) = match l with [] => [[]] | _ => l end.
Proof.
  induction l as [|x l IH]; intros H; [reflexivity|].
  destruct l as [|y l].
  - cbn [join]. apply split_no_comma. apply H. left. reflexivity.
  - change (join [c] (x :: y :: l)) with (x ++ [c] ++ join [c] (y :: l)).
    cbn [app]. rewrite split_app_comma by (apply H; left; reflexivity).
    rewrite IH; [reflexivity|]. intros t Ht. apply H. right. exact Ht.
Qed.

Context {PP : PyParse}.

(** X22.  Reading back, at the time [now], what [to_dict] wrote:
    [from_dict] succeeds, provided no type contains a comma.  Three
    fields do not come back as they were: the check result is dropped;
    the time stamp is [now] and not the one of the business, although
    [to_dict] wrote that one, as its ISO text; and an empty list of types
    comes back as the list of one empty string.  All the other fields
    come back unchanged. *)
Theorem from_dict_reads_back_to_dict (b : Business) (now : datetime) :
  (forall t, In t (types b) -> char_in t COMMA = false) ->
  dict_get (to_dict b) (lit "fetched_at")
  = Some (VStr (isoformat (fetched_at b))) /\
  from_dict now (to_dict b)
  = Some (mkBusiness (place_id b) (name b) (formatted_address b)
                     (formatted_phone_number b) (website b) (rating b)
                     (user_ratings_total b)
                     (match types b with
                      | [] => [[]]
                      | _ => types b
                      end)
                     (business_status b) (geometry_lat b) (geometry_lng b)
                     (keyword_searched b) now None).
Proof.
  intros Hcomma. split; [reflexivity|].
  unfold from_dict, get_str, get_float, get_int, get_types.
  change (dict_get (to_dict b) (lit "place_id"))
    with (Some (VStr (place_id b))).
  change (dict_get (to_dict b) (lit "name"))
    with (Some (VStr (name b))).
  change (dict_get (to_dict b) (lit "formatted_address"))
    with (Some (VStr (formatted_address b))).
  change (dict_get (to_dict b) (lit "formatted_phone_number"))
    with (Some (VStr (formatted_phone_number b))).
  change (dict_get (to_dict b) (lit "website"))
    with (Some (VStr (website b))).
  change (dict_get (to_dict b) (lit "rating"))
    with (Some (VFloat (rating b))).
  change (dict_get (to_dict b) (lit "user_ratings_total"))
    with (Some (VInt (user_ratings_total b))).
  change (dict_get (to_dict b) (lit "types"))
    with (Some (VStr (join [COMMA] (types b)))).
  change (dict_get (to_dict b) (lit "business_status"))
    with (Some (VStr (business_status b))).
  change (dict_get (to_dict b) (lit "geometry_lat"))
    with (Some (VFloat (geometry_lat b))).
  change (dict_get (to_dict b) (lit "geometry_lng"))
    with (Some (VFloat (geometry_lng b))).
  change (dict_get (to_dict b) (lit "keyword_searched"))
    with (Some (VStr (keyword_searched b))).
  cbn [opt_bind py_float py_int].
  rewrite (split_join COMMA (types b) Hcomma). reflexivity.
Qed.

End CodecProps.

(** ** A batch without valid URL *)

Lemma filter_none {A : Type} (p : A -> bool) (l : list A) :
  (forall x, In x l -> p x = false) -> filter p l = [].
Proof.
  induction l as [|x l IH]; intros H; [reflexivity|].
  simpl. rewrite (H x); [|left; reflexivity].
  apply IH. intros y Hy. apply H. right. exact Hy.
Qed.

(** X12.  A batch whose URLs are all empty or blank (an empty list too)
    returns, whatever the semaphore holds, with no result; it does not
    call the progress callback and leaves the checker and its counters
    exactly as they were. *)
Theorem blank_batch_does_nothing
        {RT : PyRuntime} (self : WebsiteChecker) (urls : list str)
        (cb : option callback) (env : nat -> TaskEnv)
        (finish_order : nat -> nat) :
  (forall u, In u urls -> is_blank u = true) ->
  check_many self urls cb env finish_order = mkBatch [] 0 self [] true.
Proof.
  intros H. rewrite check_many_unfold. cbv zeta.
  rewrite (filter_none is_valid_url urls); [reflexivity|].
  intros u Hu. rewrite is_valid_url_spec, (H u Hu). reflexivity.
Qed.

(** ** A batch in front of a semaphore without permit *)

(** X25.  With a semaphore that has no permit ([concurrent_limit] 0), a
    batch with at least one URL that is not blank never returns: no task
    gets past the semaphore, so no result is appended, the progress
    callback is never called and the counters stay as they were; the
    caller that awaits the results waits for ever. *)
Theorem batch_without_permit_never_returns
        {RT : PyRuntime} (self : WebsiteChecker) (urls : list str)
        (cb : option callback) (env : nat -> TaskEnv)
        (finish_order : nat -> nat) :
  (concurrent_limit self <= 0)%Z ->
  (exists u, In u urls /\ is_blank u = false) ->
  let run := check_many self urls cb env finish_order in
  returned run = false /\
  results run = [] /\
  progress_calls run = [] /\
  checker run = self /\
  awaited_results run = Pending /\
  (forall i u, In u urls -> is_blank u = false ->
               _check_with_progress self u (env i) = Pending).
Proof.
  intros Hlimit [u [Hin Hu]]. cbv zeta.
  rewrite (batch_waits_without_permit self env finish_order urls cb Hlimit).
  - unfold awaited_results. cbn [returned results progress_calls checker].
    repeat split. intros i v _ Hv.
    apply task_waits; [exact Hlimit|].
    rewrite is_valid_url_spec, Hv. reflexivity.
  - intros E.
    assert (Hf : In u (filter is_valid_url urls)).
    { apply filter_In. split; [exact Hin|].
      rewrite is_valid_url_spec, Hu. reflexivity. }
    rewrite E in Hf. destruct Hf.
Qed.

Section ConcreteLast.

Import Samples MoreSamples LeadSamples Codec.

Lemma blank_batch_does_nothing_witness :
  check_many (RT := RefRuntime.runtime) default_checker
             [lit ""; lit "   "] None
             (fun _ => mkTaskEnv at_start always_broken) first_to_finish
  = mkBatch [] 0 default_checker [] true.
Proof.
  apply (blank_batch_does_nothing
           (RT := RefRuntime.runtime) default_checker [lit ""; lit "   "]).
  intros u [<- | [<- | []]]; reflexivity.
Defined.

(** A business fetched on 10 December 2024 at 9:30 and read back on
    2 January 2025 at 8:00:00.000250 *)
Lemma from_dict_reads_back_to_dict_witness :
  dict_get (to_dict test_restaurant) (lit "fetched_at")
  = Some (VStr (lit "2024-12-10T09:30:00")) /\
  from_dict (PP := no_parse) (mkDatetime 2025 1 2 8 0 0 250)
            (to_dict test_restaurant)
  = Some (mkBusiness (lit "1") (lit "Test Restaurant") []
                     (lit "02-123-4567") (lit "https://dead-site.com")
                     (9 # 2) 100
                     [lit "some_place"; lit "restaurant"; lit "food"]
                     [] 0 0 [] (mkDatetime 2025 1 2 8 0 0 250) None).
Proof.
  apply (from_dict_reads_back_to_dict
           (PP := no_parse) test_restaurant (mkDatetime 2025 1 2 8 0 0 250)).
  intros t [<- | [<- | [<- | []]]]; reflexivity.
Defined.

Lemma batch_one_result_and_tick_per_valid_url_witness :
  let urls := [lit "example.com"; lit "  "; lit "example.org"] in
  let run := check_many (RT := RefRuntime.runtime) default_checker urls
                        (Some silent) flaky_env first_to_finish in
  returned run = true /\
  length (results run) = 2%nat /\
  Permutation
    (map Done (results run))
    (map_indexed
       (fun i url =>
          _check_with_progress (RT := RefRuntime.runtime) default_checker
                               url (flaky_env i))
       0 [lit "example.com"; lit "example.org"]) /\
  progress_calls run = [(1, 2); (2, 2)]%Z /\
  length (progress_calls run) = 2%nat /\
  StronglySorted Z.lt (map fst (progress_calls run)) /\
  last (map fst (progress_calls run)) 0%Z = 2%Z.
Proof.
  apply (batch_one_result_and_tick_per_valid_url
           (RT := RefRuntime.runtime) default_checker flaky_env
           first_to_finish
           [lit "example.com"; lit "  "; lit "example.org"] silent).
  simpl. lia.
Defined.

Lemma probe_stays_within_budget_witness :
  exists run,
    check_single (RT := RefRuntime.runtime) default_checker
                 (lit "example.com") at_start always_broken = Done run /\
    (tries run <= 3)%nat /\
    sleeps run
    = map (fun j => fmul half (of_int (Z.of_nat j + 1)))
          (seq 0 (tries run - 1)) /\
    Models.url (probe_result run) = lit "https://example.com" /\
    In (status (probe_result run)) (NO_WEBSITE :: UNKNOWN :: DEFINITE) /\
    status (probe_result run) <> DEAD_DOMAIN.
Proof.
  apply (probe_stays_within_budget
           (RT := RefRuntime.runtime) default_checker at_start always_broken
           (lit "example.com")).
  simpl. lia.
Defined.

Lemma batch_results_match_normalized_inputs_witness :
  let urls := [lit "example.com"; lit "  "] in
  let run := check_many (RT := RefRuntime.runtime) default_checker urls
                        None flaky_env first_to_finish in
  returned run = true /\
  (forall u, In u urls -> is_valid_url u = true ->
             exists r, In r (results run) /\
                       Models.url r = _normalize_url u) /\
  (forall r, In r (results run) ->
             (exists u, In u urls /\ is_valid_url u = true /\
                        Models.url r = _normalize_url u) /\
             Models.url r <> [] /\
             status r <> NO_WEBSITE /\ status r <> DEAD_DOMAIN).
Proof.
  apply (batch_results_match_normalized_inputs
           (RT := RefRuntime.runtime) default_checker flaky_env
           first_to_finish [lit "example.com"; lit "  "] None).
  simpl. lia.
Defined.

Lemma batch_keeps_counters_consistent_witness :
  let run := check_many (RT := RefRuntime.runtime) default_checker
                        [lit "example.com"; lit "  "] None
                        flaky_env first_to_finish in
  total_checked (checker run) = (0 + 1)%Z /\
  (0 <= total_dead (checker run) <= 0 + 1)%Z /\
  ((0 <= 0 <= 0)%Z ->
   (0 <= total_dead (checker run) <= total_checked (checker run))%Z) /\
  concurrent_limit (checker run) = 100%Z /\
  timeout (checker run) = 10%Z /\
  max_retries (checker run) = 2%Z /\
  check_content (checker run) = true.
Proof.
  apply (batch_keeps_counters_consistent
           (RT := RefRuntime.runtime) default_checker flaky_env
           first_to_finish [lit "example.com"; lit "  "] None).
  simpl. lia.
Defined.

Lemma every_checked_business_gets_its_result_witness :
  exists attached,
    Main.check_and_attach (RT := RefRuntime.runtime) default_checker
                          [unchecked_cafe] flaky_env first_to_finish
    = Done attached /\
    Forall2
      (fun b b' =>
         (is_blank (website b) = true -> b' = b) /\
         (is_blank (website b) = false ->
          exists r,
            b' = with_result b r /\
            url r = _normalize_url (website b) /\
            status r <> NO_WEBSITE /\ status r <> DEAD_DOMAIN))
      [unchecked_cafe] attached.
Proof.
  apply (every_checked_business_gets_its_result
           (RT := RefRuntime.runtime) default_checker [unchecked_cafe]
           flaky_env first_to_finish).
  simpl. lia.
Defined.

Lemma pipeline_lookup_never_misses_witness :
  exists run,
    Pipeline.check_unchecked (RT := RefRuntime.runtime) default_checker
                             [test_restaurant; unchecked_cafe]
                             flaky_env first_to_finish
    = Done run /\
    Forall2
      (fun b b' =>
         (is_blank (website b) = true -> b' = b) /\
         (is_blank (website b) = false ->
          exists r,
            b' = with_result b r /\
            In (place_id b, r) (snd run) /\
            (url r = _normalize_url (website b) \/
             _normalize_url (url r) = _normalize_url (website b)) /\
            status r <> NO_WEBSITE /\ status r <> DEAD_DOMAIN))
      [unchecked_cafe] (fst run).
Proof.
  apply (pipeline_lookup_never_misses
           (RT := RefRuntime.runtime) default_checker
           [test_restaurant; unchecked_cafe] flaky_env first_to_finish).
  simpl. lia.
Defined.

Lemma batch_without_permit_never_returns_witness :
  let closed := mkChecker 0 10 2 true 0 0 in
  let run := check_many (RT := RefRuntime.runtime) closed
                        [lit "example.com"; lit "  "] (Some silent)
                        flaky_env first_to_finish in
  returned run = false /\
  results run = [] /\
  progress_calls run = [] /\
  checker run = closed /\
  awaited_results run = Pending /\
  (forall i u, In u [lit "example.com"; lit "  "] -> is_blank u = false ->
               _check_with_progress (RT := RefRuntime.runtime) closed u
                                    (flaky_env i) = Pending).
Proof.
  apply (batch_without_permit_never_returns
           (RT := RefRuntime.runtime) (mkChecker 0 10 2 true 0 0)
           [lit "example.com"; lit "  "] (Some silent) flaky_env
           first_to_finish).
  - simpl. lia.
  - exists (lit "example.com"). split; [left; reflexivity | reflexivity].
Defined.

(** With a semaphore without permit the same batch never returns, and
    the caller of [check_many] never gets to the businesses. *)
Lemma closed_semaphore_blocks_the_batch :
  let closed := mkChecker 0 10 2 true 0 0 in
  check_single (RT := RefRuntime.runtime) closed (lit "example.com")
               at_start flaky = Pending /\
  check_many (RT := RefRuntime.runtime) closed
             [lit "example.com"; lit "  "] (Some silent)
             flaky_env first_to_finish
  = mkBatch [] 0 closed [] false /\
  Main.check_and_attach (RT := RefRuntime.runtime) closed
                        [unchecked_cafe] flaky_env first_to_finish
  = Pending /\
  new_checker (-1) 10 2 true = Raise ValueError.
Proof. vm_compute. repeat split. Qed.

Lemma isoformat_with_microseconds :
  isoformat (mkDatetime 2025 1 2 8 0 0 250)
  = lit "2025-01-02T08:00:00.000250".
Proof. vm_compute. reflexivity. Qed.

End ConcreteLast.
